(** * Reading tracker: scoring and aggregation routines

    A shallow embedding of the scoring code of the book-reading tracker:

    - the dashboard statistics route ([calculateReadingStreak],
      [processMonthlyStats]),
    - the leaderboard route ([GET] of [api/leaderboard]),
    - the reading-progress route ([POST] of the progress handler),
    - the summaries routes ([PATCH] for rating, [POST] for creation).

    Conventions of the embedding.

    - A JavaScript [Date] is its [getTime()] value: an integer number of
      milliseconds since the epoch, in [Z].  The server's local time zone is
      taken to be UTC, so [setHours(0,0,0,0)] truncates to a multiple of
      [msPerDay] and [setDate(getDate() - 1)] on a midnight subtracts
      [msPerDay].
    - A request is served at one instant: every [new Date()] of a handler
      reads the same value, the [now] (or [today]) argument of its model.
    - Page counts, points and counters are integers in [Z].  A number the
      code computes by a division is a rational in [Q].  The percentage the
      progress route stores and the level bar of the dashboard page are
      computed as the code computes them, in double precision
      ([Double.round] after every operation).  The rounded statistics of
      the leaderboard and of the dashboard route are computed on exact
      rationals, and only what does not depend on the rounding of doubles
      is stated about them.
    - The relational store is a record of tables, each a list of rows in
      storage order.  A store operation that throws makes the handler's
      [catch] answer 500; the writes that came before it stay.
    - A query with [orderBy] leaves the order of rows with equal keys to
      the store.  Where a statement depends on that order, the store's
      answer is a parameter ([Leaderboard.orderedByPointsDesc],
      [SummaryList.orderedByCreatedAtDesc]); elsewhere rows with equal keys
      are taken in storage order.
    - Strings are UTF-8 byte strings; the white space of [trim] is the
      white space of ECMAScript in that encoding. *)

From Stdlib Require Import ZArith QArith Qround Qminmax Qabs Qpower Lqa Bool String Ascii Lia.
From Stdlib Require Import List Sorted Permutation.
From Stdlib Require Import Floats Uint63.
Import ListNotations.
Open Scope Z_scope.

(* ------------------------------------------------------------------ *)
(** ** JavaScript primitives used by the routes *)

Module Js.

(** [Math.round]: nearest integer, ties toward +infinity. *)
Definition Math_round (q : Q) : Z := Qfloor (q + (1 # 2))%Q.

(** [Math.floor (a / b)] on integers, for a positive [b]. *)
Definition floorDiv (a b : Z) : Z := a / b.

(** Truthiness of a possibly missing number: [undefined], [null] and [0]
    are falsy. *)
Definition truthyNum (v : option Z) : bool :=
  match v with
  | Some n => negb (n =? 0)
  | None => false
  end.

(** [a || b] on possibly missing numbers. *)
Definition or (a b : option Z) : option Z :=
  if truthyNum a then a else b.

(** [a || d] where [d] is a number literal. *)
Definition orNum (a : option Z) (d : Z) : Z :=
  match a with
  | Some n => if n =? 0 then d else n
  | None => d
  end.

(** The number a possibly [null] value stands for in an addition: [null]
    counts as 0. *)
Definition toNumber (v : option Z) : Z :=
  match v with
  | Some n => n
  | None => 0
  end.

(** Truthiness of a possibly missing string: [undefined], [null] and the
    empty string are falsy. *)
Definition truthyStr (v : option string) : bool :=
  match v with
  | Some s => negb (String.eqb s EmptyString)
  | None => false
  end.

(** The value of an optional field, or a default. *)
Definition orElse {A : Type} (a : option A) (b : A) : A :=
  match a with
  | Some x => x
  | None => b
  end.

Definition orOpt {A : Type} (a b : option A) : option A :=
  match a with
  | Some x => Some x
  | None => b
  end.

(** White space removed by [String.prototype.trim]: the WhiteSpace and
    LineTerminator code points of ECMAScript, by their UTF-8 encodings.
    One byte: TAB, LF, VT, FF, CR and SPACE. *)
Definition isWhiteSpace (c : ascii) : bool :=
  let n := nat_of_ascii c in
  (Nat.eqb n 9 || Nat.eqb n 10 || Nat.eqb n 11 || Nat.eqb n 12
   || Nat.eqb n 13 || Nat.eqb n 32)%bool.

(** Two bytes: U+00A0 NO-BREAK SPACE (C2 A0). *)
Definition isWhiteSpace2 (a b : ascii) : bool :=
  (Nat.eqb (nat_of_ascii a) 194 && Nat.eqb (nat_of_ascii b) 160)%bool.

(** Three bytes: U+1680 (E1 9A 80), U+2000..U+200A (E2 80 80..8A), U+2028
    and U+2029 (E2 80 A8, E2 80 A9), U+202F (E2 80 AF), U+205F (E2 81 9F),
    U+3000 (E3 80 80) and U+FEFF (EF BB BF). *)
Definition isWhiteSpace3 (a b c : ascii) : bool :=
  let x := nat_of_ascii a in
  let y := nat_of_ascii b in
  let z := nat_of_ascii c in
  ((Nat.eqb x 225 && Nat.eqb y 154 && Nat.eqb z 128)
   || (Nat.eqb x 226 && Nat.eqb y 128
       && ((Nat.leb 128 z && Nat.leb z 138)
           || Nat.eqb z 168 || Nat.eqb z 169 || Nat.eqb z 175))
   || (Nat.eqb x 226 && Nat.eqb y 129 && Nat.eqb z 159)
   || (Nat.eqb x 227 && Nat.eqb y 128 && Nat.eqb z 128)
   || (Nat.eqb x 239 && Nat.eqb y 187 && Nat.eqb z 191))%bool.

Fixpoint trimStart (s : string) : string :=
  match s with
  | EmptyString => EmptyString
  | String a r =>
      if isWhiteSpace a then trimStart r
      else
        match r with
        | EmptyString => s
        | String b r2 =>
            if isWhiteSpace2 a b then trimStart r2
            else
              match r2 with
              | EmptyString => s
              | String c r3 => if isWhiteSpace3 a b c then trimStart r3 else s
              end
        end
  end.

(** A string of white space only. *)
Definition isBlank (s : string) : bool :=
  match trimStart s with
  | EmptyString => true
  | String _ _ => false
  end.

(** The string up to the point from which only white space follows. *)
Fixpoint trimEnd (s : string) : string :=
  match s with
  | EmptyString => EmptyString
  | String c r => if isBlank s then EmptyString else String c (trimEnd r)
  end.

Definition trim (s : string) : string := trimEnd (trimStart s).

(** [[...new Set(l)]]: the distinct values of [l], each at its first
    occurrence. *)
Fixpoint newSet (l : list Z) : list Z :=
  match l with
  | [] => []
  | x :: r => x :: filter (fun y => negb (y =? x)) (newSet r)
  end.

(** [Array.prototype.sort] with the comparator [(a, b) => key b - key a]:
    a stable sort, largest key first. *)
Section Sort.
Context {A : Type} (key : A -> Z).

Fixpoint insertDesc (x : A) (l : list A) : list A :=
  match l with
  | [] => [x]
  | y :: r => if key y <=? key x then x :: l else y :: insertDesc x r
  end.

Fixpoint sortDesc (l : list A) : list A :=
  match l with
  | [] => []
  | x :: r => insertDesc x (sortDesc r)
  end.

(** The order the sort produces: no later row has a larger key. *)
Definition descending (a b : A) : Prop := key b <= key a.
End Sort.

(** [Array.prototype.map] with the index argument. *)
Fixpoint mapi_from {A B : Type} (f : A -> Z -> B) (i : Z) (l : list A) : list B :=
  match l with
  | [] => []
  | x :: r => f x i :: mapi_from f (i + 1) r
  end.

Definition mapi {A B : Type} (f : A -> Z -> B) (l : list A) : list B :=
  mapi_from f 0 l.

(** Values a JSON body can hold in a field ([JUndefined]: field absent). *)
Inductive value : Type :=
| JUndefined
| JNull
| JBool (b : bool)
| JNum (q : Q)
| JStr (s : string)
| JObject.

Definition typeof_is_number (v : value) : bool :=
  match v with
  | JNum _ => true
  | _ => false
  end.

End Js.

(* ------------------------------------------------------------------ *)
(** ** Double-precision arithmetic *)

(** A JavaScript number is an IEEE 754 binary64 value.  A finite double is
    the rational it denotes, and an arithmetic operation returns its exact
    result rounded to the nearest double, ties to the even significand.
    The exponent range is not bounded: overflow and subnormal numbers do
    not arise on the page numbers and points the routes compute with,
    which are integers that a double holds exactly. *)
Module Double.

Definition pow2 (e : Z) : Q := (2 ^ e)%Q.

(** The binary exponent of a non-zero number: [2^e <= |x| < 2^(e+1)]. *)
Definition exponent (x : Q) : Z :=
  let e := Z.log2 (Z.abs (Qnum x)) - Z.log2 (Zpos (Qden x)) in
  if Qle_bool (pow2 e) (Qabs x) then e else e - 1.

(** The unit in the last place of the 53-bit significand. *)
Definition ulp (x : Q) : Q := pow2 (exponent x - 52).

(** The nearest integer, ties to even. *)
Definition roundEven (q : Q) : Z :=
  let f := Qfloor q in
  match (q - inject_Z f ?= 1 # 2)%Q with
  | Lt => f
  | Gt => f + 1
  | Eq => if Z.even f then f else f + 1
  end.

(** The nearest double. *)
Definition round (x : Q) : Q :=
  if Qeq_bool x 0 then 0%Q else (inject_Z (roundEven (x / ulp x)) * ulp x)%Q.

(** [a / b] and [a * b] on doubles. *)
Definition div (a b : Q) : Q := round (a / b).

Definition mul (a b : Q) : Q := round (a * b).

(** The same computation on the binary64 numbers of the kernel, to compare
    [round] with: the rational a finite primitive float denotes, and
    [c / p * 100] on primitive floats. *)
Definition ofPrimFloat (f : PrimFloat.float) : option Q :=
  match Prim2SF f with
  | S754_zero _ => Some 0%Q
  | S754_finite sign m e =>
      Some ((if sign then -1 else 1) * inject_Z (Zpos m) * pow2 e)%Q
  | _ => None
  end.

Definition primFloatOfZ (n : Z) : PrimFloat.float :=
  PrimFloat.of_uint63 (Uint63.of_Z n).

Definition primPercent (c p : Z) : option Q :=
  ofPrimFloat (PrimFloat.mul (PrimFloat.div (primFloatOfZ c) (primFloatOfZ p))
                             (primFloatOfZ 100)).

Definition agreesWithPrimFloat (c p : Z) : bool :=
  match primPercent c p with
  | Some q => Qeq_bool q (mul (div (inject_Z c) (inject_Z p)) 100)
  | None => false
  end.

End Double.

(* ------------------------------------------------------------------ *)
(** ** Dates *)

Module JsDate.

Definition msPerDay : Z := 1000 * 60 * 60 * 24.

(** Day number of a time stamp (days since the epoch). *)
Definition dayOf (t : Z) : Z := t / msPerDay.

(** [d.setHours(0, 0, 0, 0); d.getTime()]. *)
Definition setHours0 (t : Z) : Z := dayOf t * msPerDay.

(** [d.setDate(d.getDate() - 1)] on a date at midnight. *)
Definition setDatePrev (t : Z) : Z := t - msPerDay.

(** Days since the epoch of the civil date [y]-[m]-[d], [m] in 1..12
    (proleptic Gregorian calendar). *)
Definition daysFromCivil (y m d : Z) : Z :=
  let y' := if m <=? 2 then y - 1 else y in
  let era := y' / 400 in
  let yoe := y' - era * 400 in
  let mp := if 2 <? m then m - 3 else m + 9 in
  let doy := (153 * mp + 2) / 5 + d - 1 in
  let doe := yoe * 365 + yoe / 4 - yoe / 100 + doy in
  era * 146097 + doe - 719468.

(** Civil date (year, month in 1..12, day) of a day number. *)
Definition civilFromDays (z : Z) : Z * Z * Z :=
  let z' := z + 719468 in
  let era := z' / 146097 in
  let doe := z' - era * 146097 in
  let yoe := (doe - doe / 1460 + doe / 36524 - doe / 146096) / 365 in
  let doy := doe - (365 * yoe + yoe / 4 - yoe / 100) in
  let mp := (5 * doy + 2) / 153 in
  let d := doy - (153 * mp + 2) / 5 + 1 in
  let m := if mp <? 10 then mp + 3 else mp - 9 in
  let y := yoe + era * 400 in
  ((if m <=? 2 then y + 1 else y), m, d).

Definition getFullYear (t : Z) : Z :=
  let '(y, _, _) := civilFromDays (dayOf t) in y.

(** Month index, 0 for January. *)
Definition getMonth (t : Z) : Z :=
  let '(_, m, _) := civilFromDays (dayOf t) in m - 1.

(** [new Date(year, monthIndex, day).getTime()]: the month index may lie
    outside 0..11 and the day outside the month; both carry over. *)
Definition mkDate (year monthIndex day : Z) : Z :=
  let y := year + monthIndex / 12 in
  let m := monthIndex mod 12 in
  (daysFromCivil y (m + 1) 1 + (day - 1)) * msPerDay.

(** [toLocaleString('default', { month: 'short' })]. *)
Definition shortMonth (monthIndex : Z) : string :=
  nth (Z.to_nat monthIndex)
    ["Jan"; "Feb"; "Mar"; "Apr"; "May"; "Jun";
     "Jul"; "Aug"; "Sep"; "Oct"; "Nov"; "Dec"]%string EmptyString.

End JsDate.

(* ------------------------------------------------------------------ *)
(** ** The store *)

Module Db.

Inductive Role : Type := STUDENT | TEACHER | ADMIN.

Inductive ReadingStatus : Type := NOT_STARTED | READING | PAUSED | COMPLETED.

Definition Role_eqb (a b : Role) : bool :=
  match a, b with
  | STUDENT, STUDENT | TEACHER, TEACHER | ADMIN, ADMIN => true
  | _, _ => false
  end.

Definition status_eqb (a b : ReadingStatus) : bool :=
  match a, b with
  | NOT_STARTED, NOT_STARTED | READING, READING
  | PAUSED, PAUSED | COMPLETED, COMPLETED => true
  | _, _ => false
  end.

Record User : Type := {
  u_id : string;
  u_name : option string;
  u_email : string;
  u_role : Role;
  u_avatar : option string;
  u_points : Z;
  u_level : Z
}.

Record Book : Type := {
  b_id : string;
  b_title : string;
  b_pages : option Z
}.

Record ReadingProgress : Type := {
  rp_userId : string;
  rp_bookId : string;
  rp_status : ReadingStatus;
  rp_currentPage : Z;
  rp_totalPages : Z;
  rp_progressPercentage : Q;
  rp_startedAt : option Z;
  rp_completedAt : option Z;
  rp_updatedAt : Z
}.

Record Summary : Type := {
  s_id : string;
  s_title : string;
  s_content : string;
  s_authorId : string;
  s_bookId : string;
  s_isPublic : bool;
  s_rating : option Z;
  s_createdAt : Z
}.

Record Comment : Type := {
  c_content : string;
  c_authorId : string;
  c_summaryId : string
}.

Record t : Type := {
  users : list User;
  books : list Book;
  readingProgress : list ReadingProgress;
  summaries : list Summary;
  comments : list Comment
}.

(** [prisma.book.findUnique({ where: { id } })]. *)
Definition findBook (db : t) (id : string) : option Book :=
  find (fun b => String.eqb (b_id b) id) (books db).

Definition findUser (db : t) (id : string) : option User :=
  find (fun u => String.eqb (u_id u) id) (users db).

(** The points counter of a user, when the user exists. *)
Definition pointsOf (db : t) (id : string) : option Z :=
  option_map u_points (findUser db id).

Definition findSummary (db : t) (id : string) : option Summary :=
  find (fun s => String.eqb (s_id s) id) (summaries db).

(** [prisma.summary.findFirst({ where: { authorId, bookId } })]. *)
Definition findSummaryBy (db : t) (authorId bookId : string) : option Summary :=
  find (fun s => String.eqb (s_authorId s) authorId && String.eqb (s_bookId s) bookId)
       (summaries db).

Definition findProgress (db : t) (userId bookId : string) : option ReadingProgress :=
  find (fun p => String.eqb (rp_userId p) userId && String.eqb (rp_bookId p) bookId)
       (readingProgress db).

Definition addPoints (n : Z) (u : User) : User :=
  {| u_id := u_id u; u_name := u_name u; u_email := u_email u;
     u_role := u_role u; u_avatar := u_avatar u;
     u_points := u_points u + n; u_level := u_level u |}.

Definition setUsers (db : t) (us : list User) : t :=
  {| users := us; books := books db; readingProgress := readingProgress db;
     summaries := summaries db; comments := comments db |}.

Definition setReadingProgress (db : t) (ps : list ReadingProgress) : t :=
  {| users := users db; books := books db; readingProgress := ps;
     summaries := summaries db; comments := comments db |}.

Definition setSummaries (db : t) (ss : list Summary) : t :=
  {| users := users db; books := books db; readingProgress := readingProgress db;
     summaries := ss; comments := comments db |}.

Definition setComments (db : t) (cs : list Comment) : t :=
  {| users := users db; books := books db; readingProgress := readingProgress db;
     summaries := summaries db; comments := cs |}.

(** [prisma.user.update({ where: { id }, data: { points: { increment: n } } })]:
    throws ([None]) when no user has that id. *)
Definition incrementPoints (db : t) (id : string) (n : Z) : option t :=
  match findUser db id with
  | None => None
  | Some _ =>
      Some (setUsers db
              (map (fun u => if String.eqb (u_id u) id then addPoints n u else u)
                   (users db)))
  end.

(** [prisma.comment.create]. *)
Definition createComment (db : t) (c : Comment) : t :=
  setComments db (comments db ++ [c]).

(** [prisma.summary.create]. *)
Definition createSummary (db : t) (s : Summary) : t :=
  setSummaries db (summaries db ++ [s]).

Definition setRating (r : Z) (s : Summary) : Summary :=
  {| s_id := s_id s; s_title := s_title s; s_content := s_content s;
     s_authorId := s_authorId s; s_bookId := s_bookId s;
     s_isPublic := s_isPublic s; s_rating := Some r;
     s_createdAt := s_createdAt s |}.

(** [prisma.summary.update({ where: { id }, data: { rating } })]. *)
Definition updateRating (db : t) (id : string) (r : Z) : t :=
  setSummaries db
    (map (fun s => if String.eqb (s_id s) id then setRating r s else s)
         (summaries db)).

(** Modelled from the spec: the schema of the store is not among the
    sources; the data model gives [Summary.rating] as an optional integer,
    so the store's client refuses (throws on) a number that is not an
    integer. *)
Definition asInt (q : Q) : option Z :=
  if Qeq_bool q (inject_Z (Qfloor q)) then Some (Qfloor q) else None.

End Db.

(* ------------------------------------------------------------------ *)
(** ** Dashboard statistics route *)

Module Dashboard.
Import Js JsDate Db.

(** The [for ... of] loop of [calculateReadingStreak], with its
    [currentDate] and [streak] variables.  Both tests of the source compare
    [dateTime] with [currentDate.getTime()]. *)
Fixpoint streakLoop (uniqueDates : list Z) (currentDate : Z) (streak : Z) : Z :=
  match uniqueDates with
  | [] => streak
  | dateTime :: rest =>
      if dateTime =? currentDate then
        streakLoop rest (setDatePrev currentDate) (streak + 1)
      else if dateTime =? currentDate then
        streakLoop rest (setDatePrev currentDate) (streak + 1)
      else streak
  end.

(** [calculateReadingStreak]: [activities] are the [updatedAt] values of
    the user's progress rows, [now] is [new Date()]. *)
Definition calculateReadingStreak (activities : list Z) (now : Z) : Z :=
  match activities with
  | [] => 0
  | _ =>
      let currentDate := setHours0 now in
      let activityDates := map setHours0 activities in
      let uniqueDates := sortDesc (fun a => a) (newSet activityDates) in
      streakLoop uniqueDates currentDate 0
  end.

(** The query of [calculateReadingStreak]: the user's rows, newest first. *)
Definition activitiesOf (db : Db.t) (userId : string) : list Z :=
  map rp_updatedAt
    (sortDesc rp_updatedAt
       (filter (fun p => String.eqb (rp_userId p) userId) (readingProgress db))).

Record MonthBucket : Type := {
  month : string;
  completed : Z;
  started : Z;
  total : Z
}.

(** One iteration of the loop of [processMonthlyStats]. *)
Definition monthBucket (stats : list (Z * ReadingStatus)) (now : Z) (i : Z) : MonthBucket :=
  let date := mkDate (getFullYear now) (getMonth now - i) 1 in
  let monthName := shortMonth (getMonth date) in
  let monthStart := mkDate (getFullYear date) (getMonth date) 1 in
  let monthEnd := mkDate (getFullYear date) (getMonth date + 1) 0 in
  let monthStats :=
    filter (fun stat => (monthStart <=? fst stat) && (fst stat <=? monthEnd)) stats in
  let completed :=
    Z.of_nat (length (filter (fun stat => status_eqb (snd stat) COMPLETED) monthStats)) in
  let started :=
    Z.of_nat (length (filter (fun stat => status_eqb (snd stat) READING) monthStats)) in
  {| month := monthName; completed := completed; started := started;
     total := completed + started |}.

(** [processMonthlyStats]: [for (let i = 5; i >= 0; i--)]. *)
Definition processMonthlyStats (stats : list (Z * ReadingStatus)) (now : Z)
  : list MonthBucket :=
  map (monthBucket stats now) [5; 4; 3; 2; 1; 0].

(** The months of the buckets, as the (year, month index) pairs of the
    loop's [date]. *)
Definition bucketMonths (now : Z) : list (Z * Z) :=
  map (fun i =>
         let date := mkDate (getFullYear now) (getMonth now - i) 1 in
         (getFullYear date, getMonth date))
      [5; 4; 3; 2; 1; 0].

(** The streak as the design describes it: the days are counted backward
    from today when today has activity, from yesterday otherwise. *)
Definition specReadingStreak (activities : list Z) (now : Z) : Z :=
  let today := setHours0 now in
  let days := sortDesc (fun a => a) (newSet (map setHours0 activities)) in
  match days with
  | [] => 0
  | latest :: _ =>
      if latest =? today then streakLoop days today 0
      else if latest =? setDatePrev today then streakLoop days (setDatePrev today) 0
      else 0
  end.

(** A calendar-month count as the design describes it: the entries with
    the given status whose time stamp falls in the month (year, month
    index). *)
Definition specMonthCount (stats : list (Z * ReadingStatus)) (ym : Z * Z)
    (s : ReadingStatus) : Z :=
  Z.of_nat (length (filter
    (fun stat => (getFullYear (fst stat) =? fst ym) && (getMonth (fst stat) =? snd ym)
                 && status_eqb (snd stat) s) stats)).

End Dashboard.

(* ------------------------------------------------------------------ *)
(** ** Requests and responses *)

Module Http.
Local Open Scope string_scope.
Local Open Scope Z_scope.

(** The session of [auth()]: [None] when nobody is signed in. *)
Record SessionUser : Type := {
  su_id : string;
  su_role : Db.Role;
  su_name : option string
}.

(** [!session?.user?.id]. *)
Definition unauthenticated (session : option SessionUser) : bool :=
  negb (Js.truthyStr (option_map su_id session)).

(** [NextResponse.json]: an error payload with its status, or a success
    payload with its status (the [message] texts are left out). *)
Inductive Response (A : Type) : Type :=
| Failure (status : Z) (error : string)
| Success (status : Z) (data : A).

Arguments Failure {A} status error.
Arguments Success {A} status data.

Definition statusOf {A : Type} (r : Response A) : Z :=
  match r with
  | Failure st _ => st
  | Success st _ => st
  end.

End Http.

(* ------------------------------------------------------------------ *)
(** ** Leaderboard route *)

Module Leaderboard.
Import Js JsDate Db.
Local Open Scope string_scope.
Local Open Scope Z_scope.

Record ProgressWithBook : Type := {
  progress : ReadingProgress;
  book_pages : option Z
}.

Definition updatedAt (p : ProgressWithBook) : Z := rp_updatedAt (progress p).

(** A row of [prisma.user.findMany] with its [include]d relations. *)
Record UserWithRelations : Type := {
  user : User;
  uw_readingProgress : list ProgressWithBook;
  uw_summaries : list Summary
}.

(** [dateFilter]: the [gte] bound, when the period has one. *)
Definition dateFilter (period : string) (now : Z) : option Z :=
  if String.eqb period "week" then Some (now - 7 * 24 * 60 * 60 * 1000)
  else if String.eqb period "month" then Some (now - 30 * 24 * 60 * 60 * 1000)
  else None.

Definition inWindow (filter : option Z) (t : Z) : bool :=
  match filter with
  | Some gte => gte <=? t
  | None => true
  end.

(** [userRoleFilter]. *)
Definition userRoleFilter (type : string) (u : User) : bool :=
  if String.eqb type "students" then Role_eqb (u_role u) STUDENT
  else if String.eqb type "teachers" then
    Role_eqb (u_role u) TEACHER || Role_eqb (u_role u) ADMIN
  else true.

Definition includeRelations (db : Db.t) (filter : option Z) (u : User)
  : UserWithRelations :=
  {| user := u;
     uw_readingProgress :=
       map (fun p =>
              {| progress := p;
                 book_pages :=
                   match findBook db (rp_bookId p) with
                   | Some b => b_pages b
                   | None => None
                   end |})
           (List.filter
              (fun p => String.eqb (rp_userId p) (u_id u)
                        && inWindow filter (rp_updatedAt p))
              (readingProgress db));
     uw_summaries :=
       List.filter
         (fun s => String.eqb (s_authorId s) (u_id u)
                   && inWindow filter (s_createdAt s))
         (summaries db) |}.

(** The rows that [where] and [include] of the users query select, before
    they are ordered. *)
Definition candidates (db : Db.t) (type period : string) (now : Z)
  : list UserWithRelations :=
  map (includeRelations db (dateFilter period now))
      (List.filter (userRoleFilter type) (users db)).


(** [take: limit] on the ordered rows, for a parsed limit that is not
    negative.  With a negative [take] the store's client reads from the
    other end of the order; that case is left out. *)
Definition take (limit : Z) (ordered : list UserWithRelations)
  : option (list UserWithRelations) :=
  if 0 <=? limit then Some (firstn (Z.to_nat limit) ordered) else None.

(** [prisma.user.findMany({ where, include, orderBy: { points: 'desc' },
    take: limit })] on a store that returns rows with equal points in
    storage order, with a limit that is not negative. *)
Definition findMany (db : Db.t) (type period : string) (limit : nat) (now : Z)
  : list UserWithRelations :=
  firstn limit
    (sortDesc (fun r => u_points (user r))
       (map (includeRelations db (dateFilter period now))
            (List.filter (userRoleFilter type) (users db)))).

Record EntryUser : Type := {
  id : string;
  name : string;
  email : string;
  role : Role;
  avatar : option string;
  level : Z
}.

Record Stats : Type := {
  points : Z;
  booksCompleted : Z;
  booksReading : Z;
  totalBooksStarted : Z;
  totalPagesRead : Z;
  summariesWritten : Z;
  averageSummaryRating : Q;
  readingStreak : Z;
  completionRate : Z
}.

Record Entry : Type := {
  rank : Z;
  entryUser : EntryUser;
  stats : Stats
}.

Definition len {A : Type} (l : list A) : Z := Z.of_nat (List.length l).

Definition hasStatus (s : ReadingStatus) (p : ProgressWithBook) : bool :=
  status_eqb (rp_status (progress p)) s.

(** [summaries.reduce((sum, summary) => sum + summary.rating, 0)]: a
    [null] rating adds 0. *)
Definition ratingSum (ss : list Summary) : Z :=
  fold_left (fun sum summary => sum + toNumber (s_rating summary)) ss 0.

(** The [averageSummaryRating] constant of the source (before rounding). *)
Definition rawAverageSummaryRating (ss : list Summary) : Q :=
  if 0 <? len ss then (inject_Z (ratingSum ss) / inject_Z (len ss))%Q else 0%Q.

(** [Math.round(averageSummaryRating * 10) / 10]. *)
Definition roundedAverageSummaryRating (ss : list Summary) : Q :=
  (inject_Z (Math_round (rawAverageSummaryRating ss * 10)) / 10)%Q.

(** The [readingStreak] variable of the source. *)
Definition leaderboardStreak (rps : list ProgressWithBook) (today : Z) : Z :=
  let sortedProgress := sortDesc updatedAt rps in
  match sortedProgress with
  | [] => 0
  | first :: _ =>
      let lastActivity := updatedAt first in
      let daysDiff := floorDiv (today - lastActivity) (1000 * 60 * 60 * 24) in
      if daysDiff <=? 1 then Z.min (len sortedProgress) 30 else 0
  end.

(** The callback of [users.map((user, index) => ...)]. *)
Definition entryOf (today : Z) (r : UserWithRelations) (index : Z) : Entry :=
  let completedBooks := len (List.filter (hasStatus COMPLETED) (uw_readingProgress r)) in
  let readingBooks := len (List.filter (hasStatus READING) (uw_readingProgress r)) in
  let totalPagesRead :=
    fold_left (fun total p => total + orNum (book_pages p) 0)
              (List.filter (hasStatus COMPLETED) (uw_readingProgress r)) 0 in
  {| rank := index + 1;
     entryUser :=
       {| id := u_id (user r);
          name := if truthyStr (u_name (user r))
                  then orElse (u_name (user r)) EmptyString
                  else "Unknown User";
          email := u_email (user r);
          role := u_role (user r);
          avatar := u_avatar (user r);
          level := u_level (user r) |};
     stats :=
       {| points := u_points (user r);
          booksCompleted := completedBooks;
          booksReading := readingBooks;
          totalBooksStarted := len (uw_readingProgress r);
          totalPagesRead := totalPagesRead;
          summariesWritten := len (uw_summaries r);
          averageSummaryRating := roundedAverageSummaryRating (uw_summaries r);
          readingStreak := leaderboardStreak (uw_readingProgress r) today;
          completionRate :=
            if 0 <? len (uw_readingProgress r)
            then Math_round
                   ((inject_Z completedBooks / inject_Z (len (uw_readingProgress r)))
                    * 100)%Q
            else 0 |} |}.

(** The [leaderboard] array of [GET]; [limit] is the parsed [limit]
    parameter, [now] the time of the request. *)
Definition GET (db : Db.t) (type period : string) (limit : nat) (now : Z)
  : list Entry :=
  mapi (entryOf now) (findMany db type period limit now).

(** The [leaderboard] array of [GET] when the store answers the ordered
    users query with [ordered]. *)
Definition GETfrom (ordered : list UserWithRelations) (limit : Z) (now : Z)
  : option (list Entry) :=
  option_map (mapi (entryOf now)) (take limit ordered).

(** The ratings of the summaries that have one. *)
Definition rated (ss : list Summary) : list Z :=
  flat_map (fun s => match s_rating s with Some r => [r] | None => [] end) ss.

(** The average as the design describes it: the mean over the summaries
    that have a rating, rounded to one decimal, 0 when there is none. *)
Definition specAverageSummaryRating (ss : list Summary) : Q :=
  let rs := rated ss in
  if 0 <? len rs
  then (inject_Z (Math_round
          ((inject_Z (fold_left Z.add rs 0%Z) / inject_Z (len rs)) * 10)) / 10)%Q
  else 0%Q.

End Leaderboard.

(* ------------------------------------------------------------------ *)
(** ** Reading-progress route *)

Module Progress.
Import Js Db Http.
Local Open Scope string_scope.
Local Open Scope Z_scope.

(** The JSON body of the request.  The fields are typed as the store
    accepts them: a body with a field of another type makes the store's
    client throw. *)
Record Body : Type := {
  bookId : option string;
  status : option ReadingStatus;
  currentPage : option Z;
  totalPages : option Z
}.

(** [const pages = totalPages || book.pages || 0]. *)
Definition effectivePages (totalPages : option Z) (book : Book) : Z :=
  orNum (Js.or totalPages (b_pages book)) 0.

(** [pages > 0 ? Math.min((currentPage || 0) / pages * 100, 100) : 0]: the
    quotient is rounded to a double, and so is its product with 100. *)
Definition progressPercentage (pages : Z) (currentPage : option Z) : Q :=
  if 0 <? pages
  then Qmin (Double.mul (Double.div (inject_Z (orNum currentPage 0)) (inject_Z pages))
                        100) 100
  else 0%Q.

(** The [startedAt] variable: set for READING, PAUSED and COMPLETED. *)
Definition startedAt (status : option ReadingStatus) (now : Z) : option Z :=
  match status with
  | Some READING | Some PAUSED => Some now
  | Some COMPLETED => Some now
  | _ => None
  end.

(** The [completedAt] variable: set for COMPLETED only. *)
Definition completedAt (status : option ReadingStatus) (now : Z) : option Z :=
  match status with
  | Some COMPLETED => Some now
  | _ => None
  end.

(** The [update] branch of the upsert. *)
Definition updateRow (b : Body) (pages : Z) (pct : Q) (now : Z)
    (old : ReadingProgress) : ReadingProgress :=
  {| rp_userId := rp_userId old;
     rp_bookId := rp_bookId old;
     rp_status := orElse (status b) (rp_status old);
     rp_currentPage := orNum (currentPage b) 0;
     rp_totalPages := pages;
     rp_progressPercentage := pct;
     rp_startedAt := orOpt (startedAt (status b) now) (rp_startedAt old);
     rp_completedAt := orOpt (completedAt (status b) now) (rp_completedAt old);
     rp_updatedAt := now |}.

(** The [create] branch of the upsert. *)
Definition createRow (userId bookId : string) (b : Body) (pages : Z) (pct : Q)
    (now : Z) : ReadingProgress :=
  {| rp_userId := userId;
     rp_bookId := bookId;
     rp_status := orElse (status b) NOT_STARTED;
     rp_currentPage := orNum (currentPage b) 0;
     rp_totalPages := pages;
     rp_progressPercentage := pct;
     rp_startedAt := startedAt (status b) now;
     rp_completedAt := completedAt (status b) now;
     rp_updatedAt := now |}.

Definition keyIs (userId bookId : string) (p : ReadingProgress) : bool :=
  String.eqb (rp_userId p) userId && String.eqb (rp_bookId p) bookId.

(** [prisma.readingProgress.upsert] on the key [userId_bookId]: the row
    written and the store after it. *)
Definition upsert (db : Db.t) (userId bookId : string) (b : Body) (pages : Z)
    (pct : Q) (now : Z) : ReadingProgress * Db.t :=
  match findProgress db userId bookId with
  | Some old =>
      (updateRow b pages pct now old,
       setReadingProgress db
         (map (fun p => if keyIs userId bookId p
                        then updateRow b pages pct now p else p)
              (readingProgress db)))
  | None =>
      let row := createRow userId bookId b pages pct now in
      (row, setReadingProgress db (readingProgress db ++ [row]))
  end.

(** [POST]: create or update reading progress. *)
Definition POST (db : Db.t) (session : option SessionUser) (b : Body) (now : Z)
  : Response ReadingProgress * Db.t :=
  match session with
  | None => (Failure 401 "Authentication required", db)
  | Some s =>
  if unauthenticated session then (Failure 401 "Authentication required", db) else
  if negb (truthyStr (bookId b)) then (Failure 400 "Book ID is required", db) else
  let bookId := orElse (bookId b) EmptyString in
  match findBook db bookId with
  | None => (Failure 404 "Book not found", db)
  | Some book =>
      let pages := effectivePages (totalPages b) book in
      let progressPercentage := progressPercentage pages (currentPage b) in
      let '(readingProgress, db1) :=
        upsert db (su_id s) bookId b pages progressPercentage now in
      match status b with
      | Some COMPLETED =>
          match incrementPoints db1 (su_id s) 100 with
          | Some db2 => (Success 200 readingProgress, db2)
          | None => (Failure 500 "Failed to update reading progress", db1)
          end
      | Some READING =>
          if Qle_bool 50 progressPercentage then
            match incrementPoints db1 (su_id s) 25 with
            | Some db2 => (Success 200 readingProgress, db2)
            | None => (Failure 500 "Failed to update reading progress", db1)
            end
          else (Success 200 readingProgress, db1)
      | _ => (Success 200 readingProgress, db1)
      end
  end
  end.

(** The request is let through by the guards of [POST]: somebody is signed in,
    the body names a book and the catalog has it. *)
Definition accepted (db : Db.t) (session : option SessionUser) (b : Body)
    (s : SessionUser) (bid : string) (book : Book) : Prop :=
  session = Some s /\ unauthenticated session = false
  /\ bookId b = Some bid /\ bid <> EmptyString /\ findBook db bid = Some book.

End Progress.

(* ------------------------------------------------------------------ *)
(** ** Summaries routes *)

Module Summaries.
Import Js Db Http.
Local Open Scope string_scope.
Local Open Scope Z_scope.

Record RatingBody : Type := {
  rating : Js.value;
  feedback : option string
}.

(** [typeof rating !== "number" || rating < 1 || rating > 5]. *)
Definition invalidRating (rating : Js.value) : bool :=
  match rating with
  | JNum q => negb (Qle_bool 1 q) || negb (Qle_bool q 5)
  | _ => true
  end.

(** [feedback && feedback.trim()]. *)
Definition feedbackGiven (feedback : option string) : bool :=
  match feedback with
  | Some f => negb (String.eqb f EmptyString) && negb (String.eqb (trim f) EmptyString)
  | None => false
  end.

Definition teacherFeedback (f : string) : string := "Teacher Feedback: " ++ f.

(** [PATCH]: rate the summary [id] (teachers and admins only). *)
Definition PATCH (db : Db.t) (session : option SessionUser) (id : string)
    (b : RatingBody) : Response Summary * Db.t :=
  match session with
  | None => (Failure 401 "Authentication required", db)
  | Some s =>
  if unauthenticated session then (Failure 401 "Authentication required", db) else
  if negb (Role_eqb (su_role s) TEACHER) && negb (Role_eqb (su_role s) ADMIN)
  then (Failure 403 "Insufficient permissions", db) else
  if invalidRating (rating b)
  then (Failure 400 "Rating must be a number between 1 and 5", db) else
  match rating b with
  | JNum q =>
      match findSummary db id with
      | None => (Failure 404 "Summary not found", db)
      | Some existingSummary =>
          match asInt q with
          | None => (Failure 500 "Failed to rate summary", db)
          | Some r =>
              let db1 := updateRating db id r in
              let updatedSummary := setRating r existingSummary in
              let db2 :=
                if feedbackGiven (feedback b)
                then createComment db1
                       {| c_content := teacherFeedback (orElse (feedback b) EmptyString);
                          c_authorId := su_id s;
                          c_summaryId := id |}
                else db1 in
              let bonusPoints := Math_round (q * 10) in
              match incrementPoints db2 (s_authorId existingSummary) bonusPoints with
              | Some db3 => (Success 200 updatedSummary, db3)
              | None => (Failure 500 "Failed to rate summary", db2)
              end
          end
      end
  | _ => (Failure 400 "Rating must be a number between 1 and 5", db)
  end
  end.

Record Body : Type := {
  title : option string;
  content : option string;
  bookId : option string;
  isPublic : option bool
}.

Definition dquote : string := String (ascii_of_nat 34) EmptyString.

(** [title || `Summary of "${book.title}" by ${session.user.name}`]. *)
Definition summaryTitle (title : option string) (book : Book) (s : SessionUser)
  : string :=
  if truthyStr title then orElse title EmptyString
  else "Summary of " ++ dquote ++ b_title book ++ dquote ++ " by "
       ++ orElse (su_name s) "undefined".

(** [POST]: create a summary; [newId] is the identifier the store gives
    the new row, [now] its creation time. *)
Definition POST (db : Db.t) (session : option SessionUser) (b : Body)
    (newId : string) (now : Z) : Response Summary * Db.t :=
  match session with
  | None => (Failure 401 "Authentication required", db)
  | Some s =>
  if unauthenticated session then (Failure 401 "Authentication required", db) else
  if negb (truthyStr (content b)) || negb (truthyStr (bookId b))
  then (Failure 400 "Content and book ID are required", db) else
  let bookId := orElse (bookId b) EmptyString in
  match findBook db bookId with
  | None => (Failure 404 "Book not found", db)
  | Some book =>
      match findSummaryBy db (su_id s) bookId with
      | Some _ =>
          (Failure 409 "You have already submitted a summary for this book", db)
      | None =>
          let summary :=
            {| s_id := newId;
               s_title := summaryTitle (title b) book s;
               s_content := orElse (content b) EmptyString;
               s_authorId := su_id s;
               s_bookId := bookId;
               s_isPublic := orElse (isPublic b) true;
               s_rating := None;
               s_createdAt := now |} in
          let db1 := createSummary db summary in
          match incrementPoints db1 (su_id s) 50 with
          | Some db2 => (Success 201 summary, db2)
          | None => (Failure 500 "Failed to create summary", db1)
          end
      end
  end
  end.

End Summaries.

(* ------------------------------------------------------------------ *)
(** ** Reading-progress route: the list *)

Module ProgressList.
Import Js Db Http.
Local Open Scope string_scope.
Local Open Scope Z_scope.

(** The [where] object of [GET]: the caller's rows, of the book when the
    [bookId] parameter is given and not empty, with the status when the
    [status] parameter is given. *)
Definition matches (userId : string) (bookId : option string)
    (status : option ReadingStatus) (p : ReadingProgress) : bool :=
  String.eqb (rp_userId p) userId
  && (if truthyStr bookId
      then String.eqb (rp_bookId p) (orElse bookId EmptyString) else true)
  && match status with
     | Some st => status_eqb (rp_status p) st
     | None => true
     end.

(** [GET]: the caller's reading progress, each row with its book, newest
    first. *)
Definition GET (db : Db.t) (session : option SessionUser) (bookId : option string)
    (status : option ReadingStatus) : Response (list (ReadingProgress * option Book)) :=
  match session with
  | None => Failure 401 "Authentication required"
  | Some s =>
      if unauthenticated session then Failure 401 "Authentication required"
      else Success 200
             (map (fun p => (p, findBook db (rp_bookId p)))
                  (sortDesc rp_updatedAt
                     (filter (matches (su_id s) bookId status) (readingProgress db))))
  end.

(** The rows of a response (none when it is an error). *)
Definition rowsOf (r : Response (list (ReadingProgress * option Book)))
  : list ReadingProgress :=
  match r with
  | Success _ data => map fst data
  | Failure _ _ => []
  end.

End ProgressList.

(* ------------------------------------------------------------------ *)
(** ** Summaries routes: one summary *)

Module SummaryById.
Import Js Db Http.
Local Open Scope string_scope.
Local Open Scope Z_scope.

(** The columns [select]ed of the author: id, name, email, role and
    avatar; the points and the level are not among them. *)
Record AuthorInfo : Type := {
  authorId : string;
  authorName : option string;
  authorEmail : string;
  authorRole : Role;
  authorAvatar : option string
}.

Definition selectAuthor (u : User) : AuthorInfo :=
  {| authorId := u_id u; authorName := u_name u; authorEmail := u_email u;
     authorRole := u_role u; authorAvatar := u_avatar u |}.

(** The columns [select]ed of the book, of those the model of the books
    table has: id and title. *)
Record BookInfo : Type := {
  bookInfoId : string;
  bookInfoTitle : string
}.

Definition selectBook (b : Book) : BookInfo :=
  {| bookInfoId := b_id b; bookInfoTitle := b_title b |}.

(** The payload of [GET]: the summary with the selected columns of its
    author and of its book, and its comments, newest first (the comments
    table is in creation order). *)
Record Detail : Type := {
  summary : Summary;
  author : option AuthorInfo;
  book : option BookInfo;
  detailComments : list Comment
}.

Definition commentsOf (db : Db.t) (id : string) : list Comment :=
  rev (filter (fun c => String.eqb (c_summaryId c) id) (comments db)).

(** [GET]: a specific summary. *)
Definition GET (db : Db.t) (id : string) : Response Detail :=
  match findSummary db id with
  | None => Failure 404 "Summary not found"
  | Some s =>
      Success 200
        {| summary := s;
           author := option_map selectAuthor (findUser db (s_authorId s));
           book := option_map selectBook (findBook db (s_bookId s));
           detailComments := commentsOf db id |}
  end.

(** [prisma.summary.delete({ where: { id } })]: the row leaves the
    summaries table; what the store does with rows of other tables that
    refer to it is given by its schema and is not modelled. *)
Definition deleteSummary (db : Db.t) (id : string) : Db.t :=
  setSummaries db (filter (fun s => negb (String.eqb (s_id s) id)) (summaries db)).

(** [DELETE]: delete the summary [id] (its author or an admin only). *)
Definition DELETE (db : Db.t) (session : option SessionUser) (id : string)
  : Response unit * Db.t :=
  match session with
  | None => (Failure 401 "Authentication required", db)
  | Some s =>
  if unauthenticated session then (Failure 401 "Authentication required", db) else
  match findSummary db id with
  | None => (Failure 404 "Summary not found", db)
  | Some existingSummary =>
      if negb (String.eqb (s_authorId existingSummary) (su_id s))
         && negb (Role_eqb (su_role s) ADMIN)
      then (Failure 403 "Insufficient permissions", db)
      else (Success 200 tt, deleteSummary db id)
  end
  end.

End SummaryById.

(* ------------------------------------------------------------------ *)
(** ** Summaries routes: the paginated list *)

Module SummaryList.
Import Js Db Http.
Local Open Scope string_scope.
Local Open Scope Z_scope.

(** The [where] object: [bookId] and [userId] filter when given and not
    empty; [isPublic] filters whenever the parameter is present, on whether
    its text is "true". *)
Definition whereClause (bookId userId isPublic : option string) (s : Summary) : bool :=
  (if truthyStr bookId
   then String.eqb (s_bookId s) (orElse bookId EmptyString) else true)
  && (if truthyStr userId
      then String.eqb (s_authorId s) (orElse userId EmptyString) else true)
  && match isPublic with
     | Some v => Bool.eqb (s_isPublic s) (String.eqb v "true")
     | None => true
     end.

(** [Math.ceil(a / b)] on integers, for a positive [b]. *)
Definition ceilDiv (a b : Z) : Z := - ((- a) / b).

Record Pagination : Type := {
  page : Z;
  limit : Z;
  totalCount : Z;
  totalPages : Z;
  hasNext : bool;
  hasPrev : bool
}.

(** The rows the [where] object selects, newest first. *)
Definition selected (db : Db.t) (bookId userId isPublic : option string)
  : list Summary :=
  sortDesc s_createdAt (filter (whereClause bookId userId isPublic) (summaries db)).

(** The [data] of [GET] for the parsed [page] and [limit].  The model is
    for [page >= 1] and [limit >= 1]; outside it ([None]) the source
    computes with a negative [skip] or [take], or divides by 0. *)
Definition GET (db : Db.t) (bookId userId isPublic : option string) (page limit : Z)
  : option (list Summary * Pagination) :=
  if (1 <=? page) && (1 <=? limit) then
    let skip := (page - 1) * limit in
    let summaries :=
      firstn (Z.to_nat limit)
             (skipn (Z.to_nat skip) (selected db bookId userId isPublic)) in
    let totalCount := Z.of_nat (length (selected db bookId userId isPublic)) in
    let totalPages := ceilDiv totalCount limit in
    Some (summaries,
          {| page := page; limit := limit; totalCount := totalCount;
             totalPages := totalPages;
             hasNext := page <? totalPages;
             hasPrev := 1 <? page |})
  else None.

(** The rows of the page [p] (empty outside the model). *)
Definition pageRows (db : Db.t) (bookId userId isPublic : option string)
    (limit : Z) (p : Z) : list Summary :=
  match GET db bookId userId isPublic p limit with
  | Some (rows, _) => rows
  | None => []
  end.

(** An answer of the store to [orderBy: { createdAt: 'desc' }] over
    [rows]: the same rows, none before a newer one.  Rows created at the
    same instant come in the order the store chooses, and every request
    is a query of its own. *)
Definition orderedByCreatedAtDesc (rows ordered : list Summary) : Prop :=
  Permutation ordered rows /\ StronglySorted (descending s_createdAt) ordered.

(** [skip] and [take] of the request for page [p], on the answer the store
    gives to that request. *)
Definition pageFrom (ordered : list Summary) (limit : Z) (p : Z) : list Summary :=
  firstn (Z.to_nat limit) (skipn (Z.to_nat ((p - 1) * limit)) ordered).

End SummaryList.

(* ------------------------------------------------------------------ *)
(** ** Dashboard statistics route: the handler *)

Module DashboardRoute.
Import Js JsDate Db Http.
Local Open Scope string_scope.
Local Open Scope Z_scope.

(** [getDate()]: the day of the month. *)
Definition getDate (t : Z) : Z :=
  let '(_, _, d) := civilFromDays (dayOf t) in d.

(** [new Date(new Date().setMonth(new Date().getMonth() - 6))]: the month
    moves back by six, the day of the month and the time of day stay, and
    a day past the end of the month carries over. *)
Definition sixMonthsAgo (now : Z) : Z :=
  mkDate (getFullYear now) (getMonth now - 6) (getDate now) + now mod msPerDay.

(** [prisma.readingProgress.count({ where: { userId, ... } })]. *)
Definition countWhere (db : Db.t) (userId : string) (f : ReadingStatus -> bool) : Z :=
  Z.of_nat (length (filter (fun p => String.eqb (rp_userId p) userId && f (rp_status p))
                           (readingProgress db))).

Definition completionRate (totalBooksCompleted totalBooksStarted : Z) : Z :=
  if 0 <? totalBooksStarted
  then Math_round (inject_Z totalBooksCompleted / inject_Z totalBooksStarted * 100)
  else 0.

(** The rows of [currentlyReadingBooks]. *)
Definition currentlyReading (db : Db.t) (userId : string) : list ReadingProgress :=
  filter (fun p => String.eqb (rp_userId p) userId && status_eqb (rp_status p) READING)
         (readingProgress db).

(** [averageProgress]: the rounded mean of the percentages, 0 without rows. *)
Definition averageProgress (rows : list ReadingProgress) : Z :=
  if 0 <? Z.of_nat (length rows)
  then Math_round
         (fold_left (fun sum book => (sum + rp_progressPercentage book)%Q) rows 0%Q
          / inject_Z (Z.of_nat (length rows)))
  else 0.

(** The distinct values of a list of identifiers, each at its first
    occurrence. *)
Fixpoint distinct (l : list string) : list string :=
  match l with
  | [] => []
  | x :: r => x :: filter (fun y => negb (String.eqb y x)) (distinct r)
  end.

(** [groupBy({ by: ['bookId'], where: { userId, status: { not:
    "NOT_STARTED" } } })], as the book identifiers of the groups. *)
Definition categoryStats (db : Db.t) (userId : string) : list string :=
  distinct
    (map rp_bookId
       (filter (fun p => String.eqb (rp_userId p) userId
                         && negb (status_eqb (rp_status p) NOT_STARTED))
               (readingProgress db))).

(** What a property of the [acc] object holds: a number, or the text that
    [+ 1] makes of a value that is not a number. *)
Inductive Counter : Type :=
| Count (n : Z)
| Text.

(** The functions every object inherits from [Object.prototype], by the
    key under which [acc[key]] finds them. *)
Definition inheritedFunction (key : string) : bool :=
  existsb (String.eqb key)
    ["constructor"; "hasOwnProperty"; "isPrototypeOf"; "propertyIsEnumerable";
     "toLocaleString"; "toString"; "valueOf"; "__defineGetter__";
     "__defineSetter__"; "__lookupGetter__"; "__lookupSetter__"].

(** [(v || 0) + 1] for the value [v] of an own property. *)
Definition plusOne (v : Counter) : Counter :=
  match v with
  | Count n => Count (orNum (Some n) 0 + 1)
  | Text => Text
  end.

(** [acc[category] = (acc[category] || 0) + 1] on an object held as the
    list of its own properties, in the order of their creation.  An own
    property is replaced by its value plus one.  A key the object does
    not have starts at 1, unless the object inherits it: an inherited
    function plus one is a text, which becomes an own property, and
    ["__proto__"] reads as the prototype, whose assignment of a text is
    ignored.  (JavaScript lists the keys that are array indices first;
    nothing here depends on the order of the list.) *)
Fixpoint bump (category : string) (acc : list (string * Counter))
  : list (string * Counter) :=
  match acc with
  | [] =>
      if String.eqb category "__proto__" then []
      else if inheritedFunction category then [(category, Text)]
      else [(category, Count (orNum None 0 + 1))]
  | (k, v) :: r =>
      if String.eqb k category then (k, plusOne v) :: r
      else (k, v) :: bump category r
  end.

(** [categoryBreakdown.reduce(..., {})]. *)
Definition categoryCounts (categories : list string) : list (string * Counter) :=
  fold_left (fun acc c => bump c acc) categories [].

(** The own property [category] of the object, when it has one. *)
Fixpoint ownProperty (category : string) (acc : list (string * Counter))
  : option Counter :=
  match acc with
  | [] => None
  | (k, v) :: r => if String.eqb k category then Some v else ownProperty category r
  end.

(** What one more book of the category makes of the own property. *)
Definition nextValue (category : string) (v : option Counter) : option Counter :=
  match v with
  | Some x => Some (plusOne x)
  | None =>
      if String.eqb category "__proto__" then None
      else if inheritedFunction category then Some Text
      else Some (Count (orNum None 0 + 1))
  end.

Record Overview : Type := {
  totalBooksStarted : Z;
  totalBooksCompleted : Z;
  totalBooksReading : Z;
  totalBooksPaused : Z;
  overviewCompletionRate : Z;
  overviewAverageProgress : Z;
  readingStreak : Z
}.

Record UserInfo : Type := {
  points : Z;
  level : Z;
  name : option string;
  role : option Role
}.

Record Data : Type := {
  overview : Overview;
  user : UserInfo;
  recentProgress : list (ReadingProgress * option Book);
  monthlyStats : list Dashboard.MonthBucket;
  categoryBreakdown : list (string * Counter)
}.

Section Handler.

(** The [category] column of a book. *)
Variable category : Book -> string.

(** [prisma.book.findMany({ where: { id: { in: ids } }, select: {
    category: true } })]. *)
Definition categoriesOfBooks (db : Db.t) (ids : list string) : list string :=
  map category
      (filter (fun b => existsb (String.eqb (b_id b)) ids) (books db)).

(** [GET]: the dashboard statistics of the caller. *)
Definition GET (db : Db.t) (session : option SessionUser) (now : Z) : Response Data :=
  match session with
  | None => Failure 401 "Authentication required"
  | Some s =>
  if unauthenticated session then Failure 401 "Authentication required" else
  let userId := su_id s in
  let totalBooksStarted :=
    countWhere db userId (fun st => negb (status_eqb st NOT_STARTED)) in
  let totalBooksCompleted := countWhere db userId (fun st => status_eqb st COMPLETED) in
  let totalBooksReading := countWhere db userId (fun st => status_eqb st READING) in
  let totalBooksPaused := countWhere db userId (fun st => status_eqb st PAUSED) in
  let currentUser := findUser db userId in
  let recentProgress :=
    map (fun p => (p, findBook db (rp_bookId p)))
        (firstn 5 (sortDesc rp_updatedAt
                     (filter (fun p => String.eqb (rp_userId p) userId)
                             (readingProgress db)))) in
  let monthlyStats :=
    map (fun p => (rp_updatedAt p, rp_status p))
        (filter (fun p => String.eqb (rp_userId p) userId
                          && (sixMonthsAgo now <=? rp_updatedAt p))
                (readingProgress db)) in
  let readingStreak :=
    Dashboard.calculateReadingStreak (Dashboard.activitiesOf db userId) now in
  let monthlyData := Dashboard.processMonthlyStats monthlyStats now in
  Success 200
    {| overview :=
         {| totalBooksStarted := totalBooksStarted;
            totalBooksCompleted := totalBooksCompleted;
            totalBooksReading := totalBooksReading;
            totalBooksPaused := totalBooksPaused;
            overviewCompletionRate :=
              completionRate totalBooksCompleted totalBooksStarted;
            overviewAverageProgress := averageProgress (currentlyReading db userId);
            readingStreak := readingStreak |};
       user :=
         {| points := orNum (option_map u_points currentUser) 0;
            level := orNum (option_map u_level currentUser) 1;
            name := match currentUser with Some u => u_name u | None => None end;
            role := option_map u_role currentUser |};
       recentProgress := recentProgress;
       monthlyStats := monthlyData;
       categoryBreakdown :=
         categoryCounts (categoriesOfBooks db (categoryStats db userId)) |}
  end.

End Handler.

End DashboardRoute.

(* ------------------------------------------------------------------ *)
(** ** Dashboard page: the level bar *)

Module DashboardPage.
Local Open Scope Z_scope.

Definition getNextLevelPoints (currentLevel : Z) : Z := currentLevel * 1000.

Definition getCurrentLevelPoints (currentLevel : Z) : Z := (currentLevel - 1) * 1000.

(** [levelProgress], for the [points] and [level] of the statistics: the
    quotient is rounded to a double, and so is its product with 100. *)
Definition levelProgress (points level : Z) : Q :=
  let currentLevelPoints := getCurrentLevelPoints level in
  let nextLevelPoints := getNextLevelPoints level in
  let progressPoints := points - currentLevelPoints in
  let totalPointsNeeded := nextLevelPoints - currentLevelPoints in
  Qmin (Double.mul (Double.div (inject_Z progressPoints)
                               (inject_Z totalPointsNeeded)) 100) 100.

End DashboardPage.

(* ------------------------------------------------------------------ *)
(** ** Invariants of the store *)

Module Invariant.
Import Db.
Local Open Scope Z_scope.

(** The unique key [userId_bookId] of a progress row. *)
Definition progressKey (p : ReadingProgress) : string * string :=
  (rp_userId p, rp_bookId p).

(** At most one progress row per (user, book). *)
Definition uniqueProgress (db : Db.t) : Prop :=
  NoDup (map progressKey (readingProgress db)).

Definition summaryKey (s : Summary) : string * string :=
  (s_authorId s, s_bookId s).

(** At most one summary per (author, book). *)
Definition oneSummaryPerBook (db : Db.t) : Prop :=
  NoDup (map summaryKey (summaries db)).

(** No stored percentage is above 100. *)
Definition percentagesCapped (db : Db.t) : Prop :=
  Forall (fun p => (rp_progressPercentage p <= 100)%Q) (readingProgress db).

(** Every rating that is set lies in 1..5. *)
Definition ratingsInRange (db : Db.t) : Prop :=
  Forall (fun s => forall r, s_rating s = Some r -> 1 <= r <= 5) (summaries db).

End Invariant.

(* ------------------------------------------------------------------ *)
(** * Properties *)

Import Js JsDate Db Http.
Local Open Scope string_scope.
Local Open Scope list_scope.
Local Open Scope Z_scope.

(** ** Sample data used by the examples *)

Definition ann : User :=
  {| u_id := "u1"; u_name := Some "Ann"; u_email := "ann@school.example";
     u_role := STUDENT; u_avatar := None; u_points := 10; u_level := 1 |}.

Definition bob : User :=
  {| u_id := "u2"; u_name := None; u_email := "bob@school.example";
     u_role := STUDENT; u_avatar := None; u_points := 30; u_level := 1 |}.

Definition cleo : User :=
  {| u_id := "u3"; u_name := Some "Cleo"; u_email := "cleo@school.example";
     u_role := STUDENT; u_avatar := None; u_points := 30; u_level := 2 |}.

Definition tess : User :=
  {| u_id := "t1"; u_name := Some "Tess"; u_email := "tess@school.example";
     u_role := TEACHER; u_avatar := None; u_points := 0; u_level := 1 |}.

Definition novel : Book :=
  {| b_id := "b1"; b_title := "Novel"; b_pages := Some 300 |}.

Definition annSession : SessionUser :=
  {| su_id := "u1"; su_role := STUDENT; su_name := Some "Ann" |}.

Definition tessSession : SessionUser :=
  {| su_id := "t1"; su_role := TEACHER; su_name := Some "Tess" |}.

(** 2024-01-31T13:00:00Z. *)
Definition sampleNow : Z := 1706706000000.

Definition annSummary : Summary :=
  {| s_id := "s1"; s_title := "On Novel"; s_content := "A summary.";
     s_authorId := "u1"; s_bookId := "b1"; s_isPublic := true;
     s_rating := None; s_createdAt := sampleNow - 1000 |}.

Definition db0 : Db.t :=
  {| users := [ann; bob; cleo; tess]; books := [novel]; readingProgress := [];
     summaries := []; comments := [] |}.

Definition db1 : Db.t :=
  {| users := [ann; bob; cleo; tess]; books := [novel]; readingProgress := [];
     summaries := [annSummary]; comments := [] |}.

Definition rowAt (uid bid : string) (st : ReadingStatus) (t : Z) : ReadingProgress :=
  {| rp_userId := uid; rp_bookId := bid; rp_status := st; rp_currentPage := 150;
     rp_totalPages := 300; rp_progressPercentage := 50%Q;
     rp_startedAt := Some t; rp_completedAt := None; rp_updatedAt := t |}.

Definition atlas : Book :=
  {| b_id := "b2"; b_title := "Atlas"; b_pages := Some 200 |}.

(** Ann has read in two books today, one and two hours before [sampleNow]. *)
Definition dbTwoToday : Db.t :=
  {| users := [ann; bob; cleo; tess]; books := [novel; atlas];
     readingProgress := [rowAt "u1" "b1" READING (sampleNow - 3600000);
                         rowAt "u1" "b2" READING (sampleNow - 7200000)];
     summaries := []; comments := [] |}.

Definition summaryRated (sid bid : string) (r : option Z) : Summary :=
  {| s_id := sid; s_title := "On a book"; s_content := "A summary.";
     s_authorId := "u1"; s_bookId := bid; s_isPublic := true;
     s_rating := r; s_createdAt := sampleNow - 1000 |}.

(** Ann has two summaries: one rated 4, one not rated yet. *)
Definition dbOneRated : Db.t :=
  {| users := [ann; bob; cleo; tess]; books := [novel; atlas];
     readingProgress := [];
     summaries := [summaryRated "s1" "b1" (Some 4); summaryRated "s2" "b2" None];
     comments := [] |}.

(** Ann's summary and a later one by Bob. *)
Definition bobSummary : Summary :=
  {| s_id := "s2"; s_title := "Novel, again"; s_content := "Another summary.";
     s_authorId := "u2"; s_bookId := "b1"; s_isPublic := true;
     s_rating := None; s_createdAt := sampleNow - 500 |}.

Definition dbTwoSummaries : Db.t :=
  {| users := [ann; bob; cleo; tess]; books := [novel]; readingProgress := [];
     summaries := [annSummary; bobSummary]; comments := [] |}.

(** 2024-01-31T12:00:00Z, one hour before [sampleNow], on the last day of
    the month. *)
Definition lastDayNoon : Z := sampleNow - 3600000.

Definition readingBody : Progress.Body :=
  {| Progress.bookId := Some "b1"; Progress.status := Some READING;
     Progress.currentPage := Some 150; Progress.totalPages := None |}.

Definition negativeBody : Progress.Body :=
  {| Progress.bookId := Some "b1"; Progress.status := Some READING;
     Progress.currentPage := Some (-30); Progress.totalPages := None |}.

Definition summaryBody : Summaries.Body :=
  {| Summaries.title := None; Summaries.content := Some "A summary.";
     Summaries.bookId := Some "b1"; Summaries.isPublic := None |}.

Definition sampleCategory (b : Book) : string :=
  if String.eqb (b_id b) "b1" then "Fiction" else "Science".

(** ** Rounding to a double *)

Section DoubleFacts.
Import Double.

Lemma pow2_pos (e : Z) : (0 < pow2 e)%Q.
Proof. apply Qpower_0_lt. reflexivity. Qed.

Lemma pow2_Z (e : Z) : 0 <= e -> (pow2 e == inject_Z (2 ^ e))%Q.
Proof. intros H. unfold pow2. rewrite Zpower_Qpower by exact H. reflexivity. Qed.

Lemma pow2_add (a b : Z) : (pow2 (a + b) == pow2 a * pow2 b)%Q.
Proof. apply Qpower_plus. discriminate. Qed.

Lemma pow2_le (a b : Z) : a <= b -> (pow2 a <= pow2 b)%Q.
Proof. intros H. apply Qpower_le_compat_l; [exact H | discriminate]. Qed.

Lemma roundEven_floor (q : Q) : Qfloor q <= roundEven q <= Qfloor q + 1.
Proof.
  unfold roundEven.
  destruct (q - inject_Z (Qfloor q) ?= 1 # 2)%Q; [destruct (Z.even (Qfloor q)) | |]; lia.
Qed.

Lemma roundEven_ge (m : Z) (q : Q) : (inject_Z m <= q)%Q -> m <= roundEven q.
Proof.
  intros H. apply Qfloor_resp_le in H. rewrite Qfloor_Z in H.
  pose proof (roundEven_floor q). lia.
Qed.

Lemma roundEven_le (m : Z) (q : Q) : (q <= inject_Z m)%Q -> roundEven q <= m.
Proof.
  intros H.
  assert (Hf : Qfloor q <= m).
  { apply Qfloor_resp_le in H. rewrite Qfloor_Z in H. exact H. }
  destruct (Z.eq_dec (Qfloor q) m) as [E | E].
  - assert (Hq : (q == inject_Z (Qfloor q))%Q).
    { apply Qle_antisym; [rewrite E; exact H | apply Qfloor_le]. }
    unfold roundEven.
    assert (Hc : (q - inject_Z (Qfloor q) ?= 1 # 2)%Q = Lt).
    { apply Qlt_alt. setoid_replace (q - inject_Z (Qfloor q))%Q with 0%Q.
      - reflexivity.
      - rewrite Hq at 1. ring. }
    rewrite Hc. lia.
  - pose proof (roundEven_floor q). lia.
Qed.

Lemma roundEven_near (q : Q) : (Qabs (inject_Z (roundEven q) - q) <= 1 # 2)%Q.
Proof.
  pose proof (Qfloor_le q) as Hlo. pose proof (Qlt_floor q) as Hhi.
  rewrite inject_Z_plus in Hhi. change (inject_Z 1) with 1%Q in Hhi.
  apply Qabs_Qle_condition. unfold roundEven.
  destruct (q - inject_Z (Qfloor q) ?= 1 # 2)%Q eqn:Hc.
  - apply Qeq_alt in Hc.
    destruct (Z.even (Qfloor q)).
    + split; lra.
    + rewrite inject_Z_plus. change (inject_Z 1) with 1%Q. split; lra.
  - apply Qlt_alt in Hc. split; lra.
  - apply Qgt_alt in Hc. rewrite inject_Z_plus. change (inject_Z 1) with 1%Q.
    split; lra.
Qed.

Lemma Qabs_frac (x : Q) : (Qabs x == Z.abs (Qnum x) # Qden x)%Q.
Proof. destruct x as [n d]. reflexivity. Qed.

Lemma exponent_le (x : Q) : ~ (x == 0)%Q -> (pow2 (exponent x) <= Qabs x)%Q.
Proof.
  intros Hx. unfold exponent.
  set (a := Z.log2 (Z.abs (Qnum x))). set (b := Z.log2 (Z.pos (Qden x))).
  destruct (Qle_bool (pow2 (a - b)) (Qabs x)) eqn:Ht.
  - apply Qle_bool_iff. exact Ht.
  - clear Ht.
    assert (Hn : 0 < Z.abs (Qnum x)).
    { destruct x as [n d]. unfold Qeq in Hx. simpl in *. lia. }
    pose proof (Z.log2_spec _ Hn) as [Ha _]. fold a in Ha.
    assert (Hd : 0 < Z.pos (Qden x)) by lia.
    pose proof (Z.log2_spec _ Hd) as [_ Hb]. fold b in Hb.
    assert (Ha0 : 0 <= a) by apply Z.log2_nonneg.
    assert (Hb0 : 0 <= b) by apply Z.log2_nonneg.
    rewrite Qabs_frac.
    replace (a - b - 1) with (a + - (b + 1)) by lia.
    rewrite pow2_add. unfold pow2 at 2. rewrite Qpower_opp. fold (pow2 (b + 1)).
    rewrite (pow2_Z a) by lia. rewrite (pow2_Z (b + 1)) by lia.
    assert (Hp : 0 < 2 ^ (b + 1)) by (apply Z.pow_pos_nonneg; lia).
    apply Qle_shift_div_r.
    + change 0%Q with (inject_Z 0). rewrite <- Zlt_Qlt. exact Hp.
    + unfold Qle, Qmult, inject_Z. cbn [Qnum Qden]. 
      nia.
Qed.

Lemma ulp_pos (x : Q) : (0 < ulp x)%Q.
Proof. apply pow2_pos. Qed.

Lemma ulp_le (x : Q) : ~ (x == 0)%Q -> (ulp x * pow2 52 <= Qabs x)%Q.
Proof.
  intros Hx. unfold ulp. rewrite <- pow2_add.
  replace (exponent x - 52 + 52) with (exponent x) by lia.
  apply exponent_le. exact Hx.
Qed.

Lemma round_zero (x : Q) : (x == 0)%Q -> round x = 0%Q.
Proof. intros H. unfold round. apply Qeq_bool_iff in H. rewrite H. reflexivity. Qed.

Lemma round_nonzero (x : Q) :
  ~ (x == 0)%Q -> round x = (inject_Z (roundEven (x / ulp x)) * ulp x)%Q.
Proof.
  intros H. unfold round. destruct (Qeq_bool x 0) eqn:E; [| reflexivity].
  apply Qeq_bool_iff in E. contradiction.
Qed.

Lemma pow2_52_ge_1 : (1 <= pow2 52)%Q.
Proof. vm_compute. discriminate. Qed.

Lemma round_pos (x : Q) : (0 < x)%Q -> (0 < round x)%Q.
Proof.
  intros Hx.
  assert (Hn : ~ (x == 0)%Q) by (intros E; rewrite E in Hx; discriminate).
  rewrite (round_nonzero x Hn).
  pose proof (ulp_pos x) as Hu. pose proof (ulp_le x Hn) as Hle.
  rewrite (Qabs_pos x) in Hle by (apply Qlt_le_weak; exact Hx).
  pose proof pow2_52_ge_1 as H52.
  assert (H1 : (inject_Z 1 <= x / ulp x)%Q).
  { apply Qle_shift_div_l; [exact Hu |]. change (inject_Z 1) with 1%Q. nra. }
  apply roundEven_ge in H1.
  apply (Qmult_lt_0_compat); [| exact Hu].
  change 0%Q with (inject_Z 0). rewrite <- Zlt_Qlt. lia.
Qed.

Lemma round_neg (x : Q) : (x < 0)%Q -> (round x < 0)%Q.
Proof.
  intros Hx.
  assert (Hn : ~ (x == 0)%Q) by (intros E; rewrite E in Hx; discriminate).
  rewrite (round_nonzero x Hn).
  pose proof (ulp_pos x) as Hu. pose proof (ulp_le x Hn) as Hle.
  rewrite (Qabs_neg x) in Hle by (apply Qlt_le_weak; exact Hx).
  pose proof pow2_52_ge_1 as H52.
  assert (H1 : (x / ulp x <= inject_Z (-1))%Q).
  { apply Qle_shift_div_r; [exact Hu |]. change (inject_Z (-1)) with (-1)%Q. nra. }
  apply roundEven_le in H1.
  assert (Hr : (inject_Z (roundEven (x / ulp x)) <= -1)%Q).
  { change (-1)%Q with (inject_Z (-1)). rewrite <- Zle_Qle. exact H1. }
  nra.
Qed.

Lemma round_nonneg (x : Q) : (0 <= x)%Q -> (0 <= round x)%Q.
Proof.
  intros Hx. destruct (Qeq_dec x 0) as [E | E].
  - rewrite (round_zero x E). apply Qle_refl.
  - apply Qlt_le_weak, round_pos. apply Qle_lteq in Hx. destruct Hx as [Hx | Hx].
    + exact Hx.
    + symmetry in Hx. contradiction.
Qed.

(** Rounding moves a number by at most half a unit in the last place, that is
    by at most 2^-53 of its size. *)
Lemma round_error (x : Q) : (Qabs (round x - x) * pow2 53 <= Qabs x)%Q.
Proof.
  destruct (Qeq_dec x 0) as [E | E].
  - rewrite (round_zero x E). rewrite E. vm_compute. discriminate.
  - rewrite (round_nonzero x E).
    pose proof (ulp_pos x) as Hu. pose proof (ulp_le x E) as Hle.
    pose proof (roundEven_near (x / ulp x)) as Hnear.
    set (r := inject_Z (roundEven (x / ulp x))) in *.
    assert (Hy : (r * ulp x - x == (r - x / ulp x) * ulp x)%Q).
    { field. intros H0. rewrite H0 in Hu. discriminate. }
    rewrite Hy. rewrite Qabs_Qmult. rewrite (Qabs_pos (ulp x)) by (apply Qlt_le_weak; exact Hu).
    assert (H53 : (pow2 53 == 2 * pow2 52)%Q) by reflexivity.
    rewrite H53.
    pose proof (Qabs_nonneg (r - x / ulp x)) as H0.
    set (d := Qabs (r - x / ulp x)) in *.
    assert (Hp : (0 < pow2 52)%Q) by apply pow2_pos.
    set (P := pow2 52) in *. set (u := ulp x) in *.
    assert (Hd : (d * u * (2 * P) <= u * P)%Q).
    { assert (Hup : (0 <= u * P)%Q) by nra.
      setoid_replace (d * u * (2 * P))%Q with ((2 * d) * (u * P))%Q by ring.
      setoid_replace (u * P)%Q with (1 * (u * P))%Q at 2 by ring.
      apply Qmult_le_compat_r; [lra | exact Hup]. }
    lra.
Qed.

(** Rounding never crosses an integer that a double holds exactly. *)
Lemma round_ge_int (k : Z) (x : Q) :
  0 < k <= 2 ^ 53 -> (inject_Z k <= x)%Q -> (inject_Z k <= round x)%Q.
Proof.
  intros Hk Hx.
  assert (Hk0 : (0 < inject_Z k)%Q).
  { change 0%Q with (inject_Z 0). rewrite <- Zlt_Qlt. lia. }
  assert (Hpos : (0 < x)%Q) by lra.
  assert (Hn : ~ (x == 0)%Q) by (intros E; rewrite E in Hpos; discriminate).
  rewrite (round_nonzero x Hn).
  pose proof (ulp_pos x) as Hu. pose proof (ulp_le x Hn) as Hle.
  rewrite (Qabs_pos x) in Hle by lra.
  destruct (Z_le_gt_dec (exponent x) 52) as [He | He].
  - assert (Hulp : (ulp x * inject_Z (2 ^ (52 - exponent x)) == 1)%Q).
    { unfold ulp. rewrite <- pow2_Z by lia. rewrite <- pow2_add.
      replace (exponent x - 52 + (52 - exponent x)) with 0 by lia. reflexivity. }
    set (m := k * 2 ^ (52 - exponent x)).
    assert (Hm : (inject_Z m <= x / ulp x)%Q).
    { apply Qle_shift_div_l; [exact Hu |]. unfold m. rewrite inject_Z_mult.
      setoid_replace (inject_Z k * inject_Z (2 ^ (52 - exponent x)) * ulp x)%Q
        with (inject_Z k * (ulp x * inject_Z (2 ^ (52 - exponent x))))%Q by ring.
      rewrite Hulp. lra. }
    apply roundEven_ge in Hm.
    assert (Hr : (inject_Z m <= inject_Z (roundEven (x / ulp x)))%Q).
    { rewrite <- Zle_Qle. exact Hm. }
    assert (Hk' : (inject_Z k == inject_Z m * ulp x)%Q).
    { unfold m. rewrite inject_Z_mult.
      setoid_replace (inject_Z k * inject_Z (2 ^ (52 - exponent x)) * ulp x)%Q
        with (inject_Z k * (ulp x * inject_Z (2 ^ (52 - exponent x))))%Q by ring.
      rewrite Hulp. ring. }
    rewrite Hk'. apply Qmult_le_compat_r; [exact Hr | lra].
  - assert (Hm : (inject_Z (2 ^ 52) <= x / ulp x)%Q).
    { apply Qle_shift_div_l; [exact Hu |]. rewrite <- pow2_Z by lia.
      rewrite Qmult_comm. exact Hle. }
    apply roundEven_ge in Hm.
    assert (Hr : (inject_Z (2 ^ 52) <= inject_Z (roundEven (x / ulp x)))%Q).
    { rewrite <- Zle_Qle. exact Hm. }
    assert (Hbig : (inject_Z k <= inject_Z (2 ^ 52) * ulp x)%Q).
    { rewrite <- (pow2_Z 52) by lia. unfold ulp. rewrite <- pow2_add.
      apply Qle_trans with (pow2 53).
      - rewrite (pow2_Z 53) by lia. rewrite <- Zle_Qle. lia.
      - apply pow2_le. lia. }
    apply Qle_trans with (inject_Z (2 ^ 52) * ulp x)%Q; [exact Hbig |].
    apply Qmult_le_compat_r; [exact Hr | lra].
Qed.
Lemma round_error_bounds (x : Q) :
  (0 <= x)%Q ->
  ((round x - x) * pow2 53 <= x)%Q /\ ((x - round x) * pow2 53 <= x)%Q.
Proof.
  intros Hx. pose proof (round_error x) as H.
  rewrite (Qabs_pos x) in H by exact Hx.
  assert (Hp : (0 < pow2 53)%Q) by apply pow2_pos.
  pose proof (Qle_Qabs (round x - x)) as H1.
  pose proof (Qle_Qabs (- (round x - x))) as H2. rewrite Qabs_opp in H2.
  set (P := pow2 53) in *. set (d := (round x - x)%Q) in *. set (m := Qabs d) in *.
  assert (Hd : (x - round x == - d)%Q) by (unfold d; ring).
  rewrite Hd. split.
  - apply Qle_trans with (m * P)%Q; [| exact H].
    apply Qmult_le_compat_r; [exact H1 | lra].
  - apply Qle_trans with (m * P)%Q; [| exact H].
    apply Qmult_le_compat_r; [exact H2 | lra].
Qed.

(** On every page [c] of every page total [p] up to 120, and on a grid of
    larger ones, [round] gives the double the kernel's binary64 arithmetic
    gives. *)
Example round_agrees_with_binary64 :
  let upto (n : nat) := map Z.of_nat (seq 1%nat n) in
  forallb (fun p => forallb (fun c => agreesWithPrimFloat c p) (upto 120%nat)) (upto 120%nat)
  = true
  /\ forallb (fun p => forallb (fun c => agreesWithPrimFloat (c * 7919 + 13)
                                                             (p * 104729 + 7))
                                (upto 40%nat)) (upto 40%nat)
     = true.
Proof. vm_compute. split; reflexivity. Qed.

Lemma pow2_53 : (pow2 53 == 9007199254740992)%Q.
Proof. reflexivity. Qed.

Lemma pow2_51 : (pow2 51 == 2251799813685248)%Q.
Proof. reflexivity. Qed.

Lemma min_cap_close (u v : Q) : (Qabs (Qmin u 100 - Qmin v 100) <= Qabs (u - v))%Q.
Proof.
  apply Qabs_Qle_condition.
  pose proof (Qle_Qabs (u - v)) as H1.
  pose proof (Qle_Qabs (- (u - v))) as H2. rewrite Qabs_opp in H2.
  pose proof (Qabs_nonneg (u - v)) as H0.
  destruct (Q.min_spec u 100) as [[Hu Eu] | [Hu Eu]];
    destruct (Q.min_spec v 100) as [[Hv Ev] | [Hv Ev]];
    rewrite Eu, Ev; split; lra.
Qed.

(** [Math.min(a * 100, 100)] for a quotient [a >= 0] that was rounded to a
    double: between 0 and 100, within 2^-51 of the exact value in relative
    terms, and exactly 100 once the exact quotient is 1 or more. *)
Lemma percent_double (a : Q) :
  (0 <= a)%Q ->
  let v := Qmin (mul (round a) 100) 100 in
  (0 <= v)%Q /\ (v <= 100)%Q
  /\ (Qabs (v - Qmin (a * 100) 100) * pow2 51 <= a * 100)%Q
  /\ ((1 <= a)%Q -> (v == 100)%Q).
Proof.
  intros Ha v. subst v. unfold mul.
  pose proof (round_nonneg a Ha) as Hr1.
  pose proof (round_error_bounds a Ha) as [E1 E1'].
  set (r1 := round a) in *.
  assert (Hy : (0 <= r1 * 100)%Q) by lra.
  pose proof (round_nonneg _ Hy) as Hr2.
  pose proof (round_error_bounds _ Hy) as [E2 E2'].
  set (r2 := round (r1 * 100)) in *.
  rewrite pow2_53 in E1, E1', E2, E2'.
  split; [|split; [|split]].
  - apply Q.min_glb; [exact Hr2 | discriminate].
  - apply Q.le_min_r.
  - rewrite pow2_51.
    pose proof (min_cap_close r2 (a * 100)) as Hm.
    assert (Hd : (Qabs (r2 - a * 100) * 2251799813685248 <= a * 100)%Q).
    { apply Qle_trans with (Qabs ((r2 - a * 100) * 2251799813685248)).
      - rewrite Qabs_Qmult. rewrite (Qabs_pos 2251799813685248) by discriminate.
        apply Qle_refl.
      - apply Qabs_Qle_condition. split; lra. }
    set (lhs := Qabs (Qmin r2 100 - Qmin (a * 100) 100)) in *.
    set (rhs := Qabs (r2 - a * 100)) in *. lra.
  - intros H1. change 1%Q with (inject_Z 1) in H1.
    apply (round_ge_int 1) in H1; [|lia]. fold r1 in H1.
    change (inject_Z 1) with 1%Q in H1.
    assert (H100 : (inject_Z 100 <= r1 * 100)%Q).
    { change (inject_Z 100) with 100%Q. lra. }
    apply (round_ge_int 100) in H100; [|lia]. fold r2 in H100.
    change (inject_Z 100) with 100%Q in H100.
    apply Q.min_r. exact H100.
Qed.

(** A negative quotient gives a negative percentage: nothing clamps it
    from below. *)
Lemma percent_double_neg (a : Q) :
  (a < 0)%Q -> (Qmin (mul (round a) 100) 100 < 0)%Q.
Proof.
  intros Ha. apply Q.min_lt_iff. left. unfold mul. apply round_neg.
  apply round_neg in Ha. lra.
Qed.
End DoubleFacts.

(** ** The points counter *)

Section Points.

Lemma find_user_after_update (id k : string) (n : Z) (us : list User) :
  find (fun u => String.eqb (u_id u) k)
       (map (fun u => if String.eqb (u_id u) id then addPoints n u else u) us)
  = option_map (fun u => if String.eqb (u_id u) id then addPoints n u else u)
               (find (fun u => String.eqb (u_id u) k) us).
Proof.
  induction us as [|u us IH]; simpl; [reflexivity|].
  destruct (String.eqb (u_id u) id) eqn:Eid; simpl;
    destruct (String.eqb (u_id u) k) eqn:Ek; simpl; auto;
    rewrite ?Eid; auto.
Qed.

(** An increment adds to the counter of the named user and to no other. *)
Lemma pointsOf_incrementPoints (db db' : Db.t) (id : string) (n : Z) :
  incrementPoints db id n = Some db' ->
  forall u, pointsOf db' u =
            if String.eqb u id then option_map (fun p => p + n) (pointsOf db u)
            else pointsOf db u.
Proof.
  unfold incrementPoints. destruct (findUser db id) eqn:E; [|discriminate].
  intros [= <-] k. unfold pointsOf, findUser; simpl.
  rewrite find_user_after_update.
  destruct (find (fun u => String.eqb (u_id u) k) (users db)) as [v|] eqn:Ev; simpl.
  - apply find_some in Ev. destruct Ev as [_ Ev]. apply String.eqb_eq in Ev. subst k.
    rewrite String.eqb_sym.
    destruct (String.eqb id (u_id v)); reflexivity.
  - destruct (String.eqb k id); reflexivity.
Qed.

Lemma incrementPoints_defined (db : Db.t) (id : string) (n p : Z) :
  pointsOf db id = Some p -> exists db', incrementPoints db id n = Some db'.
Proof.
  unfold pointsOf, incrementPoints. destruct (findUser db id); [eauto|discriminate].
Qed.

Lemma pointsOf_same_users (a b : Db.t) (u : string) :
  users a = users b -> pointsOf a u = pointsOf b u.
Proof. unfold pointsOf, findUser. intros ->. reflexivity. Qed.

Lemma incrementPoints_same_users (a b : Db.t) (id : string) (n : Z) :
  users a = users b ->
  incrementPoints a id n = None -> incrementPoints b id n = None.
Proof.
  unfold incrementPoints, findUser. intros ->.
  destruct (find _ (users b)); [discriminate|reflexivity].
Qed.

Lemma incrementPoints_tables (db db' : Db.t) (id : string) (n : Z) :
  incrementPoints db id n = Some db' ->
  books db' = books db /\ readingProgress db' = readingProgress db
  /\ summaries db' = summaries db /\ comments db' = comments db.
Proof.
  unfold incrementPoints. destruct (findUser db id); [|discriminate].
  intros [= <-]. auto.
Qed.

End Points.

Lemma unauthenticated_id (s : SessionUser) :
  unauthenticated (Some s) = false -> su_id s <> EmptyString.
Proof.
  unfold unauthenticated; simpl. intros H E. rewrite E in H. discriminate.
Qed.

Lemma truthyStr_Some (s : string) : s <> EmptyString -> truthyStr (Some s) = true.
Proof.
  intros H. simpl. destruct (String.eqb s EmptyString) eqn:E; [|reflexivity].
  apply String.eqb_eq in E. contradiction.
Qed.

(** ** Reading-progress route *)

Section ProgressRoute.
Import Progress.

Lemma upsert_tables (db : Db.t) (uid bid : string) (b : Body) (pages : Z)
    (pct : Q) (now : Z) :
  users (snd (upsert db uid bid b pages pct now)) = users db.
Proof. unfold upsert. destruct (findProgress db uid bid); reflexivity. Qed.

Lemma POST_accepted (db : Db.t) (session : option SessionUser) (b : Body)
    (now : Z) (s : SessionUser) (bid : string) (book : Book) :
  accepted db session b s bid book ->
  POST db session b now =
  let pages := effectivePages (totalPages b) book in
  let pct := progressPercentage pages (currentPage b) in
  let up := upsert db (su_id s) bid b pages pct now in
  match status b with
  | Some COMPLETED =>
      match incrementPoints (snd up) (su_id s) 100 with
      | Some db2 => (Success 200 (fst up), db2)
      | None => (Failure 500 "Failed to update reading progress", snd up)
      end
  | Some READING =>
      if Qle_bool 50 pct then
        match incrementPoints (snd up) (su_id s) 25 with
        | Some db2 => (Success 200 (fst up), db2)
        | None => (Failure 500 "Failed to update reading progress", snd up)
        end
      else (Success 200 (fst up), snd up)
  | _ => (Success 200 (fst up), snd up)
  end.
Proof.
  intros (-> & Hauth & Hb & Hne & Hbook). unfold POST.
  rewrite Hauth, Hb, (truthyStr_Some _ Hne). cbn [negb orElse]. rewrite Hbook.
  cbv zeta.
  destruct (upsert db (su_id s) bid b _ _ now) as [row d1]. reflexivity.
Qed.

(** A request that is not let through leaves the store as it was. *)
Lemma POST_rejected (db : Db.t) (session : option SessionUser) (b : Body) (now : Z) :
  (forall s bid book, ~ accepted db session b s bid book) ->
  snd (POST db session b now) = db.
Proof.
  intros Hno. unfold POST. destruct session as [s|]; [|reflexivity].
  destruct (unauthenticated (Some s)) eqn:Hauth; [reflexivity|].
  destruct (bookId b) as [bid|] eqn:Hb; [|reflexivity].
  destruct (truthyStr (Some bid)) eqn:Ht; [|reflexivity].
  cbn [negb orElse].
  destruct (findBook db bid) as [book|] eqn:Hbook; [|reflexivity].
  exfalso. apply (Hno s bid book). repeat split; auto.
  intros ->. discriminate.
Qed.

End ProgressRoute.

Section ProgressPoints.
Import Progress.

Variables (db : Db.t) (session : option SessionUser) (b : Body) (now : Z).

Lemma accepted_or_not :
  (exists s bid book, accepted db session b s bid book)
  \/ (forall s bid book, ~ accepted db session b s bid book).
Proof.
  unfold accepted.
  destruct session as [s|]; [|right; intros ? ? ? (H & _); discriminate].
  destruct (unauthenticated (Some s)) eqn:Hauth;
    [right; intros ? ? ? (_ & H & _); discriminate|].
  destruct (bookId b) as [bid|]; [|right; intros ? ? ? (_ & _ & H & _); discriminate].
  destruct (string_dec bid EmptyString) as [->|Hne].
  { right. intros ? ? ? (_ & _ & [= <-] & H & _). now apply H. }
  destruct (findBook db bid) as [book|] eqn:Hbook.
  - left. exists s, bid, book. auto.
  - right. intros ? ? ? (_ & _ & [= <-] & _ & H). congruence.
Qed.

Lemma POST_rejected_status :
  (forall s bid book, ~ accepted db session b s bid book) ->
  statusOf (fst (POST db session b now)) <> 200.
Proof.
  intros Hno. unfold POST. destruct session as [s|]; [|simpl; lia].
  destruct (unauthenticated (Some s)) eqn:Hauth; [simpl; lia|].
  destruct (bookId b) as [bid|] eqn:Hb; [|simpl; lia].
  destruct (truthyStr (Some bid)) eqn:Ht; [|simpl; lia].
  cbn [negb orElse].
  destruct (findBook db bid) as [book|] eqn:Hbook; [|simpl; lia].
  exfalso. apply (Hno s bid book). repeat split; auto.
  intros ->. discriminate.
Qed.

(** The counter of a user other than the caller never moves, and no
    counter moves when the answer is not 200. *)
Lemma POST_points_frame (u : string) :
  (forall s, session = Some s -> u <> su_id s) \/
  statusOf (fst (POST db session b now)) <> 200 ->
  pointsOf (snd (POST db session b now)) u = pointsOf db u.
Proof.
  destruct accepted_or_not as [(s & bid & book & Hacc)|Hno];
    [|intros _; now rewrite POST_rejected].
  rewrite (POST_accepted _ _ _ now _ _ _ Hacc). cbv zeta.
  set (up := upsert db (su_id s) bid b _ _ now).
  assert (Hsame : pointsOf (snd up) u = pointsOf db u)
    by (apply pointsOf_same_users, upsert_tables).
  assert (Hinc : forall n,
    (forall s', session = Some s' -> u <> su_id s') \/
    statusOf (fst (match incrementPoints (snd up) (su_id s) n with
                   | Some db2 => (Success 200 (fst up), db2)
                   | None => (Failure 500 "Failed to update reading progress", snd up)
                   end)) <> 200 ->
    pointsOf (snd (match incrementPoints (snd up) (su_id s) n with
                   | Some db2 => (Success 200 (fst up), db2)
                   | None => (Failure 500 "Failed to update reading progress", snd up)
                   end)) u = pointsOf db u).
  { intros n. destruct (incrementPoints (snd up) (su_id s) n) as [d2|] eqn:Hd2;
      simpl; [|auto].
    intros [Hother|Hst]; [|lia].
    rewrite (pointsOf_incrementPoints _ _ _ _ Hd2 u).
    destruct Hacc as (Hs & _). specialize (Hother s Hs).
    apply String.eqb_neq in Hother. now rewrite Hother. }
  destruct (status b) as [[| | |]|]; auto.
  destruct (Qle_bool 50 _); auto.
Qed.

End ProgressPoints.

(** C7.  A progress update that passes the guards answers 200 and moves the
    caller's points by the award of its status: exactly +100 when the
    request's status is COMPLETED, whatever row was stored before; exactly
    +25 when the status is READING and the computed percentage is at least
    50; nothing otherwise.  The points of every other user, and all points
    when the answer is not 200, stay as they were. *)
Theorem progress_points_award
    (db : Db.t) (session : option SessionUser) (b : Progress.Body) (now : Z) :
  let r := Progress.POST db session b now in
  (forall s bid book p,
      Progress.accepted db session b s bid book ->
      pointsOf db (su_id s) = Some p ->
      let pct := Progress.progressPercentage
                   (Progress.effectivePages (Progress.totalPages b) book)
                   (Progress.currentPage b) in
      statusOf (fst r) = 200
      /\ (Progress.status b = Some COMPLETED ->
          pointsOf (snd r) (su_id s) = Some (p + 100))
      /\ (Progress.status b = Some READING -> (50 <= pct)%Q ->
          pointsOf (snd r) (su_id s) = Some (p + 25))
      /\ (Progress.status b <> Some COMPLETED ->
          ~ (Progress.status b = Some READING /\ (50 <= pct)%Q) ->
          pointsOf (snd r) (su_id s) = Some p))
  /\ (forall u, (forall s, session = Some s -> u <> su_id s) ->
                pointsOf (snd r) u = pointsOf db u)
  /\ (statusOf (fst r) <> 200 -> forall u, pointsOf (snd r) u = pointsOf db u).
Proof.
  intros r. split; [|split].
  - intros s bid book p Hacc Hp pct. subst r.
    rewrite (POST_accepted _ _ _ now _ _ _ Hacc). cbv zeta. fold pct.
    set (up := Progress.upsert db (su_id s) bid b _ pct now).
    assert (Hp1 : pointsOf (snd up) (su_id s) = Some p).
    { rewrite <- Hp. apply pointsOf_same_users, upsert_tables. }
    assert (Hinc : forall n,
      let r' := match incrementPoints (snd up) (su_id s) n with
                | Some db2 => (Success 200 (fst up), db2)
                | None => (Failure 500 "Failed to update reading progress", snd up)
                end in
      statusOf (fst r') = 200 /\ pointsOf (snd r') (su_id s) = Some (p + n)).
    { intros n. destruct (incrementPoints_defined _ _ n _ Hp1) as [d2 Hd2].
      cbv zeta. rewrite Hd2. simpl. split; [reflexivity|].
      rewrite (pointsOf_incrementPoints _ _ _ _ Hd2), String.eqb_refl, Hp1.
      reflexivity. }
    destruct (Progress.status b) as [[| | |]|] eqn:Hst.
    + simpl. repeat split; try discriminate; auto.
    + destruct (Qle_bool 50 pct) eqn:Hle.
      * destruct (Hinc 25) as [H1 H2]. repeat split; auto; try discriminate.
        intros _ Hn. exfalso. apply Hn. split; [reflexivity|].
        now apply Qle_bool_iff.
      * simpl. repeat split; auto; try discriminate.
        intros _ Hge. apply Qle_bool_iff in Hge. congruence.
    + simpl. repeat split; try discriminate; auto.
    + destruct (Hinc 100) as [H1 H2]. repeat split; auto; try discriminate.
      intros Hn. now contradiction Hn.
    + simpl. repeat split; try discriminate; auto.
  - intros u Hu. apply POST_points_frame. now left.
  - intros Hst u. apply POST_points_frame. now right.
Qed.

(** Completing an already completed book awards the 100 points again. *)
Lemma progress_points_award_witness :
  let body := {| Progress.bookId := Some "b1"; Progress.status := Some COMPLETED;
                 Progress.currentPage := Some 300; Progress.totalPages := None |} in
  let once := snd (Progress.POST db0 (Some annSession) body sampleNow) in
  let twice := snd (Progress.POST once (Some annSession) body (sampleNow + 1)) in
  pointsOf db0 "u1" = Some 10 /\ pointsOf once "u1" = Some 110
  /\ pointsOf twice "u1" = Some 210.
Proof.
  intros body once twice. split; [reflexivity|]. split.
  - destruct (progress_points_award db0 (Some annSession) body sampleNow) as [H _].
    destruct (H annSession "b1" novel 10) as (_ & Hc & _).
    + repeat split; try reflexivity. discriminate.
    + reflexivity.
    + exact (Hc eq_refl).
  - destruct (progress_points_award once (Some annSession) body (sampleNow + 1))
      as [H _].
    destruct (H annSession "b1" novel 110) as (_ & Hc & _).
    + repeat split; try reflexivity. discriminate.
    + reflexivity.
    + exact (Hc eq_refl).
Defined.

(** ** The stored percentage *)

Section ProgressPercentage.
Import Progress.

Lemma find_after_keyed_update {A : Type} (k : A -> bool) (f : A -> A) (l : list A) :
  (forall a, k a = true -> k (f a) = true) ->
  find k (map (fun a => if k a then f a else a) l) = option_map f (find k l).
Proof.
  intros Hk. induction l as [|a l IH]; simpl; [reflexivity|].
  destruct (k a) eqn:Ea; simpl.
  - now rewrite (Hk a Ea).
  - now rewrite Ea.
Qed.

Lemma find_after_append {A : Type} (k : A -> bool) (l : list A) (a : A) :
  find k l = None -> k a = true -> find k (l ++ [a]) = Some a.
Proof.
  induction l as [|x l IH]; simpl; intros Hl Ha.
  - now rewrite Ha.
  - destruct (k x); [discriminate|auto].
Qed.

(** The upsert leaves one row under the key, carrying the percentage. *)
Lemma upsert_stored (db : Db.t) (uid bid : string) (b : Body) (pages : Z)
    (pct : Q) (now : Z) :
  exists row,
    findProgress (snd (upsert db uid bid b pages pct now)) uid bid = Some row
    /\ rp_progressPercentage row = pct
    /\ rp_currentPage row = orNum (currentPage b) 0
    /\ rp_totalPages row = pages.
Proof.
  unfold upsert. destruct (findProgress db uid bid) as [old|] eqn:Hold.
  - exists (updateRow b pages pct now old). unfold findProgress in *. simpl.
    change (fun p => (rp_userId p =? uid)%string && (rp_bookId p =? bid)%string)
      with (keyIs uid bid) in *.
    rewrite find_after_keyed_update, Hold by auto. auto.
  - exists (createRow uid bid b pages pct now). unfold findProgress in *. simpl.
    rewrite find_after_append; auto.
    simpl. now rewrite !String.eqb_refl.
Qed.

Lemma POST_stored (db : Db.t) (session : option SessionUser) (b : Body) (now : Z)
    (s : SessionUser) (bid : string) (book : Book) :
  accepted db session b s bid book ->
  exists row,
    findProgress (snd (POST db session b now)) (su_id s) bid = Some row
    /\ rp_progressPercentage row =
       progressPercentage (effectivePages (totalPages b) book) (currentPage b)
    /\ rp_totalPages row = effectivePages (totalPages b) book.
Proof.
  intros Hacc. rewrite (POST_accepted _ _ _ now _ _ _ Hacc). cbv zeta.
  set (pages := effectivePages (totalPages b) book).
  set (pct := progressPercentage pages (currentPage b)).
  destruct (upsert_stored db (su_id s) bid b pages pct now)
    as (row & Hrow & Hpct & _ & Hpages).
  exists row. split; [|auto].
  set (up := upsert db (su_id s) bid b pages pct now) in *.
  assert (Hinc : forall n,
    findProgress
      (snd (match incrementPoints (snd up) (su_id s) n with
            | Some db2 => (Success 200 (fst up), db2)
            | None => (Failure 500 "Failed to update reading progress", snd up)
            end)) (su_id s) bid = Some row).
  { intros n. destruct (incrementPoints (snd up) (su_id s) n) as [d2|] eqn:Hd2;
      simpl; [|exact Hrow].
    apply incrementPoints_tables in Hd2. destruct Hd2 as (_ & Hrp & _).
    unfold findProgress in *. now rewrite Hrp. }
  destruct (status b) as [[| | |]|]; auto.
  destruct (Qle_bool 50 pct); auto.
Qed.

Lemma orNum_Some_nonzero (c : Z) : orNum (Some c) 0 = c.
Proof.
  simpl. destruct (c =? 0) eqn:E; [|reflexivity].
  apply Z.eqb_eq in E. now subst.
Qed.

(** The three ways the page total is chosen. *)
Lemma effectivePages_cases (t : option Z) (book : Book) :
  effectivePages t book =
  match t with
  | Some n => if n =? 0 then toNumber (b_pages book) else n
  | None => toNumber (b_pages book)
  end.
Proof.
  unfold effectivePages, Js.or, truthyNum, orNum, toNumber.
  destruct t as [n|].
  - destruct (n =? 0) eqn:E; simpl; [|now rewrite E].
    destruct (b_pages book) as [q|]; [|reflexivity].
    destruct (q =? 0) eqn:Eq; [|reflexivity].
    apply Z.eqb_eq in Eq. now subst.
  - simpl. destruct (b_pages book) as [q|]; [|reflexivity].
    destruct (q =? 0) eqn:Eq; [|reflexivity].
    apply Z.eqb_eq in Eq. now subst.
Qed.

(** The percentage of a page [c >= 0] of a positive page total: the double
    the code computes, within 2^-51 of the exact quotient in relative
    terms, exact at both ends of the scale. *)
Lemma percentage_double (pages c : Z) :
  0 < pages -> 0 <= c ->
  let exact := (inject_Z c / inject_Z pages * 100)%Q in
  let pct := progressPercentage pages (Some c) in
  pct = Qmin (Double.mul (Double.div (inject_Z c) (inject_Z pages)) 100) 100
  /\ (0 <= pct)%Q /\ (pct <= 100)%Q
  /\ (Qabs (pct - Qmin exact 100) * Double.pow2 51 <= exact)%Q
  /\ (pages <= c -> (pct == 100)%Q)
  /\ (c = 0 -> (pct == 0)%Q).
Proof.
  intros Hp Hc exact pct. subst pct. unfold progressPercentage.
  assert (Hpb : (0 <? pages) = true) by now apply Z.ltb_lt.
  rewrite Hpb, orNum_Some_nonzero.
  assert (Hq : (0 < inject_Z pages)%Q) by (unfold Qlt; simpl; lia).
  assert (Hcq : (0 <= inject_Z c)%Q) by (unfold Qle; simpl; lia).
  unfold Double.div. subst exact.
  set (a := (inject_Z c / inject_Z pages)%Q).
  assert (Ha : (0 <= a)%Q).
  { unfold a. apply Qle_shift_div_l; [exact Hq | lra]. }
  destruct (percent_double a Ha) as (H0 & H100 & Herr & Hfull).
  split; [reflexivity|]. split; [exact H0|]. split; [exact H100|].
  split; [exact Herr|]. split.
  - intros Hge. apply Hfull. unfold a. apply Qle_shift_div_l; [exact Hq|].
    change 1%Q with (inject_Z 1). rewrite <- inject_Z_mult, <- Zle_Qle. lia.
  - intros Hz. subst c.
    assert (Ea : (a == 0)%Q) by (unfold a; reflexivity).
    unfold Double.mul. rewrite (round_zero a Ea).
    rewrite (round_zero (0 * 100)) by reflexivity. reflexivity.
Qed.

End ProgressPercentage.

(** C1.  After a progress update that passes the guards, with a current
    page [c >= 0], the row stored for (user, book) carries the page total
    [pages = totalPages || book.pages || 0]: the override when it is given
    and not 0, else the book's page count, else 0.  When [pages] is
    positive the stored percentage is [min(c / pages * 100, 100)] as double
    arithmetic computes it: between 0 and 100, within 2^-51 (relative) of
    [min(100, 100 * c / pages)], exactly 100 from the last page on and
    exactly 0 on page 0.  When [pages] is not positive the stored
    percentage is 0: the division is never reached. *)
Theorem progress_percentage_stored
    (db : Db.t) (session : option SessionUser) (b : Progress.Body) (now : Z)
    (s : SessionUser) (bid : string) (book : Book) (c : Z) :
  Progress.accepted db session b s bid book ->
  orNum (Progress.currentPage b) 0 = c -> 0 <= c ->
  exists (row : ReadingProgress) (pages : Z),
    findProgress (snd (Progress.POST db session b now)) (su_id s) bid = Some row
    /\ rp_totalPages row = pages
    /\ pages = match Progress.totalPages b with
               | Some t => if t =? 0 then toNumber (b_pages book) else t
               | None => toNumber (b_pages book)
               end
    /\ (0 < pages ->
        let exact := (inject_Z c / inject_Z pages * 100)%Q in
        rp_progressPercentage row
        = Qmin (Double.mul (Double.div (inject_Z c) (inject_Z pages)) 100) 100
        /\ (0 <= rp_progressPercentage row)%Q
        /\ (rp_progressPercentage row <= 100)%Q
        /\ (Qabs (rp_progressPercentage row - Qmin exact 100) * Double.pow2 51
            <= exact)%Q
        /\ (pages <= c -> (rp_progressPercentage row == 100)%Q)
        /\ (c = 0 -> (rp_progressPercentage row == 0)%Q))
    /\ (pages <= 0 -> (rp_progressPercentage row == 0)%Q).
Proof.
  intros Hacc Hc Hc0.
  destruct (POST_stored db session b now s bid book Hacc)
    as (row & Hrow & Hpct & Hpages).
  exists row, (Progress.effectivePages (Progress.totalPages b) book).
  split; [exact Hrow|]. split; [exact Hpages|].
  split; [apply effectivePages_cases|].
  set (pages := Progress.effectivePages (Progress.totalPages b) book) in *.
  rewrite Hpct.
  assert (Hsame : Progress.progressPercentage pages (Progress.currentPage b)
                  = Progress.progressPercentage pages (Some c)).
  { unfold Progress.progressPercentage. rewrite Hc.
    now rewrite orNum_Some_nonzero. }
  rewrite Hsame. split.
  - intros Hp. exact (percentage_double pages c Hp Hc0).
  - intros Hz. unfold Progress.progressPercentage.
    assert (Hb : (0 <? pages) = false) by (apply Z.ltb_ge; exact Hz).
    rewrite Hb. reflexivity.
Qed.

(** Page 150 of a 300-page book is stored as 50 percent, and page 300 as
    100 percent. *)
Lemma progress_percentage_stored_witness :
  let body := {| Progress.bookId := Some "b1"; Progress.status := Some READING;
                 Progress.currentPage := Some 150; Progress.totalPages := None |} in
  exists row,
    findProgress (snd (Progress.POST db0 (Some annSession) body sampleNow)) "u1" "b1"
    = Some row
    /\ rp_totalPages row = 300
    /\ (rp_progressPercentage row == 50)%Q.
Proof.
  intros body.
  destruct (progress_percentage_stored db0 (Some annSession) body sampleNow
              annSession "b1" novel 150) as (row & pages & Hrow & Htot & Hpages & Hpos & _).
  - repeat split; try reflexivity. discriminate.
  - reflexivity.
  - lia.
  - exists row. cbn in Hpages. rewrite Hpages in Htot, Hpos.
    split; [exact Hrow|].
    split; [exact Htot|].
    destruct (Hpos ltac:(reflexivity)) as (Heq & _). rewrite Heq.
    vm_compute. reflexivity.
Defined.

(** Two requests on which the claim's formula fails.  An override of 0
    does not make the page total 0: the book's 300 pages are used and page
    150 is stored as 50 percent.  Page 7 of 25 is not stored as 28 percent
    but as the next double above it, 28.000000000000004. *)
Lemma progress_percentage_counterexample :
  let zero := {| Progress.bookId := Some "b1"; Progress.status := Some READING;
                 Progress.currentPage := Some 150; Progress.totalPages := Some 0 |} in
  let seven := {| Progress.bookId := Some "b1"; Progress.status := Some READING;
                  Progress.currentPage := Some 7; Progress.totalPages := Some 25 |} in
  (exists row,
     findProgress (snd (Progress.POST db0 (Some annSession) zero sampleNow)) "u1" "b1"
     = Some row
     /\ rp_totalPages row = 300
     /\ (rp_progressPercentage row == 50)%Q
     /\ ~ (rp_progressPercentage row == 0)%Q)
  /\ (exists row,
        findProgress (snd (Progress.POST db0 (Some annSession) seven sampleNow)) "u1" "b1"
        = Some row
        /\ rp_totalPages row = 25
        /\ (rp_progressPercentage row == 28 + (1 # 281474976710656))%Q
        /\ ~ (rp_progressPercentage row
              == Qmin 100 (100 * inject_Z 7 / inject_Z 25))%Q).
Proof.
  cbv zeta. split.
  - eexists. split; [vm_compute; reflexivity|].
    split; [reflexivity|]. split; [reflexivity | discriminate].
  - eexists. split; [vm_compute; reflexivity|].
    split; [reflexivity|]. split; [reflexivity | discriminate].
Qed.

(** Page 150 of 300 while READING, then page 300 as COMPLETED: 50 and 100
    percent, the completion date set, 25 and then 100 points. *)
Example progress_scenario :
  let first := Progress.POST db0 (Some annSession)
                 {| Progress.bookId := Some "b1"; Progress.status := Some READING;
                    Progress.currentPage := Some 150; Progress.totalPages := None |}
                 sampleNow in
  let second := Progress.POST (snd first) (Some annSession)
                  {| Progress.bookId := Some "b1"; Progress.status := Some COMPLETED;
                     Progress.currentPage := Some 300; Progress.totalPages := None |}
                  (sampleNow + 60000) in
  option_map (fun r => Qred (rp_progressPercentage r))
             (findProgress (snd first) "u1" "b1") = Some 50%Q
  /\ pointsOf (snd first) "u1" = Some 35
  /\ option_map (fun r => (Qred (rp_progressPercentage r), rp_completedAt r))
                 (findProgress (snd second) "u1" "b1")
     = Some (100%Q, Some (sampleNow + 60000))
  /\ pointsOf (snd second) "u1" = Some 135
  /\ length (readingProgress (snd second)) = 1%nat.
Proof. vm_compute. repeat split. Qed.

(** ** Summaries routes *)

Section SummaryCreation.
Import Summaries.

(** C10.  A signed-in user whose body has a non-empty content and names a
    book of the catalog for which the user has no summary yet gets the
    summary created (201) and exactly 50 points more; nobody else's points
    move. *)
Theorem summary_creation_award
    (db : Db.t) (s : SessionUser) (b : Body) (newId : string) (now : Z)
    (c bid : string) (book : Book) (p : Z) :
  unauthenticated (Some s) = false ->
  content b = Some c -> c <> EmptyString ->
  bookId b = Some bid -> bid <> EmptyString ->
  findBook db bid = Some book ->
  findSummaryBy db (su_id s) bid = None ->
  pointsOf db (su_id s) = Some p ->
  let r := POST db (Some s) b newId now in
  statusOf (fst r) = 201
  /\ pointsOf (snd r) (su_id s) = Some (p + 50)
  /\ (forall u, u <> su_id s -> pointsOf (snd r) u = pointsOf db u)
  /\ exists summary,
       summaries (snd r) = (summaries db ++ [summary])%list
       /\ s_id summary = newId /\ s_authorId summary = su_id s
       /\ s_bookId summary = bid /\ s_content summary = c
       /\ s_rating summary = None.
Proof.
  intros Hauth Hc Hcne Hb Hbne Hbook Hnone Hp r. subst r. unfold POST.
  rewrite Hauth, Hc, Hb, (truthyStr_Some _ Hcne), (truthyStr_Some _ Hbne).
  cbn [negb orb orElse]. rewrite Hbook, Hnone.
  set (summary := {| s_id := newId; s_title := _; s_content := c;
                     s_authorId := su_id s; s_bookId := bid; s_isPublic := _;
                     s_rating := None; s_createdAt := now |}).
  assert (Hp1 : pointsOf (createSummary db summary) (su_id s) = Some p)
    by exact Hp.
  destruct (incrementPoints_defined _ _ 50 _ Hp1) as [d2 Hd2].
  rewrite Hd2. simpl. split; [reflexivity|]. split; [|split].
  - rewrite (pointsOf_incrementPoints _ _ _ _ Hd2), String.eqb_refl, Hp1.
    reflexivity.
  - intros u Hu. rewrite (pointsOf_incrementPoints _ _ _ _ Hd2).
    apply String.eqb_neq in Hu. now rewrite Hu.
  - exists summary. apply incrementPoints_tables in Hd2.
    destruct Hd2 as (_ & _ & Hs & _). rewrite Hs. simpl. auto 10.
Qed.

Lemma summary_creation_award_witness :
  let body := {| title := None; content := Some "A summary.";
                 bookId := Some "b1"; isPublic := None |} in
  let r := POST db0 (Some annSession) body "s1" sampleNow in
  statusOf (fst r) = 201 /\ pointsOf (snd r) "u1" = Some 60.
Proof.
  intros body r.
  destruct (summary_creation_award db0 annSession body "s1" sampleNow
              "A summary." "b1" novel 10) as (H1 & H2 & _);
    try reflexivity; try discriminate.
  split; [exact H1|exact H2].
Defined.

End SummaryCreation.

Section SummaryRating.
Import Summaries.

Lemma Math_round_integer (z : Z) : Math_round (inject_Z z) = z.
Proof.
  unfold Math_round, Qfloor, Qplus, inject_Z. cbn [Qnum Qden Pos.mul].
  change (Z.pos 2) with 2. rewrite Z.mul_1_l, Z.div_add_l by lia.
  change (1 / 2) with 0. lia.
Qed.

Lemma Math_round_times_ten (r : Z) : Math_round (inject_Z r * 10) = r * 10.
Proof.
  unfold Math_round.
  rewrite (Qfloor_comp _ (inject_Z (r * 10) + (1 # 2))).
  - apply Math_round_integer.
  - rewrite inject_Z_mult. reflexivity.
Qed.

Lemma asInt_integer (r : Z) : asInt (inject_Z r) = Some r.
Proof.
  unfold asInt. rewrite Qfloor_Z.
  assert (H : Qeq_bool (inject_Z r) (inject_Z r) = true)
    by (apply Qeq_bool_iff; reflexivity).
  now rewrite H.
Qed.

Lemma invalidRating_spec (v : Js.value) :
  invalidRating v = true <->
  (forall q, v = JNum q -> (q < 1)%Q \/ (5 < q)%Q).
Proof.
  destruct v as [| | | q | |]; simpl;
    try (split; [intros _ q' [=]|reflexivity]).
  rewrite orb_true_iff, !negb_true_iff. split.
  - intros [H|H] q' [= <-].
    + left. apply Qnot_le_lt. intros Hle. apply Qle_bool_iff in Hle. congruence.
    + right. apply Qnot_le_lt. intros Hle. apply Qle_bool_iff in Hle. congruence.
  - intros H. destruct (H q eq_refl) as [Hlt|Hlt].
    + left. destruct (Qle_bool 1 q) eqn:E; [|reflexivity].
      apply Qle_bool_iff in E. exfalso. exact (Qlt_not_le _ _ Hlt E).
    + right. destruct (Qle_bool q 5) eqn:E; [|reflexivity].
      apply Qle_bool_iff in E. exfalso. exact (Qlt_not_le _ _ Hlt E).
Qed.

Lemma invalidRating_in_range (r : Z) :
  1 <= r <= 5 -> invalidRating (JNum (inject_Z r)) = false.
Proof.
  intros Hr. destruct (invalidRating (JNum (inject_Z r))) eqn:E; [|reflexivity].
  pose proof (proj1 (invalidRating_spec _) E) as E'.
  destruct (E' _ eq_refl) as [H|H];
    unfold Qlt in H; simpl in H; lia.
Qed.

(** [true] when the caller may rate. *)
Lemma role_guard (s : SessionUser) :
  su_role s = TEACHER \/ su_role s = ADMIN ->
  negb (Role_eqb (su_role s) TEACHER) && negb (Role_eqb (su_role s) ADMIN) = false.
Proof. intros [->| ->]; reflexivity. Qed.

(** What a rating with an integer in 1..5 does to an existing summary. *)
Lemma PATCH_rated (db : Db.t) (s : SessionUser) (id : string) (b : RatingBody)
    (r : Z) (existing : Summary) (p : Z) :
  unauthenticated (Some s) = false ->
  su_role s = TEACHER \/ su_role s = ADMIN ->
  rating b = JNum (inject_Z r) -> 1 <= r <= 5 ->
  findSummary db id = Some existing ->
  pointsOf db (s_authorId existing) = Some p ->
  let res := PATCH db (Some s) id b in
  statusOf (fst res) = 200
  /\ findSummary (snd res) id = Some (setRating r existing)
  /\ comments (snd res) =
     (if feedbackGiven (feedback b)
      then comments db ++
           [{| c_content := teacherFeedback (orElse (feedback b) EmptyString);
               c_authorId := su_id s; c_summaryId := id |}]
      else comments db)%list
  /\ pointsOf (snd res) (s_authorId existing) = Some (p + r * 10)
  /\ (forall u, u <> s_authorId existing -> pointsOf (snd res) u = pointsOf db u).
Proof.
  intros Hauth Hrole Hrating Hr Hfind Hp res. subst res. unfold PATCH.
  rewrite Hauth, (role_guard _ Hrole), Hrating, (invalidRating_in_range _ Hr),
    Hfind, asInt_integer, Math_round_times_ten.
  set (db2 := if feedbackGiven (feedback b) then _ else _).
  assert (Husers : users db2 = users db)
    by (subst db2; destruct (feedbackGiven (feedback b)); reflexivity).
  assert (Hsum : findSummary db2 id = Some (setRating r existing)).
  { assert (H1 : findSummary (updateRating db id r) id = Some (setRating r existing)).
    { unfold findSummary in *. simpl.
      rewrite (find_after_keyed_update (fun s0 => String.eqb (s_id s0) id)
                 (setRating r)), Hfind by auto. reflexivity. }
    subst db2; destruct (feedbackGiven (feedback b)); exact H1. }
  assert (Hcom : comments db2 =
     (if feedbackGiven (feedback b)
      then comments db ++
           [{| c_content := teacherFeedback (orElse (feedback b) EmptyString);
               c_authorId := su_id s; c_summaryId := id |}]
      else comments db)%list)
    by (subst db2; destruct (feedbackGiven (feedback b)); reflexivity).
  assert (Hp2 : pointsOf db2 (s_authorId existing) = Some p)
    by (rewrite <- Hp; now apply pointsOf_same_users).
  clearbody db2.
  destruct (incrementPoints_defined _ _ (r * 10) _ Hp2) as [d3 Hd3].
  rewrite Hd3. simpl.
  pose proof (incrementPoints_tables _ _ _ _ Hd3) as (_ & _ & Hs3 & Hc3).
  split; [reflexivity|]. split; [|split; [|split]].
  - unfold findSummary in *. now rewrite Hs3.
  - now rewrite Hc3.
  - rewrite (pointsOf_incrementPoints _ _ _ _ Hd3), String.eqb_refl, Hp2.
    reflexivity.
  - intros u Hu. rewrite (pointsOf_incrementPoints _ _ _ _ Hd3).
    apply String.eqb_neq in Hu. rewrite Hu. now apply pointsOf_same_users.
Qed.

End SummaryRating.

Section SummaryRatingClaims.
Import Summaries.

Lemma PATCH_400 (db : Db.t) (s : SessionUser) (id : string) (b : RatingBody) :
  unauthenticated (Some s) = false ->
  su_role s = TEACHER \/ su_role s = ADMIN ->
  (statusOf (fst (PATCH db (Some s) id b)) = 400 <-> invalidRating (rating b) = true)
  /\ (invalidRating (rating b) = true -> snd (PATCH db (Some s) id b) = db).
Proof.
  intros Hauth Hrole. unfold PATCH. rewrite Hauth, (role_guard _ Hrole).
  destruct (invalidRating (rating b)) eqn:Hinv.
  - simpl. split; [split|]; reflexivity.
  - split; [|discriminate]. split; [|discriminate].
    destruct (rating b) as [| | | q | |]; try discriminate.
    destruct (findSummary db id) as [existing|]; [|simpl; lia].
    destruct (asInt q) as [r|]; [|simpl; lia].
    destruct (incrementPoints _ _ _); simpl; lia.
Qed.

(** C5.  For a teacher or admin, the answer is 400 exactly when the
    rating is not a number or is a number below 1 or above 5, and then
    nothing is written; the boundary values 1 and 5 are accepted and
    stored.  A number of the range that is not an integer is not refused
    by this test. *)
Theorem rating_validation
    (db : Db.t) (s : SessionUser) (id : string) (b : RatingBody) :
  unauthenticated (Some s) = false ->
  su_role s = TEACHER \/ su_role s = ADMIN ->
  let res := PATCH db (Some s) id b in
  (statusOf (fst res) = 400 <->
   (forall q, rating b = JNum q -> (q < 1)%Q \/ (5 < q)%Q))
  /\ (statusOf (fst res) = 400 -> snd res = db)
  /\ (forall r existing p,
        rating b = JNum (inject_Z r) -> r = 1 \/ r = 5 ->
        findSummary db id = Some existing ->
        pointsOf db (s_authorId existing) = Some p ->
        statusOf (fst res) = 200
        /\ option_map s_rating (findSummary (snd res) id) = Some (Some r)).
Proof.
  intros Hauth Hrole res. subst res.
  destruct (PATCH_400 db s id b Hauth Hrole) as [Hiff Hsame].
  split; [|split].
  - rewrite Hiff. apply invalidRating_spec.
  - intros H. apply Hsame, Hiff, H.
  - intros r existing p Hrating Hr Hfind Hp.
    destruct (PATCH_rated db s id b r existing p Hauth Hrole Hrating
                ltac:(lia) Hfind Hp) as (H1 & H2 & _).
    split; [exact H1|]. rewrite H2. reflexivity.
Qed.

Lemma rating_validation_witness :
  statusOf (fst (PATCH db1 (Some tessSession) "s1"
                   {| rating := JNum 0; feedback := None |})) = 400
  /\ statusOf (fst (PATCH db1 (Some tessSession) "s1"
                      {| rating := JNum 6; feedback := None |})) = 400
  /\ statusOf (fst (PATCH db1 (Some tessSession) "s1"
                      {| rating := JStr "5"; feedback := None |})) = 400
  /\ statusOf (fst (PATCH db1 (Some tessSession) "s1"
                      {| rating := JNum (inject_Z 1); feedback := None |})) = 200
  /\ statusOf (fst (PATCH db1 (Some tessSession) "s1"
                      {| rating := JNum (inject_Z 5); feedback := None |})) = 200.
Proof.
  assert (Hrole : su_role tessSession = TEACHER \/ su_role tessSession = ADMIN)
    by (left; reflexivity).
  split; [|split; [|split; [|split]]].
  - apply (rating_validation db1 tessSession "s1" _ eq_refl Hrole).
    intros q [= <-]. left. reflexivity.
  - apply (rating_validation db1 tessSession "s1" _ eq_refl Hrole).
    intros q [= <-]. right. reflexivity.
  - apply (rating_validation db1 tessSession "s1" _ eq_refl Hrole).
    intros q [=].
  - apply (rating_validation db1 tessSession "s1" _ eq_refl Hrole)
      with (r := 1) (existing := annSummary) (p := 10); auto.
  - apply (rating_validation db1 tessSession "s1" _ eq_refl Hrole)
      with (r := 5) (existing := annSummary) (p := 10); auto.
Defined.

(** The rating 3.5 passes the validation: the handler goes on to look
    the summary up (404 when there is none) and to the store. *)
Lemma rating_non_integer_counterexample :
  let b := {| rating := JNum (7 # 2); feedback := None |} in
  Qfloor (7 # 2) = 3 /\ ~ ((7 # 2) == inject_Z 3)%Q
  /\ invalidRating (rating b) = false
  /\ statusOf (fst (PATCH db1 (Some tessSession) "s0" b)) = 404
  /\ statusOf (fst (PATCH db1 (Some tessSession) "s1" b)) <> 400.
Proof.
  cbv zeta. repeat split; try reflexivity; try discriminate.
Qed.

Lemma trim_empty_feedback (f : string) :
  trim f <> EmptyString -> feedbackGiven (Some f) = true.
Proof.
  intros H. unfold feedbackGiven.
  destruct (String.eqb f EmptyString) eqn:E1.
  { apply String.eqb_eq in E1. subst f. now contradiction H. }
  destruct (String.eqb (trim f) EmptyString) eqn:E2; [|reflexivity].
  apply String.eqb_eq in E2. contradiction.
Qed.

(** C9.  A rating [r] in 1..5 by a teacher or admin, with a feedback text
    that is not blank, on an existing summary: the summary carries [r],
    one comment with the text "Teacher Feedback: " followed by the
    feedback is added, and the author's points grow by [r * 10].  Nothing
    is assumed about an earlier rating of the summary. *)
Theorem rating_effects
    (db : Db.t) (s : SessionUser) (id : string) (r : Z) (f : string)
    (existing : Summary) (p : Z) :
  unauthenticated (Some s) = false ->
  su_role s = TEACHER \/ su_role s = ADMIN ->
  1 <= r <= 5 ->
  trim f <> EmptyString ->
  findSummary db id = Some existing ->
  pointsOf db (s_authorId existing) = Some p ->
  let res := PATCH db (Some s) id
               {| rating := JNum (inject_Z r); feedback := Some f |} in
  statusOf (fst res) = 200
  /\ option_map s_rating (findSummary (snd res) id) = Some (Some r)
  /\ comments (snd res) =
     (comments db ++ [{| c_content := ("Teacher Feedback: " ++ f)%string;
                         c_authorId := su_id s; c_summaryId := id |}])%list
  /\ pointsOf (snd res) (s_authorId existing) = Some (p + r * 10).
Proof.
  intros Hauth Hrole Hr Hf Hfind Hp res. subst res.
  destruct (PATCH_rated db s id {| rating := JNum (inject_Z r); feedback := Some f |}
              r existing p Hauth Hrole eq_refl Hr Hfind Hp)
    as (H1 & H2 & H3 & H4 & _).
  split; [exact H1|]. split; [now rewrite H2|]. split; [|exact H4].
  rewrite H3. cbn [feedback]. now rewrite (trim_empty_feedback f Hf).
Qed.

(** Rating 3 with "Good analysis", twice: 30 points each time. *)
Lemma rating_effects_witness :
  let b := {| rating := JNum (inject_Z 3); feedback := Some "Good analysis" |} in
  let once := snd (PATCH db1 (Some tessSession) "s1" b) in
  let twice := snd (PATCH once (Some tessSession) "s1" b) in
  pointsOf once "u1" = Some 40
  /\ map c_content (comments once) = ["Teacher Feedback: Good analysis"]
  /\ pointsOf twice "u1" = Some 70.
Proof.
  intros b once twice.
  assert (Hrole : su_role tessSession = TEACHER \/ su_role tessSession = ADMIN)
    by (left; reflexivity).
  destruct (rating_effects db1 tessSession "s1" 3 "Good analysis" annSummary 10
              eq_refl Hrole ltac:(lia) ltac:(discriminate) eq_refl eq_refl)
    as (_ & _ & Hc & Hp).
  destruct (rating_effects once tessSession "s1" 3 "Good analysis"
              (setRating 3 annSummary) 40
              eq_refl Hrole ltac:(lia) ltac:(discriminate) eq_refl eq_refl)
    as (_ & _ & _ & Hp').
  split; [exact Hp|]. split; [|exact Hp'].
  fold b in Hc. fold once in Hc. rewrite Hc. reflexivity.
Defined.

(** A feedback of one NO-BREAK SPACE (U+00A0, the bytes C2 A0) is blank. *)
Example rating_no_break_space_feedback :
  let f := String (ascii_of_nat 194) (String (ascii_of_nat 160) EmptyString) in
  let res := PATCH db1 (Some tessSession) "s1"
               {| rating := JNum (inject_Z 3); feedback := Some f |} in
  trim f = EmptyString
  /\ statusOf (fst res) = 200 /\ comments (snd res) = comments db1
  /\ pointsOf (snd res) "u1" = Some 40.
Proof. cbv zeta. repeat split. Qed.

(** A feedback of one space is not empty, yet the rating succeeds and no
    comment is added. *)
Lemma rating_blank_feedback_counterexample :
  let f := " " in
  let res := PATCH db1 (Some tessSession) "s1"
               {| rating := JNum (inject_Z 3); feedback := Some f |} in
  f <> EmptyString /\ statusOf (fst res) = 200 /\ comments (snd res) = comments db1.
Proof.
  cbv zeta. repeat split; try reflexivity; discriminate.
Qed.

End SummaryRatingClaims.

(** ** Sorting, largest key first *)

Section SortFacts.
Context {A : Type} (key : A -> Z).

Lemma insertDesc_In (x y : A) (l : list A) :
  In y (insertDesc key x l) <-> y = x \/ In y l.
Proof.
  induction l as [|z l IH]; simpl.
  - intuition auto.
  - destruct (key z <=? key x); simpl; [intuition auto|].
    rewrite IH. intuition auto.
Qed.

Lemma sortDesc_In (y : A) (l : list A) : In y (sortDesc key l) <-> In y l.
Proof.
  induction l as [|x l IH]; simpl; [reflexivity|].
  rewrite insertDesc_In, IH. intuition auto.
Qed.

Lemma insertDesc_length (x : A) (l : list A) :
  length (insertDesc key x l) = S (length l).
Proof.
  induction l as [|z l IH]; simpl; [reflexivity|].
  destruct (key z <=? key x); simpl; auto.
Qed.

Lemma sortDesc_length (l : list A) : length (sortDesc key l) = length l.
Proof.
  induction l as [|x l IH]; simpl; [reflexivity|].
  now rewrite insertDesc_length, IH.
Qed.

Lemma insertDesc_sorted (x : A) (l : list A) :
  StronglySorted (descending key) l -> StronglySorted (descending key) (insertDesc key x l).
Proof.
  induction l as [|z l IH]; simpl; intros Hs.
  - constructor; constructor.
  - destruct (key z <=? key x) eqn:E.
    + apply Z.leb_le in E. constructor; [exact Hs|].
      constructor; [exact E|].
      inversion Hs as [|? ? _ Hall]; subst.
      eapply Forall_impl; [|exact Hall]. unfold descending. intros; lia.
    + apply Z.leb_gt in E. inversion Hs as [|? ? Hs' Hall]; subst.
      constructor; [auto|].
      apply Forall_forall. intros y Hy. apply insertDesc_In in Hy.
      destruct Hy as [->|Hy]; [unfold descending; lia|].
      rewrite Forall_forall in Hall. auto.
Qed.

Lemma sortDesc_sorted (l : list A) : StronglySorted (descending key) (sortDesc key l).
Proof.
  induction l as [|x l IH]; simpl; [constructor|].
  now apply insertDesc_sorted.
Qed.

(** The sort is stable: rows with one key keep their order. *)
Lemma insertDesc_stable (k : Z) (x : A) (l : list A) :
  filter (fun a => key a =? k) (insertDesc key x l)
  = filter (fun a => key a =? k) (x :: l).
Proof.
  induction l as [|z l IH]; [reflexivity|].
  cbn [insertDesc]. destruct (key z <=? key x) eqn:E; [reflexivity|].
  apply Z.leb_gt in E. cbn [filter] in *. rewrite IH.
  destruct (key z =? k) eqn:Ez; destruct (key x =? k) eqn:Ex; try reflexivity.
  apply Z.eqb_eq in Ez, Ex. lia.
Qed.

Lemma sortDesc_stable (k : Z) (l : list A) :
  filter (fun a => key a =? k) (sortDesc key l) = filter (fun a => key a =? k) l.
Proof.
  induction l as [|x l IH]; [reflexivity|].
  cbn [sortDesc]. rewrite insertDesc_stable. cbn [filter]. now rewrite IH.
Qed.

(** The first row of the sorted list has the largest key. *)
Lemma sortDesc_head_max (l : list A) (first : A) (rest : list A) :
  sortDesc key l = first :: rest ->
  forall a, In a l -> key a <= key first.
Proof.
  intros Hs a Ha. apply sortDesc_In in Ha. rewrite Hs in Ha.
  pose proof (sortDesc_sorted l) as Hsorted. rewrite Hs in Hsorted.
  inversion Hsorted as [|? ? _ Hall]; subst.
  destruct Ha as [->|Ha]; [lia|].
  rewrite Forall_forall in Hall. exact (Hall a Ha).
Qed.

End SortFacts.

Section SortPermutation.
Context {A : Type} (key : A -> Z).

Lemma insertDesc_Permutation (x : A) (l : list A) :
  Permutation (insertDesc key x l) (x :: l).
Proof.
  induction l as [|y l IH]; simpl; [reflexivity|].
  destruct (key y <=? key x); [reflexivity|].
  rewrite IH. apply perm_swap.
Qed.

Lemma sortDesc_Permutation (l : list A) : Permutation (sortDesc key l) l.
Proof.
  induction l as [|x l IH]; simpl; [reflexivity|].
  rewrite insertDesc_Permutation. now constructor.
Qed.

End SortPermutation.

Section Prefix.
Context {A : Type}.

Lemma In_firstn (n : nat) (l : list A) (x : A) : In x (firstn n l) -> In x l.
Proof.
  revert n. induction l as [|z l IH]; intros [|n]; simpl; try tauto.
  intros [->|H]; eauto.
Qed.

Lemma firstn_sorted (R : A -> A -> Prop) (n : nat) (l : list A) :
  StronglySorted R l -> StronglySorted R (firstn n l).
Proof.
  revert n. induction l as [|x l IH]; intros [|n] Hs; simpl; try constructor.
  - inversion Hs; subst. auto.
  - inversion Hs as [|? ? _ Hall]; subst.
    apply Forall_forall. intros y Hy. rewrite Forall_forall in Hall.
    eapply Hall, In_firstn, Hy.
Qed.

End Prefix.

(** ** Leaderboard route *)

Section MapIndex.
Context {A B : Type} (f : A -> Z -> B).

Lemma mapi_from_length (i : Z) (l : list A) :
  length (mapi_from f i l) = length l.
Proof. revert i. induction l as [|a l IH]; intros i; simpl; auto. Qed.

Lemma mapi_from_In (e : B) (i : Z) (l : list A) :
  In e (mapi_from f i l) -> exists a j, In a l /\ e = f a j.
Proof.
  revert i. induction l as [|a l IH]; intros i; simpl; [tauto|].
  intros [<-|H]; [eauto|].
  destruct (IH _ H) as (a' & j & Ha & ->). eauto.
Qed.


Lemma mapi_from_filter {C : Type} (P : A -> bool) (P' : B -> bool)
    (g : A -> C) (g' : B -> C) (i : Z) (l : list A) :
  (forall a j, P' (f a j) = P a) -> (forall a j, g' (f a j) = g a) ->
  map g' (filter P' (mapi_from f i l)) = map g (filter P l).
Proof.
  intros HP Hg. revert i. induction l as [|a l IH]; intros i; simpl; [reflexivity|].
  rewrite HP. destruct (P a); simpl; rewrite ?Hg, IH; reflexivity.
Qed.

End MapIndex.

Section LeaderboardRanking.
Import Leaderboard.


Lemma filter_firstn_prefix {A : Type} (P : A -> bool) (n : nat) (l : list A) :
  filter P l = filter P (firstn n l) ++ filter P (skipn n l).
Proof. now rewrite <- filter_app, firstn_skipn. Qed.

Lemma filter_user_include (db : Db.t) (w : option Z) (k : Z) (us : list User) :
  map (fun r => u_id (user r))
      (filter (fun r => u_points (user r) =? k) (map (includeRelations db w) us))
  = map u_id (filter (fun u => u_points u =? k) us).
Proof.
  induction us as [|u us IH]; simpl; [reflexivity|].
  destruct (u_points u =? k); simpl; now rewrite IH.
Qed.

End LeaderboardRanking.

Section LeaderboardOrder.
Import Leaderboard.



(** On a store that keeps rows with equal points in storage order, and for
    a limit that is not negative, the general handler is [GET]. *)
Lemma GETfrom_storage_order (db : Db.t) (type period : string) (limit : nat)
    (now : Z) :
  GETfrom (sortDesc (fun r => u_points (user r)) (candidates db type period now))
          (Z.of_nat limit) now
  = Some (GET db type period limit now).
Proof.
  unfold GETfrom, take, GET, findMany, candidates.
  assert (H : (0 <=? Z.of_nat limit) = true) by (apply Z.leb_le; lia).
  rewrite H, Nat2Z.id. reflexivity.
Qed.


End LeaderboardOrder.




(** Bob and Cleo both have 30 points: they take ranks 1 and 2 in storage
    order, and the limit of 2 leaves Ann out. *)
Example leaderboard_ties :
  map (fun e => (Leaderboard.rank e, Leaderboard.id (Leaderboard.entryUser e),
                 Leaderboard.points (Leaderboard.stats e)))
      (Leaderboard.GET db0 "students" "all" 2 sampleNow)
  = [(1, "u2", 30); (2, "u3", 30)].
Proof. vm_compute. reflexivity. Qed.

(** ** The two streak computations *)

Section Streaks.
Import Dashboard Leaderboard.

Lemma msPerDay_value : msPerDay = 86400000.
Proof. reflexivity. Qed.

Lemma setHours0_le (t : Z) : setHours0 t <= t < setHours0 t + msPerDay.
Proof.
  unfold setHours0, dayOf. rewrite msPerDay_value.
  pose proof (Z.mod_pos_bound t 86400000 ltac:(lia)).
  pose proof (Z.div_mod t 86400000 ltac:(lia)). lia.
Qed.

Lemma streakLoop_bounds (l : list Z) (c s : Z) :
  s <= streakLoop l c s <= s + Z.of_nat (length l).
Proof.
  revert c s. induction l as [|d l IH]; intros c s; simpl; [lia|].
  destruct (d =? c); [|lia].
  specialize (IH (setDatePrev c) (s + 1)). lia.
Qed.

Lemma streakLoop_starts (l : list Z) (c : Z) :
  0 < streakLoop l c 0 -> exists rest, l = c :: rest.
Proof.
  destruct l as [|d l]; simpl; [lia|].
  destruct (d =? c) eqn:E; [|lia].
  apply Z.eqb_eq in E. subst. eauto.
Qed.

Lemma newSet_In (x : Z) (l : list Z) : In x (newSet l) -> In x l.
Proof.
  induction l as [|y l IH]; simpl; [tauto|].
  intros [->|H]; [auto|]. apply filter_In in H. right. tauto.
Qed.

Lemma newSet_length (l : list Z) : (length (newSet l) <= length l)%nat.
Proof.
  induction l as [|y l IH]; simpl; [lia|].
  pose proof (filter_length_le (fun z => negb (z =? y)) (newSet l)). lia.
Qed.

(** The dashboard streak counts at most one day per row, and nothing
    unless some row was written today. *)
Lemma calculateReadingStreak_bounds (activities : list Z) (now : Z) :
  0 <= calculateReadingStreak activities now <= Z.of_nat (length activities).
Proof.
  unfold calculateReadingStreak. destruct activities as [|a l]; [simpl; lia|].
  set (acts := a :: l).
  pose proof (streakLoop_bounds
                (sortDesc (fun x => x) (newSet (map setHours0 acts)))
                (setHours0 now) 0) as H.
  rewrite sortDesc_length in H.
  pose proof (newSet_length (map setHours0 acts)) as H'.
  rewrite length_map in H'. lia.
Qed.

Lemma calculateReadingStreak_today (activities : list Z) (now : Z) :
  0 < calculateReadingStreak activities now ->
  exists a, In a activities /\ setHours0 a = setHours0 now.
Proof.
  unfold calculateReadingStreak. destruct activities as [|a l]; [lia|].
  set (acts := a :: l). intros H.
  apply streakLoop_starts in H. destruct H as [rest Hrest].
  assert (Hin : In (setHours0 now)
                   (sortDesc (fun x => x) (newSet (map setHours0 acts))))
    by (rewrite Hrest; now left).
  apply sortDesc_In, newSet_In, in_map_iff in Hin.
  destruct Hin as (x & Hx & Hin). eauto.
Qed.

(** The leaderboard streak, by the most recent row. *)
Lemma leaderboardStreak_latest (rps : list ProgressWithBook) (today latest : Z) :
  In latest (map updatedAt rps) ->
  (forall t, In t (map updatedAt rps) -> t <= latest) ->
  leaderboardStreak rps today =
  if (today - latest) / msPerDay <=? 1 then Z.min (len rps) 30 else 0.
Proof.
  intros Hin Hmax. unfold leaderboardStreak.
  destruct (sortDesc updatedAt rps) as [|first rest] eqn:Hs.
  - apply in_map_iff in Hin. destruct Hin as (p & _ & Hp).
    apply (sortDesc_In updatedAt) in Hp. rewrite Hs in Hp. destruct Hp.
  - assert (Hfirst : updatedAt first = latest).
    { apply Z.le_antisymm.
      - apply Hmax, in_map, (sortDesc_In updatedAt). rewrite Hs. now left.
      - apply in_map_iff in Hin. destruct Hin as (p & <- & Hp).
        exact (sortDesc_head_max updatedAt rps first rest Hs p Hp). }
    rewrite Hfirst. unfold floorDiv, len. rewrite <- Hs, sortDesc_length.
    reflexivity.
Qed.

Lemma leaderboardStreak_range (rps : list ProgressWithBook) (today : Z) :
  0 <= leaderboardStreak rps today <= 30.
Proof.
  unfold leaderboardStreak. destruct (sortDesc updatedAt rps) as [|first rest];
    [lia|].
  destruct (_ <=? 1); unfold len; simpl length; lia.
Qed.

(** The capped dashboard streak never exceeds the leaderboard streak. *)
Lemma capped_streak_le_leaderboardStreak (rps : list ProgressWithBook) (today : Z) :
  Z.min (calculateReadingStreak (map updatedAt rps) today) 30
  <= leaderboardStreak rps today.
Proof.
  pose proof (calculateReadingStreak_bounds (map updatedAt rps) today) as Hb.
  rewrite length_map in Hb.
  pose proof (leaderboardStreak_range rps today) as Hr.
  destruct (Z.eq_dec (calculateReadingStreak (map updatedAt rps) today) 0) as [E|E];
    [lia|].
  destruct (calculateReadingStreak_today (map updatedAt rps) today ltac:(lia))
    as (a & Ha & Hday).
  unfold leaderboardStreak.
  destruct (sortDesc updatedAt rps) as [|first rest] eqn:Hs.
  - apply in_map_iff in Ha. destruct Ha as (p & _ & Hp).
    apply (sortDesc_In updatedAt) in Hp. rewrite Hs in Hp. destruct Hp.
  - apply in_map_iff in Ha. destruct Ha as (p & <- & Hp).
    pose proof (sortDesc_head_max updatedAt rps first rest Hs p Hp) as Hmax.
    pose proof (setHours0_le (updatedAt p)) as H1.
    pose proof (setHours0_le today) as H2.
    assert (Hdiff : floorDiv (today - updatedAt first) (1000 * 60 * 60 * 24) <= 0).
    { unfold floorDiv. change (1000 * 60 * 60 * 24) with 86400000.
      rewrite msPerDay_value in *.
      assert (today - updatedAt first < 86400000) by lia.
      destruct (Z_lt_le_dec (today - updatedAt first) 0) as [Hneg|Hpos].
      - pose proof (Z.div_lt_upper_bound (today - updatedAt first) 86400000 0
                      ltac:(lia) ltac:(lia)). lia.
      - rewrite Z.div_small by lia. lia. }
    assert (Hle : (floorDiv (today - updatedAt first) (1000 * 60 * 60 * 24) <=? 1)
                  = true) by (apply Z.leb_le; lia).
    rewrite Hle. unfold len. rewrite <- Hs, sortDesc_length. lia.
Qed.

End Streaks.

(** How the leaderboard computes [readingStreak] from the progress rows
    the users query attached to a user: 0 without rows; otherwise, with
    [latest] the most recent [updatedAt], the number of rows capped at 30
    when [floor((now - latest) / day) <= 1], and 0 when not.  The value is
    never below the dashboard's [calculateReadingStreak] over the same rows
    capped at 30, and never above 30. *)
Lemma leaderboard_streak_formula
    (db : Db.t) (type period : string) (limit : nat) (now : Z)
    (e : Leaderboard.Entry) :
  In e (Leaderboard.GET db type period limit now) ->
  exists r,
    In r (Leaderboard.findMany db type period limit now)
    /\ Leaderboard.id (Leaderboard.entryUser e) = u_id (Leaderboard.user r)
    /\ let rows := Leaderboard.uw_readingProgress r in
       let streak := Leaderboard.readingStreak (Leaderboard.stats e) in
       (rows = [] -> streak = 0)
       /\ (forall latest,
             In latest (map Leaderboard.updatedAt rows) ->
             (forall t, In t (map Leaderboard.updatedAt rows) -> t <= latest) ->
             streak = if (now - latest) / msPerDay <=? 1
                      then Z.min (Leaderboard.len rows) 30 else 0)
       /\ Z.min (Dashboard.calculateReadingStreak
                   (map Leaderboard.updatedAt rows) now) 30 <= streak
       /\ streak <= 30.
Proof.
  intros He. unfold Leaderboard.GET, mapi in He.
  apply mapi_from_In in He. destruct He as (r & j & Hr & ->).
  exists r. split; [exact Hr|]. split; [reflexivity|].
  cbv zeta. cbn [Leaderboard.stats Leaderboard.entryOf Leaderboard.readingStreak].
  split; [|split; [|split]].
  - intros ->. reflexivity.
  - intros latest Hin Hmax. now apply leaderboardStreak_latest.
  - apply capped_streak_le_leaderboardStreak.
  - apply leaderboardStreak_range.
Qed.

(** C3.  Ann has updated two books today, one and two hours before the
    request.  In the week's leaderboard her window-filtered progress rows
    are these two rows, and her entry's [readingStreak] is 2: the number of
    rows.  The streak calculator over the same rows, [calculateReadingStreak]
    of the dashboard, gives 1, one day with activity, and so does its value
    capped at 30.  The leaderboard's value is not the calculator's value
    capped at 30. *)
Theorem leaderboard_streak_counts_rows :
  let rowsOf (r : Leaderboard.UserWithRelations) :=
    map Leaderboard.progress (Leaderboard.uw_readingProgress r) in
  let streakOf (e : Leaderboard.Entry) :=
    (Leaderboard.id (Leaderboard.entryUser e),
     Leaderboard.readingStreak (Leaderboard.stats e)) in
  let annRows := filter (fun p => String.eqb (rp_userId p) "u1")
                        (readingProgress dbTwoToday) in
  map (fun r => (u_id (Leaderboard.user r), rowsOf r))
      (Leaderboard.findMany dbTwoToday "students" "week" 10 sampleNow)
  = [("u2", []); ("u3", []); ("u1", annRows)]
  /\ map rp_bookId annRows = ["b1"; "b2"]
  /\ map (fun p => dayOf (rp_updatedAt p)) annRows = [dayOf sampleNow; dayOf sampleNow]
  /\ map streakOf (Leaderboard.GET dbTwoToday "students" "week" 10 sampleNow)
     = [("u2", 0); ("u3", 0); ("u1", 2)]
  /\ Dashboard.calculateReadingStreak (map rp_updatedAt annRows) sampleNow = 1
  /\ Z.min (Dashboard.calculateReadingStreak (map rp_updatedAt annRows) sampleNow) 30
     <> 2
  /\ Dashboard.calculateReadingStreak
       (Dashboard.activitiesOf dbTwoToday "u1") sampleNow = 1.
Proof.
  cbv zeta. split; [vm_compute; reflexivity|].
  split; [reflexivity|]. split; [vm_compute; reflexivity|].
  split; [vm_compute; reflexivity|]. split; [vm_compute; reflexivity|].
  split; [vm_compute; discriminate | vm_compute; reflexivity].
Qed.

(** ** The dashboard streak *)

Section DashboardStreak.
Import Dashboard.

Lemma calculateReadingStreak_no_activity (now : Z) :
  calculateReadingStreak [] now = 0.
Proof. reflexivity. Qed.

(** Without a row written today the streak is 0, also when the user was
    active yesterday. *)
Lemma calculateReadingStreak_not_today (activities : list Z) (now : Z) :
  (forall a, In a activities -> setHours0 a <> setHours0 now) ->
  calculateReadingStreak activities now = 0.
Proof.
  intros Hno. pose proof (calculateReadingStreak_bounds activities now) as Hb.
  destruct (Z.eq_dec (calculateReadingStreak activities now) 0) as [E|E]; [exact E|].
  destruct (calculateReadingStreak_today activities now ltac:(lia)) as (a & Ha & Hd).
  exfalso. exact (Hno a Ha Hd).
Qed.

Lemma newSet_constant (d : Z) (l : list Z) :
  l <> [] -> (forall x, In x l -> x = d) -> newSet l = [d].
Proof.
  induction l as [|y l IH]; [congruence|]. intros _ Hall. cbn [newSet].
  rewrite (Hall y (or_introl eq_refl)). f_equal.
  destruct l as [|z l']; [reflexivity|].
  rewrite IH; [|discriminate|intros x Hx; apply Hall; now right].
  simpl. now rewrite Z.eqb_refl.
Qed.

(** When every row was written today the streak is 1. *)
Lemma calculateReadingStreak_only_today (activities : list Z) (now : Z) :
  activities <> [] ->
  (forall a, In a activities -> setHours0 a = setHours0 now) ->
  calculateReadingStreak activities now = 1.
Proof.
  intros Hne Hall. unfold calculateReadingStreak.
  destruct activities as [|a l]; [congruence|].
  rewrite (newSet_constant (setHours0 now)).
  - simpl. now rewrite Z.eqb_refl.
  - discriminate.
  - intros x Hx. apply in_map_iff in Hx. destruct Hx as (y & <- & Hy). auto.
Qed.

(** Three days in a row ending today count 3; a gap stops the count. *)
Example calculateReadingStreak_three_days :
  calculateReadingStreak
    [sampleNow; sampleNow - msPerDay; sampleNow - 2 * msPerDay - 5;
     sampleNow - 4 * msPerDay] sampleNow = 3.
Proof. vm_compute. reflexivity. Qed.

End DashboardStreak.

(** C2.  With one progress row, written yesterday, [calculateReadingStreak]
    answers 0, where a streak that may start yesterday is 1: both tests of
    the loop compare with today's date, so the count only ever starts
    today. *)
Theorem streak_yesterday_only :
  let yesterday := sampleNow - msPerDay in
  dayOf yesterday = dayOf sampleNow - 1
  /\ Dashboard.calculateReadingStreak [yesterday] sampleNow = 0
  /\ Dashboard.specReadingStreak [yesterday] sampleNow = 1.
Proof. cbv zeta. split; [|split]; vm_compute; reflexivity. Qed.

(** ** The leaderboard average *)

(** C4.  For a user with one summary rated 4 and one summary without a
    rating the leaderboard reports an average of 2: the unrated summary
    counts as a 0 in the sum and as one more in the divisor.  The mean over
    the rated summaries is 4. *)
Theorem average_rating_counts_unrated :
  map (fun e => (Leaderboard.id (Leaderboard.entryUser e),
                 Leaderboard.summariesWritten (Leaderboard.stats e),
                 Qred (Leaderboard.averageSummaryRating (Leaderboard.stats e))))
      (Leaderboard.GET dbOneRated "students" "all" 10 sampleNow)
  = [("u2", 0, 0%Q); ("u3", 0, 0%Q); ("u1", 2, 2%Q)]
  /\ Qred (Leaderboard.specAverageSummaryRating (summaries dbOneRated)) = 4%Q.
Proof. split; vm_compute; reflexivity. Qed.

(** ** The monthly aggregator *)

Section Monthly.
Import Dashboard.

Lemma processMonthlyStats_length (stats : list (Z * ReadingStatus)) (now : Z) :
  length (processMonthlyStats stats now) = 6%nat.
Proof. reflexivity. Qed.

Lemma processMonthlyStats_total (stats : list (Z * ReadingStatus)) (now : Z)
    (bucket : MonthBucket) :
  In bucket (processMonthlyStats stats now) ->
  total bucket = completed bucket + started bucket
  /\ 0 <= completed bucket /\ 0 <= started bucket.
Proof.
  unfold processMonthlyStats. intros H. apply in_map_iff in H.
  destruct H as (i & <- & _). unfold monthBucket.
  cbn [total completed started]. lia.
Qed.

Lemma processMonthlyStats_months (stats : list (Z * ReadingStatus)) (now : Z) :
  map month (processMonthlyStats stats now)
  = map (fun ym => shortMonth (snd ym)) (bucketMonths now).
Proof.
  unfold processMonthlyStats, bucketMonths. rewrite !map_map.
  apply map_ext. intros i. unfold monthBucket. cbv beta zeta.
  cbn [month snd]. reflexivity.
Qed.

Lemma processMonthlyStats_empty (now : Z) (bucket : MonthBucket) :
  In bucket (processMonthlyStats [] now) ->
  completed bucket = 0 /\ started bucket = 0 /\ total bucket = 0.
Proof.
  unfold processMonthlyStats. intros H. apply in_map_iff in H.
  destruct H as (i & <- & _). unfold monthBucket.
  cbn [total completed started filter length]. auto.
Qed.

End Monthly.

(** C6.  An entry COMPLETED at noon of 31 January 2024 lies in the current
    calendar month of a request made one hour later, and the aggregator
    counts it in no bucket: [monthEnd] is the midnight that begins the last
    day of the month. *)
Theorem monthly_last_day_uncounted :
  let stats := [(lastDayNoon, COMPLETED)] in
  (getFullYear lastDayNoon, getMonth lastDayNoon) = (2024, 0)
  /\ Dashboard.bucketMonths sampleNow
     = [(2023, 7); (2023, 8); (2023, 9); (2023, 10); (2023, 11); (2024, 0)]
  /\ map (fun b => (Dashboard.month b, Dashboard.completed b,
                    Dashboard.started b, Dashboard.total b))
         (Dashboard.processMonthlyStats stats sampleNow)
     = [("Aug", 0, 0, 0); ("Sep", 0, 0, 0); ("Oct", 0, 0, 0);
        ("Nov", 0, 0, 0); ("Dec", 0, 0, 0); ("Jan", 0, 0, 0)]
  /\ Dashboard.specMonthCount stats (2024, 0) COMPLETED = 1.
Proof. cbv zeta. split; [|split; [|split]]; vm_compute; reflexivity. Qed.

(* ------------------------------------------------------------------ *)
(** * Further properties of the routes *)

(** ** Reading-progress route: what a request writes *)

Section ProgressWrites.
Import Progress Invariant.

Variables (db : Db.t) (session : option SessionUser) (b : Body) (now : Z).

(** The tables after a request that passes the guards: the progress table
    is the one the upsert leaves, the others but [users] are untouched. *)
Lemma POST_store (s : SessionUser) (bid : string) (book : Book) :
  accepted db session b s bid book ->
  let pages := effectivePages (totalPages b) book in
  let up := upsert db (su_id s) bid b pages
              (progressPercentage pages (currentPage b)) now in
  readingProgress (snd (POST db session b now)) = readingProgress (snd up)
  /\ books (snd (POST db session b now)) = books db
  /\ summaries (snd (POST db session b now)) = summaries db
  /\ comments (snd (POST db session b now)) = comments db.
Proof.
  intros Hacc pages up. rewrite (POST_accepted _ _ _ now _ _ _ Hacc). cbv zeta.
  fold pages. fold up.
  assert (Hup : books (snd up) = books db /\ summaries (snd up) = summaries db
                /\ comments (snd up) = comments db)
    by (subst up; unfold upsert; destruct (findProgress db (su_id s) bid); auto).
  assert (Hinc : forall n,
    let r := match incrementPoints (snd up) (su_id s) n with
             | Some db2 => (Success 200 (fst up), db2)
             | None => (Failure 500 "Failed to update reading progress", snd up)
             end in
    readingProgress (snd r) = readingProgress (snd up)
    /\ books (snd r) = books db /\ summaries (snd r) = summaries db
    /\ comments (snd r) = comments db).
  { intros n. cbv zeta.
    destruct (incrementPoints (snd up) (su_id s) n) as [d2|] eqn:Hd2; simpl.
    - apply incrementPoints_tables in Hd2.
      destruct Hd2 as (-> & -> & -> & ->). tauto.
    - tauto. }
  destruct (status b) as [[| | |]|]; try (simpl; tauto); try apply Hinc.
  destruct (Qle_bool 50 _); [apply Hinc|simpl; tauto].
Qed.

End ProgressWrites.

Section ProgressRejections.
Import Progress.

(** The guards of the progress update: 401 exactly when nobody is signed
    in, 400 exactly when somebody is and the body has no book identifier,
    404 exactly when the identifier names no book; each of these answers
    leaves the store as it was. *)
Theorem progress_post_rejections
    (db : Db.t) (session : option SessionUser) (b : Body) (now : Z) :
  let r := POST db session b now in
  (statusOf (fst r) = 401 <-> unauthenticated session = true)
  /\ (statusOf (fst r) = 400 <->
      unauthenticated session = false /\ truthyStr (bookId b) = false)
  /\ (statusOf (fst r) = 404 <->
      unauthenticated session = false /\ truthyStr (bookId b) = true
      /\ findBook db (orElse (bookId b) EmptyString) = None)
  /\ (statusOf (fst r) = 401 \/ statusOf (fst r) = 400 \/ statusOf (fst r) = 404 ->
      snd r = db).
Proof.
  cbv zeta. unfold POST.
  destruct session as [s|]; [|simpl; intuition (try discriminate; try lia)].
  destruct (unauthenticated (Some s)) eqn:Hauth;
    [simpl; intuition (try discriminate; try lia)|].
  destruct (truthyStr (bookId b)) eqn:Hb; cbn [negb];
    [|simpl; intuition (try discriminate; try lia)].
  destruct (findBook db (orElse (bookId b) EmptyString)) as [book|] eqn:Hbook;
    [|simpl; intuition (try discriminate; try lia)].
  destruct (upsert db (su_id s) _ b _ _ now) as [row d1].
  assert (Hinc : forall n,
    let r := match incrementPoints d1 (su_id s) n with
             | Some db2 => (Success 200 row, db2)
             | None => (Failure 500 "Failed to update reading progress", d1)
             end in
    statusOf (fst r) = 200 \/ statusOf (fst r) = 500).
  { intros n. cbv zeta. destruct (incrementPoints d1 (su_id s) n); simpl; auto. }
  assert (Hst : forall r : Response ReadingProgress * Db.t,
    statusOf (fst r) = 200 \/ statusOf (fst r) = 500 ->
    (statusOf (fst r) = 401 <-> false = true)
    /\ (statusOf (fst r) = 400 <-> false = false /\ true = false)
    /\ (statusOf (fst r) = 404 <-> false = false /\ true = true /\ Some book = None)
    /\ (statusOf (fst r) = 401 \/ statusOf (fst r) = 400 \/ statusOf (fst r) = 404 ->
        snd r = db)).
  { intros r Hr. repeat split; try (intros; lia); try discriminate;
      intros (_ & H); try discriminate; destruct H; discriminate. }
  destruct (status b) as [[| | |]|]; try (apply Hst; simpl; auto; fail); try (apply Hst; apply Hinc).
  destruct (Qle_bool 50 _); [apply Hst; apply Hinc|apply Hst; simpl; auto].
Qed.

End ProgressRejections.

Section ProgressTable.
Import Progress Invariant.

Lemma NoDup_snoc {A : Type} (l : list A) (a : A) :
  NoDup l -> ~ In a l -> NoDup (l ++ [a]).
Proof.
  induction l as [|x l IH]; simpl; intros Hl Ha.
  - constructor; [tauto|constructor].
  - inversion Hl as [|? ? Hx Hl']; subst. constructor.
    + rewrite in_app_iff. simpl. intros [H|[H|[]]]; [tauto|]. subst. tauto.
    + apply IH; tauto.
Qed.

Lemma keyIs_progressKey (u bk : string) (p : ReadingProgress) :
  keyIs u bk p = true <-> progressKey p = (u, bk).
Proof.
  unfold keyIs, progressKey. rewrite andb_true_iff, !String.eqb_eq.
  split; [intros [-> ->]; reflexivity|intros [= -> ->]; auto].
Qed.

Lemma findProgress_None (db : Db.t) (u bk : string) :
  findProgress db u bk = None -> ~ In (u, bk) (map progressKey (readingProgress db)).
Proof.
  unfold findProgress. intros Hnone Hin. apply in_map_iff in Hin.
  destruct Hin as (p & Hp & Hin).
  pose proof (find_none _ _ Hnone p Hin) as Hk.
  apply keyIs_progressKey in Hp. unfold keyIs in Hp. congruence.
Qed.

(** The row the upsert writes, and where it is found. *)
Lemma upsert_row (db : Db.t) (u bk : string) (b : Body) (pages : Z) (pct : Q)
    (now : Z) :
  let up := upsert db u bk b pages pct now in
  findProgress (snd up) u bk = Some (fst up)
  /\ fst up = match findProgress db u bk with
              | Some old => updateRow b pages pct now old
              | None => createRow u bk b pages pct now
              end.
Proof.
  cbv zeta. unfold upsert. destruct (findProgress db u bk) as [old|] eqn:Hold.
  - split; [|reflexivity]. unfold findProgress in *. simpl.
    change (fun p => (rp_userId p =? u)%string && (rp_bookId p =? bk)%string)
      with (keyIs u bk) in *.
    rewrite find_after_keyed_update, Hold by auto. reflexivity.
  - split; [|reflexivity]. unfold findProgress in *. simpl.
    rewrite find_after_append; auto. simpl. now rewrite !String.eqb_refl.
Qed.

Lemma upsert_keys (db : Db.t) (u bk : string) (b : Body) (pages : Z) (pct : Q)
    (now : Z) :
  map progressKey (readingProgress (snd (upsert db u bk b pages pct now)))
  = match findProgress db u bk with
    | Some _ => map progressKey (readingProgress db)
    | None => map progressKey (readingProgress db) ++ [(u, bk)]
    end.
Proof.
  unfold upsert. destruct (findProgress db u bk) as [old|]; simpl.
  - rewrite map_map. apply map_ext. intros p. now destruct (keyIs u bk p).
  - now rewrite map_app.
Qed.

Lemma find_app_miss {A : Type} (k : A -> bool) (l : list A) (a : A) :
  k a = false -> find k (l ++ [a]) = find k l.
Proof.
  intros Ha. induction l as [|x l IH]; simpl; [now rewrite Ha|].
  now destruct (k x).
Qed.

Lemma find_after_other_update {A : Type} (k k' : A -> bool) (f : A -> A)
    (l : list A) :
  (forall a, k a = true -> k' a = false /\ k' (f a) = false) ->
  find k' (map (fun a => if k a then f a else a) l) = find k' l.
Proof.
  intros H. induction l as [|x l IH]; simpl; [reflexivity|].
  destruct (k x) eqn:Ex.
  - destruct (H x Ex) as [-> ->]. exact IH.
  - destruct (k' x); [reflexivity|exact IH].
Qed.

Lemma upsert_other_key (db : Db.t) (u bk u' bk' : string) (b : Body) (pages : Z)
    (pct : Q) (now : Z) :
  (u', bk') <> (u, bk) ->
  findProgress (snd (upsert db u bk b pages pct now)) u' bk' = findProgress db u' bk'.
Proof.
  intros Hne.
  assert (Hk : forall p, keyIs u bk p = true -> keyIs u' bk' p = false).
  { intros p Hp. destruct (keyIs u' bk' p) eqn:E; [|reflexivity].
    apply keyIs_progressKey in Hp, E. congruence. }
  unfold upsert. destruct (findProgress db u bk) as [old|]; unfold findProgress; simpl.
  - change (fun p => (rp_userId p =? u')%string && (rp_bookId p =? bk')%string)
      with (keyIs u' bk').
    apply find_after_other_update. intros p Hp. split; [auto|].
    apply Hk. exact Hp.
  - change (fun p => (rp_userId p =? u')%string && (rp_bookId p =? bk')%string)
      with (keyIs u' bk').
    apply find_app_miss. apply Hk. unfold keyIs; simpl. now rewrite !String.eqb_refl.
Qed.

Lemma progressPercentage_le_100 (pages : Z) (c : option Z) :
  (progressPercentage pages c <= 100)%Q.
Proof.
  unfold progressPercentage. destruct (0 <? pages); [apply Q.le_min_r|discriminate].
Qed.

Lemma upsert_capped (db : Db.t) (u bk : string) (b : Body) (pages : Z) (pct : Q)
    (now : Z) :
  (pct <= 100)%Q -> percentagesCapped db ->
  percentagesCapped (snd (upsert db u bk b pages pct now)).
Proof.
  unfold percentagesCapped, upsert. intros Hpct Hall.
  destruct (findProgress db u bk) as [old|]; simpl.
  - apply Forall_forall. intros p Hp. apply in_map_iff in Hp.
    destruct Hp as (q & <- & Hq). rewrite Forall_forall in Hall.
    destruct (keyIs u bk q); [exact Hpct|auto].
  - apply Forall_app. split; [exact Hall|]. constructor; [exact Hpct|constructor].
Qed.

End ProgressTable.

Section ProgressStoreClaims.
Import Progress Invariant.

Lemma POST_keeps_unique (db : Db.t) (session : option SessionUser) (b : Body)
    (now : Z) :
  uniqueProgress db -> uniqueProgress (snd (POST db session b now)).
Proof.
  intros Huniq.
  destruct (accepted_or_not db session b) as [(s & bid & book & Hacc)|Hno];
    [|now rewrite POST_rejected].
  destruct (POST_store db session b now s bid book Hacc) as (Hrp & _).
  unfold uniqueProgress in *. rewrite Hrp, upsert_keys.
  destruct (findProgress db (su_id s) bid) eqn:Hf; [exact Huniq|].
  apply NoDup_snoc; [exact Huniq|]. now apply findProgress_None.
Qed.

(** The row a request that passes the guards leaves under its key. *)
Lemma POST_row (db : Db.t) (session : option SessionUser) (b : Body) (now : Z)
    (s : SessionUser) (bid : string) (book : Book) :
  accepted db session b s bid book ->
  let pages := effectivePages (totalPages b) book in
  let pct := progressPercentage pages (currentPage b) in
  findProgress (snd (POST db session b now)) (su_id s) bid
  = Some match findProgress db (su_id s) bid with
         | Some old => updateRow b pages pct now old
         | None => createRow (su_id s) bid b pages pct now
         end.
Proof.
  intros Hacc pages pct.
  destruct (POST_store db session b now s bid book Hacc) as (Hrp & _).
  cbv zeta in Hrp. fold pages in Hrp. fold pct in Hrp.
  destruct (upsert_row db (su_id s) bid b pages pct now) as (Hfind & Hrow).
  rewrite <- Hrow, <- Hfind. unfold findProgress. now rewrite Hrp.
Qed.

(** At most one progress row per (user, book) stays so through any
    request; a request that passes the guards adds exactly one row when the
    caller has none for the book and none when there is one. *)
Theorem progress_post_unique
    (db : Db.t) (session : option SessionUser) (b : Body) (now : Z) :
  uniqueProgress db ->
  uniqueProgress (snd (POST db session b now))
  /\ (forall s bid book,
        accepted db session b s bid book ->
        length (readingProgress (snd (POST db session b now)))
        = match findProgress db (su_id s) bid with
          | Some _ => length (readingProgress db)
          | None => S (length (readingProgress db))
          end).
Proof.
  intros Huniq. split.
  - now apply POST_keeps_unique.
  - intros s bid book Hacc.
    destruct (POST_store db session b now s bid book Hacc) as (Hrp & _).
    rewrite Hrp. rewrite <- (length_map progressKey), upsert_keys.
    destruct (findProgress db (su_id s) bid).
    + now rewrite length_map.
    + rewrite length_app, length_map. simpl. lia.
Qed.

(** A request that passes the guards leaves under (caller, book) a row
    with the request's page (0 when absent), the effective page total, the
    request time as [updatedAt], and the request's status; without a status
    the row keeps the one it had, or is created NOT_STARTED.  READING,
    PAUSED and COMPLETED stamp [startedAt] with the request time and
    COMPLETED stamps [completedAt] too, also on a row that had them; any
    other date is the one the row had before. *)
Theorem progress_post_row
    (db : Db.t) (session : option SessionUser) (b : Body) (now : Z)
    (s : SessionUser) (bid : string) (book : Book) :
  accepted db session b s bid book ->
  let before f := match findProgress db (su_id s) bid with
                  | Some old => f old
                  | None => None
                  end in
  exists row,
    findProgress (snd (POST db session b now)) (su_id s) bid = Some row
    /\ rp_currentPage row = orNum (currentPage b) 0
    /\ rp_totalPages row = effectivePages (totalPages b) book
    /\ rp_updatedAt row = now
    /\ rp_status row =
       match status b, findProgress db (su_id s) bid with
       | Some st, _ => st
       | None, Some old => rp_status old
       | None, None => NOT_STARTED
       end
    /\ rp_startedAt row =
       match status b with
       | Some READING | Some PAUSED | Some COMPLETED => Some now
       | _ => before rp_startedAt
       end
    /\ rp_completedAt row =
       match status b with
       | Some COMPLETED => Some now
       | _ => before rp_completedAt
       end.
Proof.
  intros Hacc before. subst before. cbv beta.
  eexists. split; [apply (POST_row db session b now s bid book Hacc)|].
  destruct (findProgress db (su_id s) bid); simpl;
    destruct (status b) as [[| | |]|]; simpl; repeat split; reflexivity.
Qed.

(** No request touches the books, the summaries, the comments, or the
    progress row of another (user, book). *)
Theorem progress_post_frame
    (db : Db.t) (session : option SessionUser) (b : Body) (now : Z) :
  let db' := snd (POST db session b now) in
  books db' = books db /\ summaries db' = summaries db /\ comments db' = comments db
  /\ (forall s u' bk',
        session = Some s ->
        (u', bk') <> (su_id s, orElse (bookId b) EmptyString) ->
        findProgress db' u' bk' = findProgress db u' bk').
Proof.
  cbv zeta.
  destruct (accepted_or_not db session b) as [(s & bid & book & Hacc)|Hno];
    [|rewrite POST_rejected by exact Hno; auto].
  destruct (POST_store db session b now s bid book Hacc) as (Hrp & Hb & Hs & Hc).
  split; [exact Hb|]. split; [exact Hs|]. split; [exact Hc|].
  intros s' u' bk' Hs' Hne. destruct Hacc as (Hsess & _ & Hbid & _).
  rewrite Hbid in Hne. simpl in Hne. assert (s' = s) by congruence. subst s'.
  unfold findProgress at 1. rewrite Hrp.
  apply (upsert_other_key db (su_id s) bid u' bk'). exact Hne.
Qed.

(** No request brings a percentage above 100 into the store. *)
Theorem progress_post_capped
    (db : Db.t) (session : option SessionUser) (b : Body) (now : Z) :
  percentagesCapped db -> percentagesCapped (snd (POST db session b now)).
Proof.
  intros Hcap.
  destruct (accepted_or_not db session b) as [(s & bid & book & Hacc)|Hno];
    [|now rewrite POST_rejected].
  destruct (POST_store db session b now s bid book Hacc) as (Hrp & _).
  unfold percentagesCapped. rewrite Hrp.
  apply upsert_capped; [apply progressPercentage_le_100|exact Hcap].
Qed.

(** The current page is not validated: a negative page of a book with a
    positive page total is stored with a negative percentage. *)
Theorem progress_post_negative_page
    (db : Db.t) (session : option SessionUser) (b : Body) (now : Z)
    (s : SessionUser) (bid : string) (book : Book) (c : Z) :
  accepted db session b s bid book ->
  currentPage b = Some c -> c < 0 ->
  0 < effectivePages (totalPages b) book ->
  exists row,
    findProgress (snd (POST db session b now)) (su_id s) bid = Some row
    /\ rp_currentPage row = c
    /\ (rp_progressPercentage row < 0)%Q.
Proof.
  intros Hacc Hc Hneg Hpages.
  eexists. split; [apply (POST_row db session b now s bid book Hacc)|].
  assert (Hc' : orNum (Some c) 0 = c)
    by (simpl; destruct (c =? 0) eqn:E; [apply Z.eqb_eq in E; lia|auto]).
  assert (Hpct : (progressPercentage (effectivePages (totalPages b) book)
                    (currentPage b) < 0)%Q).
  { rewrite Hc. unfold progressPercentage.
    assert (Hp : (0 <? effectivePages (totalPages b) book) = true)
      by now apply Z.ltb_lt.
    rewrite Hp, Hc'.
    apply Q.min_lt_iff. left.
    set (p := effectivePages (totalPages b) book) in *.
    assert (Hq : (inject_Z c / inject_Z p < 0)%Q).
    { apply Qlt_shift_div_r; [unfold Qlt; simpl; lia|].
      rewrite Qmult_0_l. unfold Qlt; simpl; lia. }
    unfold Double.mul, Double.div. apply round_neg.
    apply round_neg in Hq. lra. }
  destruct (findProgress db (su_id s) bid);
    cbn [rp_currentPage rp_progressPercentage updateRow createRow];
    (split; [now rewrite Hc|exact Hpct]).
Qed.

End ProgressStoreClaims.

(** ** Reading-progress route: the list *)

Section ProgressListFacts.
Import Progress Invariant.

Lemma status_eqb_eq (a c : ReadingStatus) : status_eqb a c = true <-> a = c.
Proof. destruct a, c; simpl; split; congruence. Qed.

Lemma filter_nothing {A : Type} (k : A -> bool) (l : list A) :
  (forall y, In y l -> k y = false) -> filter k l = [].
Proof.
  induction l as [|x l IH]; simpl; intros H; [reflexivity|].
  rewrite (H x (or_introl eq_refl)). apply IH. auto.
Qed.

Lemma filter_unique_key (u bk : string) (l : list ReadingProgress)
    (row : ReadingProgress) :
  NoDup (map progressKey l) -> find (keyIs u bk) l = Some row ->
  filter (keyIs u bk) l = [row].
Proof.
  induction l as [|x l IH]; simpl; [discriminate|].
  intros Hnd Hfind. inversion Hnd as [|? ? Hx Hnd']; subst.
  destruct (keyIs u bk x) eqn:Ex.
  - injection Hfind as <-. f_equal.
    apply keyIs_progressKey in Ex. apply filter_nothing. intros y Hy.
    destruct (keyIs u bk y) eqn:Ey; [|reflexivity].
    apply keyIs_progressKey in Ey. exfalso. apply Hx.
    rewrite Ex, <- Ey. now apply in_map.
  - now apply IH.
Qed.

End ProgressListFacts.

Section ProgressListClaims.
Import Progress Invariant.

(** For a signed-in caller the list answers 200 with exactly the caller's
    rows that match the parameters (a book identifier that is given and not
    empty, a status that is given), none lost or duplicated, ordered by
    [updatedAt], newest first. *)
Theorem progress_get_rows
    (db : Db.t) (s : SessionUser) (bookId : option string)
    (status : option ReadingStatus) :
  unauthenticated (Some s) = false ->
  let r := ProgressList.GET db (Some s) bookId status in
  statusOf r = 200
  /\ (forall p, In p (ProgressList.rowsOf r) <->
                In p (readingProgress db)
                /\ rp_userId p = su_id s
                /\ (forall bid, bookId = Some bid -> bid <> EmptyString ->
                                rp_bookId p = bid)
                /\ (forall st, status = Some st -> rp_status p = st))
  /\ Permutation (ProgressList.rowsOf r)
                 (filter (ProgressList.matches (su_id s) bookId status)
                         (readingProgress db))
  /\ StronglySorted (descending rp_updatedAt) (ProgressList.rowsOf r).
Proof.
  intros Hauth r. subst r. unfold ProgressList.GET. rewrite Hauth.
  cbn [statusOf ProgressList.rowsOf]. rewrite map_map. cbn [fst]. rewrite map_id.
  split; [reflexivity|]. split; [|split].
  - intros p. rewrite sortDesc_In, filter_In. unfold ProgressList.matches.
    rewrite !andb_true_iff, String.eqb_eq.
    assert (Hb : (if truthyStr bookId
                  then String.eqb (rp_bookId p) (orElse bookId EmptyString)
                  else true) = true
                 <-> (forall bid, bookId = Some bid -> bid <> EmptyString ->
                                  rp_bookId p = bid)).
    { destruct bookId as [bid|]; simpl; [|split; [intros _ ? [=]|reflexivity]].
      destruct (String.eqb bid EmptyString) eqn:E; simpl.
      - apply String.eqb_eq in E. subst. split; [intros _ ? [= <-] H|reflexivity].
        now contradiction H.
      - apply String.eqb_neq in E. rewrite String.eqb_eq.
        split; [intros -> ? [= <-] _; reflexivity|intros H; now apply H]. }
    assert (Hs : match status with
                 | Some st => status_eqb (rp_status p) st
                 | None => true
                 end = true
                 <-> (forall st, status = Some st -> rp_status p = st)).
    { destruct status as [st|]; [|split; [intros _ ? [=]|reflexivity]].
      rewrite status_eqb_eq. split; [intros -> ? [= <-]; reflexivity|auto]. }
    rewrite Hb, Hs. tauto.
  - apply sortDesc_Permutation.
  - apply sortDesc_sorted.
Qed.

(** Writing then listing: after a request that passes the guards, on a
    table with at most one row per (user, book), the caller's list for that
    book is the one row just written. *)
Theorem progress_post_then_get
    (db : Db.t) (session : option SessionUser) (b : Body) (now : Z)
    (s : SessionUser) (bid : string) (book : Book) :
  accepted db session b s bid book ->
  uniqueProgress db ->
  let db' := snd (POST db session b now) in
  exists row,
    findProgress db' (su_id s) bid = Some row
    /\ rp_updatedAt row = now
    /\ ProgressList.rowsOf (ProgressList.GET db' session (Some bid) None) = [row].
Proof.
  intros Hacc Huniq db'. subst db'.
  pose proof (POST_row db session b now s bid book Hacc) as Hrow. cbv zeta in Hrow.
  eexists. split; [exact Hrow|]. split.
  { destruct (findProgress db (su_id s) bid); reflexivity. }
  destruct Hacc as (-> & Hauth & _ & Hne & _).
  unfold ProgressList.GET. rewrite Hauth.
  cbn [ProgressList.rowsOf]. rewrite map_map. cbn [fst]. rewrite map_id.
  assert (Hext : forall p, ProgressList.matches (su_id s) (Some bid) None p
                           = keyIs (su_id s) bid p).
  { intros p. unfold ProgressList.matches, keyIs.
    rewrite (truthyStr_Some _ Hne). cbn [orElse]. now rewrite andb_true_r. }
  rewrite (filter_ext _ _ Hext).
  rewrite (filter_unique_key (su_id s) bid _ _
             (POST_keeps_unique db (Some s) b now Huniq) Hrow).
  reflexivity.
Qed.

End ProgressListClaims.

(** ** Leaderboard route: the entries *)

Section LeaderboardFacts.
Import Leaderboard Invariant.

Lemma Math_round_le (x y : Q) : (x <= y)%Q -> Math_round x <= Math_round y.
Proof.
  intros H. unfold Math_round. apply Qfloor_resp_le.
  apply Qplus_le_compat; [exact H|apply Qle_refl].
Qed.

Lemma Math_round_range (x : Q) (lo hi : Z) :
  (inject_Z lo <= x)%Q -> (x <= inject_Z hi)%Q -> lo <= Math_round x <= hi.
Proof.
  intros Hlo Hhi. rewrite <- (Math_round_integer lo), <- (Math_round_integer hi).
  split; now apply Math_round_le.
Qed.

Lemma ratio_percent_range (c n : Z) :
  0 <= c <= n -> 0 < n ->
  (inject_Z 0 <= inject_Z c / inject_Z n * 100)%Q
  /\ (inject_Z c / inject_Z n * 100 <= inject_Z 100)%Q.
Proof.
  intros Hc Hn.
  assert (Hq : (0 < inject_Z n)%Q) by (unfold Qlt; simpl; lia).
  split.
  - apply Qmult_le_0_compat; [|discriminate].
    apply Qle_shift_div_l; [exact Hq|]. rewrite Qmult_0_l. unfold Qle; simpl; lia.
  - setoid_replace (inject_Z 100) with (1 * 100)%Q by reflexivity.
    apply Qmult_le_compat_r; [|discriminate].
    apply Qle_shift_div_r; [exact Hq|]. rewrite Qmult_1_l. unfold Qle; simpl; lia.
Qed.

Lemma filter_disjoint_length {A : Type} (f g : A -> bool) (l : list A) :
  (forall a, f a = true -> g a = false) ->
  (length (filter f l) + length (filter g l) <= length l)%nat.
Proof.
  intros H. induction l as [|a l IH]; simpl; [lia|].
  destruct (f a) eqn:Ef.
  - rewrite (H a Ef). simpl. lia.
  - destruct (g a); simpl; lia.
Qed.

Lemma hasStatus_disjoint (p : ProgressWithBook) :
  hasStatus COMPLETED p = true -> hasStatus READING p = false.
Proof. unfold hasStatus. now destruct (rp_status (progress p)). Qed.



(** Every row of [findMany] is a candidate user with the relations of the
    window. *)
Lemma findMany_In (db : Db.t) (type period : string) (limit : nat) (now : Z)
    (r : UserWithRelations) :
  In r (findMany db type period limit now) ->
  exists u, In u (users db) /\ userRoleFilter type u = true
            /\ r = includeRelations db (dateFilter period now) u.
Proof.
  unfold findMany. intros H.
  apply In_firstn, sortDesc_In, in_map_iff in H.
  destruct H as (u & <- & Hu). apply filter_In in Hu. exists u. tauto.
Qed.

Lemma ratingSum_bounds (ss : list Summary) :
  Forall (fun s => forall r, s_rating s = Some r -> 1 <= r <= 5) ss ->
  0 <= ratingSum ss <= 5 * len ss.
Proof.
  unfold ratingSum, len. intros Hall.
  assert (H : forall a, a <= fold_left (fun sum s => sum + toNumber (s_rating s)) ss a
                        <= a + 5 * Z.of_nat (length ss)).
  { induction Hall as [|s ss Hs _ IH]; intros a; simpl length; cbn [fold_left]; [lia|].
    specialize (IH (a + toNumber (s_rating s))).
    assert (0 <= toNumber (s_rating s) <= 5).
    { destruct (s_rating s) as [r|]; simpl; [specialize (Hs r eq_refl)|]; lia. }
    lia. }
  specialize (H 0). lia.
Qed.

Lemma roundedAverage_range (ss : list Summary) :
  Forall (fun s => forall r, s_rating s = Some r -> 1 <= r <= 5) ss ->
  (0 <= roundedAverageSummaryRating ss)%Q /\ (roundedAverageSummaryRating ss <= 5)%Q.
Proof.
  intros Hall. pose proof (ratingSum_bounds ss Hall) as Hsum.
  assert (Hraw : (inject_Z 0 <= rawAverageSummaryRating ss * 10)%Q
                 /\ (rawAverageSummaryRating ss * 10 <= inject_Z 50)%Q).
  { unfold rawAverageSummaryRating.
    set (a := ratingSum ss) in *. set (n := len ss) in *. clearbody a n.
    destruct (0 <? n) eqn:E.
    - apply Z.ltb_lt in E.
      assert (Hq : (0 < inject_Z n)%Q) by (unfold Qlt; simpl; lia).
      split.
      + apply Qmult_le_0_compat; [|discriminate].
        apply Qle_shift_div_l; [exact Hq|]. rewrite Qmult_0_l.
        unfold Qle; simpl; lia.
      + setoid_replace (inject_Z 50) with (5 * 10)%Q by reflexivity.
        apply Qmult_le_compat_r; [|discriminate].
        apply Qle_shift_div_r; [exact Hq|].
        unfold Qle, Qmult, inject_Z; cbn [Qnum Qden]; lia.
    - split; discriminate. }
  destruct Hraw as [H0 H50].
  pose proof (Math_round_range _ 0 50 H0 H50) as Hr.
  unfold roundedAverageSummaryRating. split.
  - apply Qle_shift_div_l; [reflexivity|]. rewrite Qmult_0_l.
    unfold Qle; simpl; lia.
  - apply Qle_shift_div_r; [reflexivity|]. unfold Qle; simpl; lia.
Qed.

End LeaderboardFacts.

Section LeaderboardClaims.
Import Leaderboard Invariant.

(** The [type] parameter selects the users: "students" lists students
    only, "teachers" lists teachers and admins only, any other value lists
    everybody; the board has [limit] entries, or all the selected users when
    they are fewer. *)
Theorem leaderboard_roles
    (db : Db.t) (type period : string) (limit : nat) (now : Z) :
  let board := GET db type period limit now in
  (forall e, In e board ->
     (type = "students" -> role (entryUser e) = STUDENT)
     /\ (type = "teachers" ->
         role (entryUser e) = TEACHER \/ role (entryUser e) = ADMIN))
  /\ length board
     = Nat.min limit (length (filter (userRoleFilter type) (users db)))
  /\ (type <> "students" -> type <> "teachers" ->
      length board = Nat.min limit (length (users db))).
Proof.
  intros board. subst board. unfold GET, mapi. split; [|split].
  - intros e He. apply mapi_from_In in He. destruct He as (r & j & Hr & ->).
    apply findMany_In in Hr. destruct Hr as (u & _ & Hrole & ->).
    cbn [role entryUser entryOf user includeRelations]. unfold userRoleFilter in Hrole.
    split; intros ->; simpl in Hrole.
    + now destruct (u_role u).
    + destruct (u_role u); try discriminate; auto.
  - rewrite mapi_from_length. unfold findMany.
    now rewrite length_firstn, sortDesc_length, length_map.
  - intros Hs Ht. rewrite mapi_from_length. unfold findMany.
    rewrite length_firstn, sortDesc_length, length_map. f_equal. f_equal.
    clear -Hs Ht. unfold userRoleFilter.
    apply String.eqb_neq in Hs, Ht. rewrite Hs, Ht.
    induction (users db) as [|u l IH]; simpl; [reflexivity|]. now rewrite IH.
Qed.

(** The counters of an entry are consistent: completed and reading books
    together are at most the books started, the completion rate is a
    percentage, and a user without progress rows in the window has every
    derived counter at 0. *)
Theorem leaderboard_stats_sane
    (db : Db.t) (type period : string) (limit : nat) (now : Z) (e : Entry) :
  In e (GET db type period limit now) ->
  0 <= booksCompleted (stats e) /\ 0 <= booksReading (stats e)
  /\ booksCompleted (stats e) + booksReading (stats e)
     <= totalBooksStarted (stats e)
  /\ 0 <= completionRate (stats e) <= 100
  /\ (totalBooksStarted (stats e) = 0 ->
      booksCompleted (stats e) = 0 /\ booksReading (stats e) = 0
      /\ totalPagesRead (stats e) = 0 /\ readingStreak (stats e) = 0
      /\ completionRate (stats e) = 0).
Proof.
  intros He. unfold GET, mapi in He. apply mapi_from_In in He.
  destruct He as (r & j & _ & ->).
  cbn [stats entryOf booksCompleted booksReading totalBooksStarted completionRate
       totalPagesRead readingStreak].
  set (rows := uw_readingProgress r).
  pose proof (filter_disjoint_length (hasStatus COMPLETED) (hasStatus READING) rows
                hasStatus_disjoint) as Hd.
  pose proof (filter_length_le (hasStatus COMPLETED) rows) as Hc.
  unfold len. split; [lia|]. split; [lia|]. split; [lia|]. split.
  - destruct (0 <? Z.of_nat (length rows)) eqn:E; [|lia].
    apply Z.ltb_lt in E.
    apply Math_round_range; apply ratio_percent_range; lia.
  - intros H0. assert (rows = []) by (destruct rows; [reflexivity|simpl in H0; lia]).
    rewrite H. repeat split.
Qed.


(** When every rating in the store lies in 1..5, the average rating of
    every entry lies between 0 and 5. *)
Theorem leaderboard_average_range
    (db : Db.t) (type period : string) (limit : nat) (now : Z) (e : Entry) :
  ratingsInRange db ->
  In e (GET db type period limit now) ->
  (0 <= averageSummaryRating (stats e))%Q /\ (averageSummaryRating (stats e) <= 5)%Q.
Proof.
  intros Hrange He. unfold GET, mapi in He. apply mapi_from_In in He.
  destruct He as (r & j & Hr & ->). apply findMany_In in Hr.
  destruct Hr as (u & _ & _ & ->).
  cbn [stats entryOf averageSummaryRating]. apply roundedAverage_range.
  cbn [uw_summaries includeRelations]. unfold ratingsInRange in Hrange.
  rewrite Forall_forall in *. intros s Hs. apply filter_In in Hs. now apply Hrange.
Qed.

End LeaderboardClaims.

(** ** Summaries routes: rating, reading and deleting one summary *)

Section SummaryFacts.
Import Summaries Invariant.

Lemma find_summary_other (id id' : string) (f : Summary -> Summary) (l : list Summary) :
  id' <> id -> (forall s, s_id (f s) = s_id s) ->
  find (fun s => String.eqb (s_id s) id')
       (map (fun s => if String.eqb (s_id s) id then f s else s) l)
  = find (fun s => String.eqb (s_id s) id') l.
Proof.
  intros Hne Hf. apply find_after_other_update. intros s Hs.
  apply String.eqb_eq in Hs. rewrite Hf, Hs.
  assert (H : String.eqb id id' = false) by (apply String.eqb_neq; congruence).
  now rewrite H.
Qed.

(** Everything of a summary but its rating. *)
Lemma updateRating_rest (db : Db.t) (id : string) (r : Z) :
  map (fun s => (s_id s, s_title s, s_content s, s_authorId s, s_bookId s,
                 s_isPublic s, s_createdAt s))
      (summaries (updateRating db id r))
  = map (fun s => (s_id s, s_title s, s_content s, s_authorId s, s_bookId s,
                   s_isPublic s, s_createdAt s))
        (summaries db).
Proof.
  simpl. rewrite map_map. apply map_ext. intros s.
  now destruct (String.eqb (s_id s) id).
Qed.

(** The store after a rating request: untouched, or with the rating
    written and perhaps a comment added and the points moved. *)
Lemma PATCH_store (db : Db.t) (session : option SessionUser) (id : string)
    (b : RatingBody) :
  let db' := snd (PATCH db session id b) in
  db' = db
  \/ exists r, summaries db' = summaries (updateRating db id r)
               /\ books db' = books db
               /\ readingProgress db' = readingProgress db.
Proof.
  cbv zeta. unfold PATCH.
  destruct session as [s|]; [|now left].
  destruct (unauthenticated (Some s)); [now left|].
  destruct (negb (Role_eqb (su_role s) TEACHER) && negb (Role_eqb (su_role s) ADMIN));
    [now left|].
  destruct (invalidRating (rating b)); [now left|].
  destruct (rating b) as [| | | q | |]; try now left.
  destruct (findSummary db id) as [existing|]; [|now left].
  destruct (asInt q) as [r|]; [|now left].
  right. exists r.
  set (db2 := if feedbackGiven (feedback b) then _ else _).
  assert (H2 : summaries db2 = summaries (updateRating db id r)
               /\ books db2 = books db /\ readingProgress db2 = readingProgress db)
    by (subst db2; destruct (feedbackGiven (feedback b)); auto).
  clearbody db2.
  destruct (incrementPoints db2 _ _) as [db3|] eqn:H3; simpl; [|exact H2].
  apply incrementPoints_tables in H3. destruct H3 as (-> & -> & -> & _). exact H2.
Qed.

End SummaryFacts.

Section SummaryRatingMore.
Import Summaries Invariant.

(** Only a signed-in teacher or admin can rate: for anybody else the
    answer is 401 or 403 and the store stays as it was, whatever the
    body. *)
Theorem rating_needs_teacher
    (db : Db.t) (session : option SessionUser) (id : string) (b : RatingBody) :
  (forall s, session = Some s -> unauthenticated session = false ->
             su_role s = STUDENT) ->
  let res := PATCH db session id b in
  snd res = db
  /\ (statusOf (fst res) = 401 \/ statusOf (fst res) = 403)
  /\ (statusOf (fst res) = 401 <-> unauthenticated session = true).
Proof.
  intros Hrole res. subst res. unfold PATCH.
  destruct session as [s|]; [|simpl; intuition].
  destruct (unauthenticated (Some s)) eqn:Hauth; [simpl; intuition|].
  rewrite (Hrole s eq_refl eq_refl). simpl.
  split; [reflexivity|]. split; [now right|]. split; [lia|discriminate].
Qed.

(** A rating request changes nothing but ratings: the books and the
    progress rows stay, and so does every field of every summary other than
    the rating; the rating of any other summary stays too. *)
Theorem rating_frame
    (db : Db.t) (session : option SessionUser) (id : string) (b : RatingBody) :
  let db' := snd (PATCH db session id b) in
  books db' = books db /\ readingProgress db' = readingProgress db
  /\ map (fun s => (s_id s, s_title s, s_content s, s_authorId s, s_bookId s,
                    s_isPublic s, s_createdAt s))
         (summaries db')
     = map (fun s => (s_id s, s_title s, s_content s, s_authorId s, s_bookId s,
                      s_isPublic s, s_createdAt s))
           (summaries db)
  /\ (forall id', id' <> id -> findSummary db' id' = findSummary db id').
Proof.
  cbv zeta. destruct (PATCH_store db session id b) as [->|(r & Hs & Hb & Hp)]; [auto|].
  split; [exact Hb|]. split; [exact Hp|]. split.
  - rewrite Hs. apply updateRating_rest.
  - intros id' Hne. unfold findSummary. rewrite Hs. simpl.
    now apply find_summary_other.
Qed.

(** After a successful rating with a feedback that is not blank, reading
    the summary back shows the rating and lists the feedback comment
    first. *)
Theorem rating_then_get
    (db : Db.t) (s : SessionUser) (id : string) (r : Z) (f : string)
    (existing : Summary) (p : Z) :
  unauthenticated (Some s) = false ->
  su_role s = TEACHER \/ su_role s = ADMIN ->
  1 <= r <= 5 ->
  trim f <> EmptyString ->
  findSummary db id = Some existing ->
  pointsOf db (s_authorId existing) = Some p ->
  let db' := snd (PATCH db (Some s) id
                    {| rating := JNum (inject_Z r); feedback := Some f |}) in
  exists d,
    SummaryById.GET db' id = Success 200 d
    /\ SummaryById.summary d = setRating r existing
    /\ SummaryById.detailComments d
       = {| c_content := ("Teacher Feedback: " ++ f)%string;
            c_authorId := su_id s; c_summaryId := id |}
         :: SummaryById.commentsOf db id.
Proof.
  intros Hauth Hrole Hr Hf Hfind Hp db'. subst db'.
  destruct (PATCH_rated db s id {| rating := JNum (inject_Z r); feedback := Some f |}
              r existing p Hauth Hrole eq_refl Hr Hfind Hp)
    as (_ & H2 & H3 & _).
  cbn [feedback] in H3. rewrite (trim_empty_feedback f Hf) in H3.
  unfold SummaryById.GET. rewrite H2. eexists. split; [reflexivity|].
  split; [reflexivity|]. cbn [SummaryById.detailComments].
  unfold SummaryById.commentsOf. rewrite H3, filter_app, rev_app_distr.
  simpl. now rewrite String.eqb_refl.
Qed.

End SummaryRatingMore.

Section SummaryCreateDelete.
Import Summaries Invariant.

(** The summary a body creates for a caller. *)
Lemma POST_created (db : Db.t) (s : SessionUser) (b : Body) (newId : string)
    (now : Z) (c bid : string) (book : Book) (p : Z) :
  unauthenticated (Some s) = false ->
  content b = Some c -> c <> EmptyString ->
  bookId b = Some bid -> bid <> EmptyString ->
  findBook db bid = Some book ->
  findSummaryBy db (su_id s) bid = None ->
  pointsOf db (su_id s) = Some p ->
  exists summary db2,
    POST db (Some s) b newId now = (Success 201 summary, db2)
    /\ incrementPoints (createSummary db summary) (su_id s) 50 = Some db2
    /\ s_id summary = newId /\ s_authorId summary = su_id s
    /\ s_bookId summary = bid /\ s_content summary = c /\ s_rating summary = None.
Proof.
  intros Hauth Hc Hcne Hb Hbne Hbook Hnone Hp. unfold POST.
  rewrite Hauth, Hc, Hb, (truthyStr_Some _ Hcne), (truthyStr_Some _ Hbne).
  cbn [negb orb orElse]. rewrite Hbook, Hnone.
  set (summary := {| s_id := newId; s_title := _; s_content := c;
                     s_authorId := su_id s; s_bookId := bid; s_isPublic := _;
                     s_rating := None; s_createdAt := now |}).
  assert (Hp1 : pointsOf (createSummary db summary) (su_id s) = Some p) by exact Hp.
  destruct (incrementPoints_defined _ _ 50 _ Hp1) as [d2 Hd2].
  exists summary, d2. rewrite Hd2. repeat split.
Qed.

(** The store after a creation request: untouched, or one summary
    longer. *)
Lemma POST_summaries (db : Db.t) (session : option SessionUser) (b : Body)
    (newId : string) (now : Z) :
  let db' := snd (POST db session b newId now) in
  summaries db' = summaries db
  \/ exists s summary,
       session = Some s
       /\ findSummaryBy db (su_id s) (s_bookId summary) = None
       /\ s_authorId summary = su_id s
       /\ summaries db' = summaries db ++ [summary].
Proof.
  cbv zeta. unfold POST.
  destruct session as [s|]; [|now left].
  destruct (unauthenticated (Some s)); [now left|].
  destruct (negb (truthyStr (content b)) || negb (truthyStr (bookId b)));
    [now left|].
  destruct (findBook db (orElse (bookId b) EmptyString)) as [book|]; [|now left].
  destruct (findSummaryBy db (su_id s) (orElse (bookId b) EmptyString)) eqn:Hnone;
    [now left|].
  right.
  set (summary := {| s_id := newId; s_title := _; s_content := _;
                     s_authorId := su_id s; s_bookId := _; s_isPublic := _;
                     s_rating := None; s_createdAt := now |}).
  exists s, summary. split; [reflexivity|]. split; [exact Hnone|].
  split; [reflexivity|].
  destruct (incrementPoints (createSummary db summary) (su_id s) 50) as [d2|] eqn:Hd2;
    simpl; [|reflexivity].
  apply incrementPoints_tables in Hd2. destruct Hd2 as (_ & _ & -> & _). reflexivity.
Qed.

Lemma findSummaryBy_None (db : Db.t) (u bk : string) :
  findSummaryBy db u bk = None -> ~ In (u, bk) (map summaryKey (summaries db)).
Proof.
  unfold findSummaryBy. intros Hnone Hin. apply in_map_iff in Hin.
  destruct Hin as (x & Hx & Hin). pose proof (find_none _ _ Hnone x Hin) as Hk.
  unfold summaryKey in Hx. injection Hx as <- <-.
  simpl in Hk. now rewrite !String.eqb_refl in Hk.
Qed.

Lemma filter_keep_all {A : Type} (k : A -> bool) (l : list A) :
  (forall y, In y l -> k y = true) -> filter k l = l.
Proof.
  induction l as [|x l IH]; simpl; intros H; [reflexivity|].
  rewrite (H x (or_introl eq_refl)). f_equal. apply IH. auto.
Qed.

Lemma find_nothing {A : Type} (k : A -> bool) (l : list A) :
  (forall y, In y l -> k y = false) -> find k l = None.
Proof.
  induction l as [|x l IH]; simpl; intros H; [reflexivity|].
  rewrite (H x (or_introl eq_refl)). apply IH. auto.
Qed.

Lemma findSummary_fresh (db : Db.t) (id : string) :
  findSummary db id = None ->
  forall y, In y (summaries db) -> negb (String.eqb (s_id y) id) = true.
Proof.
  unfold findSummary. intros Hnone y Hy.
  now rewrite (find_none _ _ Hnone y Hy).
Qed.

End SummaryCreateDelete.

Section SummaryCreateDeleteClaims.
Import Summaries Invariant.

(** At most one summary per (author, book) stays so through any creation
    request. *)
Theorem summary_post_one_per_book
    (db : Db.t) (session : option SessionUser) (b : Body) (newId : string)
    (now : Z) :
  oneSummaryPerBook db -> oneSummaryPerBook (snd (POST db session b newId now)).
Proof.
  intros Hone. unfold oneSummaryPerBook in *.
  destruct (POST_summaries db session b newId now)
    as [->|(s & summary & _ & Hnone & Hauthor & ->)]; [exact Hone|].
  rewrite map_app. apply NoDup_snoc; [exact Hone|].
  unfold summaryKey at 1. rewrite Hauthor. now apply findSummaryBy_None.
Qed.

(** Creating twice: after a successful creation, a second request of the
    same caller for the same book is answered 409 and changes nothing,
    whatever its content. *)
Theorem summary_post_twice
    (db : Db.t) (s : SessionUser) (b b' : Body) (newId newId' : string)
    (now now' : Z) (c c' bid : string) (book : Book) (p : Z) :
  unauthenticated (Some s) = false ->
  content b = Some c -> c <> EmptyString ->
  content b' = Some c' -> c' <> EmptyString ->
  bookId b = Some bid -> bookId b' = Some bid -> bid <> EmptyString ->
  findBook db bid = Some book ->
  findSummaryBy db (su_id s) bid = None ->
  pointsOf db (su_id s) = Some p ->
  let db1 := snd (POST db (Some s) b newId now) in
  let again := POST db1 (Some s) b' newId' now' in
  statusOf (fst again) = 409 /\ snd again = db1
  /\ pointsOf db1 (su_id s) = Some (p + 50).
Proof.
  intros Hauth Hc Hcne Hc' Hcne' Hb Hb' Hbne Hbook Hnone Hp db1 again.
  destruct (POST_created db s b newId now c bid book p
              Hauth Hc Hcne Hb Hbne Hbook Hnone Hp)
    as (summary & d2 & Hpost & Hd2 & _ & Hau & Hbk & _).
  subst again db1. rewrite Hpost. cbn [snd].
  pose proof (incrementPoints_tables _ _ _ _ Hd2) as (Hbooks & _ & Hsums & _).
  assert (Hfind : findSummaryBy d2 (su_id s) bid = Some summary).
  { unfold findSummaryBy in *. rewrite Hsums. simpl.
    apply find_after_append; [exact Hnone|].
    now rewrite Hau, Hbk, !String.eqb_refl. }
  assert (Hbook2 : findBook d2 bid = Some book)
    by (unfold findBook in *; rewrite Hbooks; exact Hbook).
  unfold POST. rewrite Hauth, Hc', Hb', (truthyStr_Some _ Hcne'),
    (truthyStr_Some _ Hbne).
  cbn [negb orb orElse]. rewrite Hbook2, Hfind. simpl.
  split; [reflexivity|]. split; [reflexivity|].
  rewrite (pointsOf_incrementPoints _ _ _ _ Hd2), String.eqb_refl.
  change (pointsOf (createSummary db summary) (su_id s)) with (pointsOf db (su_id s)).
  now rewrite Hp.
Qed.

(** Only the author of a summary, or an admin, can delete it (a teacher
    has no more right here than a student): for them the answer is 200, no
    summary has that identifier afterwards and every other summary is kept
    in place; for anybody else the answer is 403 and the store stays as it
    was.  In no case do anybody's points move: the 50 points of the
    creation stay with the author. *)
Theorem summary_delete_rights
    (db : Db.t) (s : SessionUser) (id : string) (existing : Summary) :
  unauthenticated (Some s) = false ->
  findSummary db id = Some existing ->
  let res := SummaryById.DELETE db (Some s) id in
  (s_authorId existing = su_id s \/ su_role s = ADMIN ->
   statusOf (fst res) = 200
   /\ findSummary (snd res) id = None
   /\ summaries (snd res)
      = filter (fun x => negb (String.eqb (s_id x) id)) (summaries db)
   /\ (forall id', id' <> id -> findSummary (snd res) id' = findSummary db id'))
  /\ (s_authorId existing <> su_id s -> su_role s <> ADMIN ->
      statusOf (fst res) = 403 /\ snd res = db)
  /\ (forall u, pointsOf (snd res) u = pointsOf db u).
Proof.
  intros Hauth Hfind res. subst res. unfold SummaryById.DELETE.
  rewrite Hauth, Hfind. split; [|split].
  - intros Hallowed.
    assert (Hguard : negb (String.eqb (s_authorId existing) (su_id s))
                     && negb (Role_eqb (su_role s) ADMIN) = false).
    { destruct Hallowed as [->| ->]; [now rewrite String.eqb_refl|].
      now rewrite andb_false_r. }
    rewrite Hguard. cbn [fst snd statusOf]. split; [reflexivity|].
    split; [|split; [reflexivity|]].
    + unfold findSummary, SummaryById.deleteSummary. simpl.
      apply find_nothing. intros x Hx. apply filter_In in Hx.
      destruct Hx as [_ Hx]. now apply negb_true_iff in Hx.
    + intros id' Hne. unfold findSummary, SummaryById.deleteSummary. simpl.
      induction (summaries db) as [|x l IH]; simpl; [reflexivity|].
      destruct (String.eqb (s_id x) id) eqn:E; simpl.
      * apply String.eqb_eq in E.
        assert (H : String.eqb (s_id x) id' = false)
          by (apply String.eqb_neq; congruence).
        now rewrite H.
      * destruct (String.eqb (s_id x) id'); [reflexivity|exact IH].
  - intros Hne Hrole. apply String.eqb_neq in Hne. rewrite Hne.
    destruct (su_role s); simpl; try (split; reflexivity). congruence.
  - intros u.
    destruct (negb (String.eqb (s_authorId existing) (su_id s))
              && negb (Role_eqb (su_role s) ADMIN)); reflexivity.
Qed.

(** Points are not tied to the summary: create, delete, create again (with
    identifiers the store has not used) leaves one summary and 100 points
    more than at the start. *)
Theorem summary_create_delete_create
    (db : Db.t) (s : SessionUser) (b : Body) (newId newId' : string)
    (now now' : Z) (c bid : string) (book : Book) (p : Z) :
  unauthenticated (Some s) = false ->
  content b = Some c -> c <> EmptyString ->
  bookId b = Some bid -> bid <> EmptyString ->
  findBook db bid = Some book ->
  findSummaryBy db (su_id s) bid = None ->
  findSummary db newId = None ->
  pointsOf db (su_id s) = Some p ->
  let db1 := snd (POST db (Some s) b newId now) in
  let del := SummaryById.DELETE db1 (Some s) newId in
  let again := POST (snd del) (Some s) b newId' now' in
  statusOf (fst del) = 200 /\ statusOf (fst again) = 201
  /\ pointsOf (snd again) (su_id s) = Some (p + 100)
  /\ length (summaries (snd again)) = S (length (summaries db)).
Proof.
  intros Hauth Hc Hcne Hb Hbne Hbook Hnone Hfresh Hp db1 del again.
  destruct (POST_created db s b newId now c bid book p
              Hauth Hc Hcne Hb Hbne Hbook Hnone Hp)
    as (summary & d2 & Hpost & Hd2 & Hid & Hau & Hbk & _).
  pose proof (incrementPoints_tables _ _ _ _ Hd2) as (Hbooks & _ & Hsums & _).
  assert (Hp2 : pointsOf d2 (su_id s) = Some (p + 50)).
  { rewrite (pointsOf_incrementPoints _ _ _ _ Hd2), String.eqb_refl.
    change (pointsOf (createSummary db summary) (su_id s))
      with (pointsOf db (su_id s)).
    now rewrite Hp. }
  assert (Hfind : findSummary d2 newId = Some summary).
  { unfold findSummary in *. rewrite Hsums. simpl.
    apply find_after_append; [exact Hfresh|]. now rewrite Hid, String.eqb_refl. }
  assert (Hdel : del = (Success 200 tt, SummaryById.deleteSummary d2 newId)).
  { subst del db1. rewrite Hpost. cbn [snd]. unfold SummaryById.DELETE.
    now rewrite Hauth, Hfind, Hau, String.eqb_refl. }
  set (d3 := SummaryById.deleteSummary d2 newId) in *.
  assert (Hsums3 : summaries d3 = summaries db).
  { subst d3. unfold SummaryById.deleteSummary. simpl. rewrite Hsums. simpl.
    rewrite filter_app. simpl. rewrite Hid, String.eqb_refl. simpl.
    rewrite app_nil_r. apply filter_keep_all. now apply findSummary_fresh. }
  assert (Hnone3 : findSummaryBy d3 (su_id s) bid = None)
    by (unfold findSummaryBy; rewrite Hsums3; exact Hnone).
  assert (Hbook3 : findBook d3 bid = Some book)
    by (unfold findBook in *; subst d3; simpl; rewrite Hbooks; exact Hbook).
  assert (Hp3 : pointsOf d3 (su_id s) = Some (p + 50)) by exact Hp2.
  destruct (POST_created d3 s b newId' now' c bid book (p + 50)
              Hauth Hc Hcne Hb Hbne Hbook3 Hnone3 Hp3)
    as (summary' & d4 & Hpost' & Hd4 & _).
  pose proof (incrementPoints_tables _ _ _ _ Hd4) as (_ & _ & Hsums4 & _).
  subst again. rewrite Hdel. cbn [fst snd statusOf]. rewrite Hpost'.
  cbn [fst snd statusOf]. split; [reflexivity|]. split; [reflexivity|]. split.
  - rewrite (pointsOf_incrementPoints _ _ _ _ Hd4), String.eqb_refl.
    change (pointsOf (createSummary d3 summary') (su_id s))
      with (pointsOf d3 (su_id s)).
    rewrite Hp3. simpl. f_equal. lia.
  - rewrite Hsums4. unfold createSummary. cbn [summaries setSummaries].
    rewrite Hsums3, length_app. simpl. lia.
Qed.

(** Creating then reading: with an identifier the store has not used, the
    summary just created is the one [GET] returns for it, unrated, with the
    selected columns of its book and with the caller as its author. *)
Theorem summary_post_then_get
    (db : Db.t) (s : SessionUser) (b : Body) (newId : string) (now : Z)
    (c bid : string) (book : Book) (p : Z) :
  unauthenticated (Some s) = false ->
  content b = Some c -> c <> EmptyString ->
  bookId b = Some bid -> bid <> EmptyString ->
  findBook db bid = Some book ->
  findSummaryBy db (su_id s) bid = None ->
  findSummary db newId = None ->
  pointsOf db (su_id s) = Some p ->
  let r := POST db (Some s) b newId now in
  exists summary d,
    fst r = Success 201 summary
    /\ SummaryById.GET (snd r) newId = Success 200 d
    /\ SummaryById.summary d = summary
    /\ s_authorId summary = su_id s /\ s_content summary = c
    /\ s_rating summary = None
    /\ SummaryById.book d = Some (SummaryById.selectBook book)
    /\ option_map SummaryById.authorId (SummaryById.author d) = Some (su_id s).
Proof.
  intros Hauth Hc Hcne Hb Hbne Hbook Hnone Hfresh Hp r.
  destruct (POST_created db s b newId now c bid book p
              Hauth Hc Hcne Hb Hbne Hbook Hnone Hp)
    as (summary & d2 & Hpost & Hd2 & Hid & Hau & Hbk & Hco & Hra).
  pose proof (incrementPoints_tables _ _ _ _ Hd2) as (Hbooks & _ & Hsums & _).
  assert (Hfind : findSummary d2 newId = Some summary).
  { unfold findSummary in *. rewrite Hsums. simpl.
    apply find_after_append; [exact Hfresh|]. now rewrite Hid, String.eqb_refl. }
  subst r. rewrite Hpost. cbn [fst snd]. unfold SummaryById.GET. rewrite Hfind.
  eexists. eexists. split; [reflexivity|]. split; [reflexivity|].
  cbn [SummaryById.summary SummaryById.book SummaryById.author].
  repeat (split; [reflexivity || assumption|]). split.
  - rewrite Hbk.
    assert (Hb2 : findBook d2 bid = Some book).
    { unfold findBook in *. rewrite Hbooks. exact Hbook. }
    now rewrite Hb2.
  - rewrite Hau.
    assert (Hp2 : pointsOf d2 (su_id s) = Some (p + 50)).
    { rewrite (pointsOf_incrementPoints _ _ _ _ Hd2), String.eqb_refl.
      change (pointsOf (createSummary db summary) (su_id s))
        with (pointsOf db (su_id s)).
      now rewrite Hp. }
    unfold pointsOf in Hp2.
    destruct (findUser d2 (su_id s)) as [u|] eqn:Hu; [|discriminate].
    unfold findUser in Hu. apply find_some in Hu. destruct Hu as [_ Hu].
    apply String.eqb_eq in Hu. simpl. now rewrite Hu.
Qed.

End SummaryCreateDeleteClaims.

(** ** Summaries routes: the paginated list *)

Section Pagination.
Import SummaryList.

Lemma ceilDiv_bounds (a b : Z) :
  0 < b -> (ceilDiv a b - 1) * b < a <= ceilDiv a b * b.
Proof.
  intros Hb. unfold ceilDiv.
  pose proof (Z.div_mod (- a) b ltac:(lia)) as Hdm.
  pose proof (Z.mod_pos_bound (- a) b Hb) as Hm. nia.
Qed.

Lemma firstn_plus {A : Type} (a b : nat) (l : list A) :
  firstn (a + b) l = firstn a l ++ firstn b (skipn a l).
Proof.
  revert l. induction a as [|a IH]; intros l; [reflexivity|].
  destruct l as [|x l]; simpl; [now rewrite firstn_nil|]. now rewrite IH.
Qed.

Lemma In_skipn {A : Type} (n : nat) (l : list A) (x : A) :
  In x (skipn n l) -> In x l.
Proof.
  revert n. induction l as [|y l IH]; intros [|n]; simpl; auto.
  intros H. right. eauto.
Qed.

Lemma chunks_concat {A : Type} (b n : nat) (l : list A) :
  flat_map (fun k => firstn b (skipn (k * b) l)) (seq 0 n) = firstn (n * b) l.
Proof.
  induction n as [|n IH]; [reflexivity|].
  rewrite seq_S, flat_map_app, IH. simpl flat_map. rewrite app_nil_r.
  replace (S n * b)%nat with (n * b + b)%nat by lia.
  now rewrite firstn_plus.
Qed.

(** A list with distinct keys has one arrangement with the largest key
    first. *)
Lemma strict_sorted_unique {A : Type} (key : A -> Z) (l1 l2 : list A) :
  StronglySorted (fun a b => key b < key a) l1 ->
  StronglySorted (fun a b => key b < key a) l2 ->
  Permutation l1 l2 -> l1 = l2.
Proof.
  revert l2. induction l1 as [|a l1 IH]; intros l2 H1 H2 Hp.
  - apply Permutation_nil in Hp. now subst.
  - destruct l2 as [|b l2].
    { apply Permutation_sym, Permutation_nil in Hp. discriminate. }
    inversion H1 as [|? ? H1' Ha]; subst. inversion H2 as [|? ? H2' Hb]; subst.
    rewrite Forall_forall in Ha, Hb.
    assert (Hab : a = b).
    { assert (Hin1 : In a (b :: l2))
        by (apply (Permutation_in _ Hp); left; reflexivity).
      assert (Hin2 : In b (a :: l1))
        by (apply (Permutation_in _ (Permutation_sym Hp)); left; reflexivity).
      destruct Hin1 as [E|Hin1]; [now symmetry|].
      destruct Hin2 as [E|Hin2]; [exact E|].
      specialize (Ha _ Hin2). specialize (Hb _ Hin1). lia. }
    subst b. f_equal. apply IH; auto.
    apply Permutation_cons_inv in Hp. exact Hp.
Qed.

Lemma sorted_distinct_strict {A : Type} (key : A -> Z) (l : list A) :
  NoDup (map key l) -> StronglySorted (descending key) l ->
  StronglySorted (fun a b => key b < key a) l.
Proof.
  induction l as [|a l IH]; intros Hnd Hs; [constructor|].
  inversion Hs as [|? ? Hs' Ha]; subst. simpl in Hnd.
  inversion Hnd as [|? ? Hnot Hnd']; subst.
  constructor; [auto|].
  rewrite Forall_forall in *. intros b Hb. specialize (Ha b Hb).
  unfold descending in Ha.
  assert (key b <> key a).
  { intros E. apply Hnot. rewrite <- E. now apply in_map. }
  lia.
Qed.

Lemma sorted_permutation_unique {A : Type} (key : A -> Z) (rows l1 l2 : list A) :
  NoDup (map key rows) ->
  Permutation l1 rows -> StronglySorted (descending key) l1 ->
  Permutation l2 rows /\ StronglySorted (descending key) l2 ->
  l1 = l2.
Proof.
  intros Hnd Hp1 Hs1 [Hp2 Hs2].
  apply (strict_sorted_unique key).
  - apply sorted_distinct_strict; [|exact Hs1].
    apply (Permutation_NoDup (Permutation_sym (Permutation_map key Hp1)) Hnd).
  - apply sorted_distinct_strict; [|exact Hs2].
    apply (Permutation_NoDup (Permutation_sym (Permutation_map key Hp2)) Hnd).
  - apply (Permutation_trans Hp1 (Permutation_sym Hp2)).
Qed.

Lemma GET_defined (db : Db.t) (bookId userId isPublic : option string)
    (page limit : Z) :
  1 <= page -> 1 <= limit ->
  GET db bookId userId isPublic page limit
  = let all := selected db bookId userId isPublic in
    let totalCount := Z.of_nat (length all) in
    Some (firstn (Z.to_nat limit) (skipn (Z.to_nat ((page - 1) * limit)) all),
          {| page := page; limit := limit; totalCount := totalCount;
             totalPages := ceilDiv totalCount limit;
             hasNext := page <? ceilDiv totalCount limit;
             hasPrev := 1 <? page |}).
Proof.
  intros Hp Hl. unfold GET.
  assert (H : (1 <=? page) && (1 <=? limit) = true)
    by (apply andb_true_iff; split; now apply Z.leb_le).
  now rewrite H.
Qed.

End Pagination.

Section PaginationClaims.
Import SummaryList.

(** A page of the list, for a page number and a page size of at least 1:
    it has at most [limit] rows, each a stored summary that satisfies the
    filters; [totalCount] counts the summaries that satisfy them,
    [totalPages] is the least number of pages that holds them, [hasNext]
    says that rows remain after this page, [hasPrev] that the page is not
    the first; a page past the last is empty. *)
Theorem summaries_list_page
    (db : Db.t) (bookId userId isPublic : option string) (page limit : Z) :
  1 <= page -> 1 <= limit ->
  exists rows pg,
    GET db bookId userId isPublic page limit = Some (rows, pg)
    /\ (length rows <= Z.to_nat limit)%nat
    /\ (forall x, In x rows ->
          In x (summaries db) /\ whereClause bookId userId isPublic x = true)
    /\ totalCount pg
       = Z.of_nat (length (filter (whereClause bookId userId isPublic)
                                  (summaries db)))
    /\ (totalPages pg - 1) * limit < totalCount pg <= totalPages pg * limit
    /\ (hasNext pg = true <-> page * limit < totalCount pg)
    /\ (hasPrev pg = true <-> 1 < page)
    /\ (totalPages pg < page -> rows = []).
Proof.
  intros Hp Hl. rewrite (GET_defined db bookId userId isPublic page limit Hp Hl).
  cbv zeta. eexists. eexists. split; [reflexivity|].
  cbn [totalCount totalPages hasNext hasPrev].
  set (all := selected db bookId userId isPublic).
  pose proof (ceilDiv_bounds (Z.of_nat (length all)) limit ltac:(lia)) as Hc.
  split; [apply firstn_le_length|]. split; [|split; [|split; [|split; [|split]]]].
  - intros x Hx. apply In_firstn in Hx.
    assert (Hin : In x all) by (eapply In_skipn; exact Hx).
    subst all. unfold selected in Hin. apply sortDesc_In, filter_In in Hin. exact Hin.
  - subst all. unfold selected. now rewrite sortDesc_length.
  - exact Hc.
  - rewrite Z.ltb_lt. split; intros H; nia.
  - apply Z.ltb_lt.
  - intros Hlast. rewrite skipn_all2; [now rewrite firstn_nil|].
    apply Nat2Z.inj_le. rewrite Z2Nat.id by nia. nia.
Qed.

(** The pages tile the list.  Every page is a query of its own, answered
    by the store with some arrangement of the selected summaries, newest
    first.  When no two selected summaries were created at the same instant
    and the page size is at least 1, the pages 1 to [totalPages], one after
    the other, are the selected summaries, newest first, each once. *)
Theorem summaries_list_pages_tile
    (db : Db.t) (bookId userId isPublic : option string) (limit : Z)
    (answer : nat -> list Summary) :
  1 <= limit ->
  let rows := filter (whereClause bookId userId isPublic) (summaries db) in
  NoDup (map s_createdAt rows) ->
  (forall k, orderedByCreatedAtDesc rows (answer k)) ->
  let totalPages := ceilDiv (Z.of_nat (length rows)) limit in
  flat_map (fun k => pageFrom (answer k) limit (Z.of_nat (S k)))
           (seq 0 (Z.to_nat totalPages))
  = sortDesc s_createdAt rows
  /\ (forall k, pageFrom (answer k) limit (Z.of_nat (S k))
                = pageRows db bookId userId isPublic limit (Z.of_nat (S k))).
Proof.
  intros Hl rows Hnd Hans totalPages.
  set (all := sortDesc s_createdAt rows).
  assert (Hall : forall k, answer k = all).
  { intros k. destruct (Hans k) as [Hperm Hsorted].
    apply (sorted_permutation_unique s_createdAt rows); auto.
    split; [apply sortDesc_Permutation | apply sortDesc_sorted]. }
  assert (Hlen : length all = length rows) by apply sortDesc_length.
  pose proof (ceilDiv_bounds (Z.of_nat (length rows)) limit ltac:(lia)) as Hc.
  fold totalPages in Hc.
  assert (Hpage : forall k, pageFrom (answer k) limit (Z.of_nat (S k))
                            = firstn (Z.to_nat limit)
                                     (skipn (k * Z.to_nat limit) all)).
  { intros k. unfold pageFrom. rewrite Hall. f_equal. f_equal.
    replace (Z.of_nat (S k) - 1) with (Z.of_nat k) by lia.
    rewrite Z2Nat.inj_mul by lia. now rewrite Nat2Z.id. }
  split.
  - rewrite (flat_map_ext _ _ Hpage).
    rewrite chunks_concat. apply firstn_all2. rewrite Hlen.
    apply Nat2Z.inj_le. rewrite Nat2Z.inj_mul, !Z2Nat.id by nia. lia.
  - intros k. rewrite Hpage. unfold pageRows.
    rewrite (GET_defined db bookId userId isPublic (Z.of_nat (S k)) limit) by lia.
    cbv zeta. unfold selected. fold rows. fold all. f_equal. f_equal.
    replace (Z.of_nat (S k) - 1) with (Z.of_nat k) by lia.
    rewrite Z2Nat.inj_mul by lia. now rewrite Nat2Z.id.
Qed.

End PaginationClaims.

(** ** Dashboard statistics route: the streak *)

Section StreakExact.
Import Dashboard.

Lemma newSet_In_iff (x : Z) (l : list Z) : In x (newSet l) <-> In x l.
Proof.
  split; [apply newSet_In|].
  induction l as [|y l IH]; simpl; [tauto|].
  intros [->|H]; [now left|].
  destruct (Z.eq_dec x y) as [->|Hne]; [now left|].
  right. apply filter_In. split; [auto|].
  apply negb_true_iff, Z.eqb_neq. exact Hne.
Qed.

Lemma newSet_NoDup (l : list Z) : NoDup (newSet l).
Proof.
  induction l as [|y l IH]; simpl; constructor.
  - intros H. apply filter_In in H. destruct H as [_ H].
    now rewrite Z.eqb_refl in H.
  - now apply NoDup_filter.
Qed.

Lemma sorted_NoDup_strict (l : list Z) :
  StronglySorted (descending (fun a => a)) l -> NoDup l ->
  StronglySorted (fun a b => b < a) l.
Proof.
  induction l as [|x l IH]; intros Hs Hnd; constructor;
    inversion Hs as [|? ? Hs' Hall]; inversion Hnd as [|? ? Hx Hnd']; subst; auto.
  rewrite Forall_forall in *. intros y Hy. specialize (Hall y Hy).
  unfold descending in Hall.
  assert (y <> x) by (intros ->; contradiction). lia.
Qed.

(** The loop counts exactly the run of dates [c], [c - 1 day],
    [c - 2 days], ... that the list holds. *)
Lemma streakLoop_exact (l : list Z) (c s : Z) :
  StronglySorted (fun a b => b < a) l ->
  (forall x, In x l -> exists j, 0 <= j /\ x = c - j * msPerDay) ->
  let k := streakLoop l c s - s in
  0 <= k
  /\ (forall i, 0 <= i < k -> In (c - i * msPerDay) l)
  /\ ~ In (c - k * msPerDay) l.
Proof.
  pose proof msPerDay_value as Hd.
  revert c s. induction l as [|x l IH]; intros c s Hs Hall; cbv zeta.
  - simpl. replace (s - s) with 0 by lia. repeat split; [lia|lia|tauto].
  - inversion Hs as [|? ? Hs' Hlt]; subst. rewrite Forall_forall in Hlt.
    cbn [streakLoop]. destruct (x =? c) eqn:E.
    + apply Z.eqb_eq in E. subst x.
      destruct (IH (setDatePrev c) (s + 1) Hs') as (Hk & Hrun & Hgap).
      { intros y Hy. destruct (Hall y (or_intror Hy)) as (j & Hj & ->).
        specialize (Hlt _ Hy). exists (j - 1). unfold setDatePrev.
        rewrite Hd in *. lia. }
      set (k' := streakLoop l (setDatePrev c) (s + 1) - (s + 1)) in *.
      replace (streakLoop l (setDatePrev c) (s + 1) - s) with (k' + 1) by (subst k'; lia).
      split; [lia|]. split.
      * intros i Hi. destruct (Z.eq_dec i 0) as [->|Hne].
        { left. lia. }
        right. replace (c - i * msPerDay) with (setDatePrev c - (i - 1) * msPerDay)
          by (unfold setDatePrev; lia).
        apply Hrun. lia.
      * replace (c - (k' + 1) * msPerDay) with (setDatePrev c - k' * msPerDay)
          by (unfold setDatePrev; lia).
        intros [H|H]; [unfold setDatePrev in H; rewrite Hd in H; lia|contradiction].
    + apply Z.eqb_neq in E. replace (s - s) with 0 by lia.
      split; [lia|]. split; [lia|].
      replace (c - 0 * msPerDay) with c by lia.
      destruct (Hall x (or_introl eq_refl)) as (j & Hj & Hx).
      intros [H|H]; [congruence|].
      specialize (Hlt _ H). rewrite Hd in *. lia.
Qed.

End StreakExact.

(** On rows none of which is dated after the request, the streak is the
    exact number of consecutive calendar days, ending today, on which the
    user has a row: each of the last [streak] days has one, and the day
    before them has none. *)
Theorem streak_counts_consecutive_days (activities : list Z) (now : Z) :
  (forall a, In a activities -> a <= now) ->
  let streak := Dashboard.calculateReadingStreak activities now in
  0 <= streak
  /\ (forall i, 0 <= i < streak ->
        exists a, In a activities /\ dayOf a = dayOf now - i)
  /\ ~ (exists a, In a activities /\ dayOf a = dayOf now - streak).
Proof.
  intros Hpast streak. subst streak. unfold Dashboard.calculateReadingStreak.
  destruct activities as [|a0 rest] eqn:Hacts.
  { split; [lia|]. split; [lia|]. intros (a & [] & _). }
  rewrite <- Hacts in *. clear Hacts a0 rest.
  set (l := sortDesc (fun a => a) (newSet (map setHours0 activities))).
  pose proof msPerDay_value as Hd.
  assert (Hin : forall x, In x l <-> exists a, In a activities /\ x = setHours0 a).
  { intros x. subst l. rewrite sortDesc_In, newSet_In_iff, in_map_iff.
    split; intros (a & H1 & H2); exists a; auto. }
  assert (Hday : forall a i, setHours0 a = setHours0 now - i * msPerDay
                             <-> dayOf a = dayOf now - i).
  { intros a i. unfold setHours0. split; intros H; nia. }
  destruct (streakLoop_exact l (setHours0 now) 0) as (Hk & Hrun & Hgap).
  - apply sorted_NoDup_strict; [apply sortDesc_sorted|].
    subst l. eapply Permutation_NoDup;
      [apply Permutation_sym, sortDesc_Permutation|apply newSet_NoDup].
  - intros x Hx. apply Hin in Hx. destruct Hx as (a & Ha & ->).
    exists (dayOf now - dayOf a). specialize (Hpast a Ha).
    assert (dayOf a <= dayOf now)
      by (unfold dayOf; apply Z.div_le_mono; lia).
    split; [lia|]. unfold setHours0. lia.
  - rewrite Z.sub_0_r in *. split; [exact Hk|]. split.
    + intros i Hi. apply Hrun, Hin in Hi. destruct Hi as (a & Ha & Heq).
      exists a. split; [exact Ha|]. apply Hday. auto.
    + intros (a & Ha & Heq). apply Hgap, Hin. exists a. split; [exact Ha|].
      symmetry. now apply Hday.
Qed.

(** ** Dashboard statistics route: the handler *)

Section DashboardFacts.
Import DashboardRoute.

Lemma countWhere_split (db : Db.t) (u : string) :
  countWhere db u (fun st => negb (status_eqb st NOT_STARTED))
  = countWhere db u (fun st => status_eqb st COMPLETED)
    + countWhere db u (fun st => status_eqb st READING)
    + countWhere db u (fun st => status_eqb st PAUSED).
Proof.
  unfold countWhere. induction (readingProgress db) as [|p l IH]; [reflexivity|].
  cbn [filter]. destruct (String.eqb (rp_userId p) u); cbn [andb]; [|exact IH].
  destruct (rp_status p); cbn [status_eqb negb length]; lia.
Qed.

Lemma countWhere_nonneg (db : Db.t) (u : string) (f : ReadingStatus -> bool) :
  0 <= countWhere db u f.
Proof. unfold countWhere. lia. Qed.

Lemma completionRate_range (c n : Z) :
  0 <= c <= n -> 0 <= completionRate c n <= 100.
Proof.
  intros H. unfold completionRate. destruct (0 <? n) eqn:E; [|lia].
  apply Z.ltb_lt in E. apply Math_round_range; apply ratio_percent_range; lia.
Qed.

Lemma percent_sum_bounds (rows : list ReadingProgress) (a : Q) :
  Forall (fun p => (0 <= rp_progressPercentage p)%Q
                   /\ (rp_progressPercentage p <= 100)%Q) rows ->
  (a <= fold_left (fun sum book => (sum + rp_progressPercentage book)%Q) rows a)%Q
  /\ (fold_left (fun sum book => (sum + rp_progressPercentage book)%Q) rows a
      <= a + 100 * inject_Z (Z.of_nat (length rows)))%Q.
Proof.
  intros Hall. revert a. induction Hall as [|p rows [Hlo Hhi] _ IH]; intros a.
  - simpl. split; [apply Qle_refl|].
    setoid_replace (100 * inject_Z 0)%Q with 0%Q by reflexivity.
    rewrite Qplus_0_r. apply Qle_refl.
  - cbn [fold_left]. destruct (IH (a + rp_progressPercentage p)%Q) as [H1 H2]. split.
    + eapply Qle_trans; [|exact H1].
      rewrite <- (Qplus_0_r a) at 1. apply Qplus_le_compat; [apply Qle_refl|exact Hlo].
    + eapply Qle_trans; [exact H2|].
      replace (Z.of_nat (length (p :: rows))) with (Z.of_nat (length rows) + 1)
        by (simpl length; lia).
      rewrite inject_Z_plus.
      setoid_replace (a + 100 * (inject_Z (Z.of_nat (length rows)) + inject_Z 1))%Q
        with (a + 100 + 100 * inject_Z (Z.of_nat (length rows)))%Q by ring.
      apply Qplus_le_compat; [|apply Qle_refl].
      apply Qplus_le_compat; [apply Qle_refl|exact Hhi].
Qed.

Lemma averageProgress_range (rows : list ReadingProgress) :
  Forall (fun p => (0 <= rp_progressPercentage p)%Q
                   /\ (rp_progressPercentage p <= 100)%Q) rows ->
  0 <= averageProgress rows <= 100.
Proof.
  intros Hall. unfold averageProgress.
  destruct (0 <? Z.of_nat (length rows)) eqn:E; [|lia]. apply Z.ltb_lt in E.
  destruct (percent_sum_bounds rows 0 Hall) as [Hlo Hhi].
  set (sum := fold_left _ rows 0%Q) in *.
  assert (Hq : (0 < inject_Z (Z.of_nat (length rows)))%Q) by (unfold Qlt; simpl; lia).
  apply Math_round_range.
  - apply Qle_shift_div_l; [exact Hq|]. now rewrite Qmult_0_l.
  - apply Qle_shift_div_r; [exact Hq|]. now rewrite Qplus_0_l in Hhi.
Qed.

Lemma sorted_app_cross {A : Type} (R : A -> A -> Prop) (l1 l2 : list A) :
  StronglySorted R (l1 ++ l2) -> forall x y, In x l1 -> In y l2 -> R x y.
Proof.
  induction l1 as [|a l1 IH]; simpl; intros Hs x y Hx Hy; [destruct Hx|].
  inversion Hs as [|? ? Hs' Hall]; subst. destruct Hx as [->|Hx]; [|eauto].
  rewrite Forall_forall in Hall. apply Hall, in_app_iff. now right.
Qed.

(** Counting by category. *)
Lemma orNum_Some_zero (n : Z) : orNum (Some n) 0 = n.
Proof. simpl. destruct (n =? 0) eqn:E; [apply Z.eqb_eq in E; lia|reflexivity]. Qed.

Lemma ownProperty_bump (c c' : string) (acc : list (string * Counter)) :
  ownProperty c (bump c' acc)
  = if String.eqb c' c then nextValue c (ownProperty c acc) else ownProperty c acc.
Proof.
  induction acc as [|[k v] acc IH].
  - cbn [bump ownProperty nextValue]. destruct (String.eqb c' c) eqn:E.
    + apply String.eqb_eq in E. subst c'.
      destruct (String.eqb c "__proto__"); [reflexivity|].
      destruct (inheritedFunction c); cbn [ownProperty];
        now rewrite String.eqb_refl.
    + destruct (String.eqb c' "__proto__"); [reflexivity|].
      destruct (inheritedFunction c'); cbn [ownProperty]; now rewrite E.
  - cbn [bump]. destruct (String.eqb k c') eqn:Ek.
    + apply String.eqb_eq in Ek. subst k. cbn [ownProperty].
      destruct (String.eqb c' c); reflexivity.
    + cbn [ownProperty]. destruct (String.eqb k c) eqn:Ekc; [|exact IH].
      apply String.eqb_eq in Ekc. subst k. now rewrite String.eqb_sym, Ek.
Qed.

Lemma bump_keys_NoDup (c : string) (acc : list (string * Counter)) :
  NoDup (map fst acc) -> NoDup (map fst (bump c acc)).
Proof.
  induction acc as [|[k v] acc IH]; intros Hnd.
  - cbn [bump]. destruct (String.eqb c "__proto__"); [constructor|].
    destruct (inheritedFunction c); repeat constructor; simpl; tauto.
  - cbn [bump]. destruct (String.eqb k c) eqn:Ek; [exact Hnd|].
    cbn [map fst] in *. inversion Hnd as [|? ? Hnot Hnd']; subst.
    constructor; [|auto].
    intros Hin. apply Hnot. clear - Hin Ek.
    induction acc as [|[k' v'] acc IH]; cbn [bump] in Hin.
    + destruct (String.eqb c "__proto__"); [contradiction|].
      destruct (inheritedFunction c); simpl in Hin;
        destruct Hin as [E|[]]; subst c; now rewrite String.eqb_refl in Ek.
    + destruct (String.eqb k' c); simpl in Hin |- *; tauto.
Qed.

End DashboardFacts.

Section DashboardClaims.
Import DashboardRoute.

Variable category : Book -> string.

(** The four counters of the overview agree: the books started are the
    completed, the reading and the paused ones together, and the completion
    rate is a percentage. *)
Theorem dashboard_counts (db : Db.t) (s : SessionUser) (now : Z) :
  unauthenticated (Some s) = false ->
  exists d,
    GET category db (Some s) now = Success 200 d
    /\ totalBooksStarted (overview d)
       = totalBooksCompleted (overview d) + totalBooksReading (overview d)
         + totalBooksPaused (overview d)
    /\ 0 <= totalBooksCompleted (overview d)
    /\ 0 <= totalBooksReading (overview d)
    /\ 0 <= totalBooksPaused (overview d)
    /\ 0 <= overviewCompletionRate (overview d) <= 100.
Proof.
  intros Hauth. unfold GET. rewrite Hauth. eexists. split; [reflexivity|].
  cbn [overview totalBooksStarted totalBooksCompleted totalBooksReading
       totalBooksPaused overviewCompletionRate].
  pose proof (countWhere_split db (su_id s)) as Hsplit.
  pose proof (countWhere_nonneg db (su_id s) (fun st => status_eqb st COMPLETED)).
  pose proof (countWhere_nonneg db (su_id s) (fun st => status_eqb st READING)).
  pose proof (countWhere_nonneg db (su_id s) (fun st => status_eqb st PAUSED)).
  repeat (split; [assumption|]). apply completionRate_range. lia.
Qed.

(** When the stored percentages lie between 0 and 100, so does the average
    progress of the books being read. *)
Theorem dashboard_average_progress (db : Db.t) (s : SessionUser) (now : Z) :
  unauthenticated (Some s) = false ->
  Forall (fun p => (0 <= rp_progressPercentage p)%Q
                   /\ (rp_progressPercentage p <= 100)%Q) (readingProgress db) ->
  exists d,
    GET category db (Some s) now = Success 200 d
    /\ 0 <= overviewAverageProgress (overview d) <= 100.
Proof.
  intros Hauth Hall. unfold GET. rewrite Hauth. eexists. split; [reflexivity|].
  cbn [overview overviewAverageProgress]. apply averageProgress_range.
  unfold currentlyReading. rewrite Forall_forall in *. intros p Hp.
  apply filter_In in Hp. now apply Hall.
Qed.

(** The five most recent rows: the list has at most 5 rows, all of the
    caller, newest first, and no row of the caller that is left out is
    newer than a listed one. *)
Theorem dashboard_recent (db : Db.t) (s : SessionUser) (now : Z) :
  unauthenticated (Some s) = false ->
  exists d rest,
    GET category db (Some s) now = Success 200 d
    /\ (length (recentProgress d) <= 5)%nat
    /\ StronglySorted (descending rp_updatedAt) (map fst (recentProgress d))
    /\ Permutation (map fst (recentProgress d) ++ rest)
                   (filter (fun p => String.eqb (rp_userId p) (su_id s))
                           (readingProgress db))
    /\ (forall x y, In x (map fst (recentProgress d)) -> In y rest ->
                    rp_updatedAt y <= rp_updatedAt x).
Proof.
  intros Hauth. unfold GET. rewrite Hauth.
  set (mine := filter (fun p => String.eqb (rp_userId p) (su_id s)) (readingProgress db)).
  eexists. exists (skipn 5 (sortDesc rp_updatedAt mine)).
  split; [reflexivity|]. cbn [recentProgress].
  rewrite map_map. cbn [fst]. rewrite map_id, length_map.
  pose proof (sortDesc_sorted rp_updatedAt mine) as Hsorted.
  split; [apply firstn_le_length|]. split; [now apply firstn_sorted|]. split.
  - rewrite firstn_skipn. apply sortDesc_Permutation.
  - intros x y Hx Hy. rewrite <- (firstn_skipn 5) in Hsorted.
    exact (sorted_app_cross _ _ _ Hsorted x y Hx Hy).
Qed.

(** A caller without progress rows gets zeros everywhere: the four
    counters, the completion rate, the average progress and the streak are
    0, the recent list and the category breakdown are empty, and the six
    monthly buckets are empty. *)
Theorem dashboard_no_activity (db : Db.t) (s : SessionUser) (now : Z) :
  unauthenticated (Some s) = false ->
  (forall p, In p (readingProgress db) -> rp_userId p <> su_id s) ->
  exists d,
    GET category db (Some s) now = Success 200 d
    /\ overview d
       = {| totalBooksStarted := 0; totalBooksCompleted := 0;
            totalBooksReading := 0; totalBooksPaused := 0;
            overviewCompletionRate := 0; overviewAverageProgress := 0;
            readingStreak := 0 |}
    /\ recentProgress d = [] /\ categoryBreakdown d = []
    /\ length (monthlyStats d) = 6%nat
    /\ (forall bucket, In bucket (monthlyStats d) ->
          Dashboard.completed bucket = 0 /\ Dashboard.started bucket = 0
          /\ Dashboard.total bucket = 0).
Proof.
  intros Hauth Hnone. unfold GET. rewrite Hauth. eexists. split; [reflexivity|].
  assert (Hf : forall f : ReadingProgress -> bool,
             filter (fun p => String.eqb (rp_userId p) (su_id s) && f p)
                    (readingProgress db) = []).
  { intros f. apply filter_nothing. intros p Hp.
    apply Hnone in Hp. apply String.eqb_neq in Hp. now rewrite Hp. }
  assert (Hmine : filter (fun p => String.eqb (rp_userId p) (su_id s))
                         (readingProgress db) = []).
  { apply filter_nothing. intros p Hp. apply Hnone in Hp.
    now apply String.eqb_neq in Hp. }
  cbn [overview recentProgress categoryBreakdown monthlyStats].
  unfold countWhere, currentlyReading, categoryStats, Dashboard.activitiesOf.
  rewrite !Hf, Hmine.
  split; [reflexivity|]. split; [reflexivity|]. split.
  - unfold categoriesOfBooks. cbn [distinct map existsb].
    rewrite (filter_nothing _ (books db)) by reflexivity. reflexivity.
  - split; [reflexivity|]. cbn [map]. apply processMonthlyStats_empty.
Qed.

End DashboardClaims.

Section CategoryBreakdown.
Import DashboardRoute.

Lemma ownProperty_fold (c : string) (l : list string)
    (acc : list (string * Counter)) :
  ownProperty c (fold_left (fun a x => bump x a) l acc)
  = Nat.iter (length (filter (fun x => String.eqb x c) l)) (nextValue c)
             (ownProperty c acc).
Proof.
  revert acc. induction l as [|x l IH]; intros acc; cbn [fold_left filter].
  - reflexivity.
  - rewrite IH, ownProperty_bump. destruct (String.eqb x c); [|reflexivity].
    cbn [length]. now rewrite Nat.iter_succ_r.
Qed.

Lemma categoryCounts_NoDup (l : list string) (acc : list (string * Counter)) :
  NoDup (map fst acc) ->
  NoDup (map fst (fold_left (fun a x => bump x a) l acc)).
Proof.
  revert acc. induction l as [|x l IH]; intros acc H; cbn [fold_left]; [exact H|].
  apply IH. now apply bump_keys_NoDup.
Qed.

(** What [n] books of a category leave under its key, in an object that
    starts empty. *)
Lemma nextValue_iter (c : string) (n : nat) :
  Nat.iter n (nextValue c) None
  = match n with
    | O => None
    | S _ =>
        if String.eqb c "__proto__" then None
        else if inheritedFunction c then Some Text
        else Some (Count (Z.of_nat n))
    end.
Proof.
  induction n as [|n IH]; [reflexivity|].
  cbn [Nat.iter nat_rect]. change (nat_rect _ None (fun _ => nextValue c) n)
    with (Nat.iter n (nextValue c) None). rewrite IH.
  destruct n as [|n]; [reflexivity|].
  destruct (String.eqb c "__proto__") eqn:Ep.
  - cbn [nextValue]. now rewrite Ep.
  - destruct (inheritedFunction c); [reflexivity|].
    cbn [nextValue plusOne]. rewrite orNum_Some_zero. do 2 f_equal. lia.
Qed.

(** Two books of fiction and two books whose category is "constructor",
    one whose category is "__proto__". *)
Example category_named_like_inherited_property :
  categoryCounts ["Fiction"; "constructor"; "Fiction"; "__proto__"; "constructor"]
  = [("Fiction", Count 2); ("constructor", Text)].
Proof. reflexivity. Qed.

Lemma distinct_In (x : string) (l : list string) : In x (distinct l) <-> In x l.
Proof.
  induction l as [|y l IH]; simpl; [tauto|]. rewrite filter_In, IH. split.
  - intros [->|[H _]]; auto.
  - intros [->|H]; [now left|].
    destruct (string_dec x y) as [->|Hne]; [now left|].
    right. split; [exact H|]. apply negb_true_iff, String.eqb_neq. exact Hne.
Qed.

Lemma existsb_ext_In {A : Type} (f : A -> bool) (l l' : list A) :
  (forall x, In x l <-> In x l') -> existsb f l = existsb f l'.
Proof.
  intros H. destruct (existsb f l) eqn:E.
  - apply existsb_exists in E. destruct E as (x & Hx & Hf).
    symmetry. apply existsb_exists. exists x. split; [now apply H|exact Hf].
  - destruct (existsb f l') eqn:E'; [|reflexivity].
    apply existsb_exists in E'. destruct E' as (x & Hx & Hf).
    assert (existsb f l = true)
      by (apply existsb_exists; exists x; split; [now apply H|exact Hf]).
    congruence.
Qed.

Lemma categoryStats_existsb (db : Db.t) (u bid : string) :
  existsb (String.eqb bid) (categoryStats db u)
  = existsb (fun p => String.eqb (rp_userId p) u
                      && negb (status_eqb (rp_status p) NOT_STARTED)
                      && String.eqb (rp_bookId p) bid)
            (readingProgress db).
Proof.
  unfold categoryStats.
  rewrite (existsb_ext_In _ _ _ (fun x => distinct_In x _)).
  induction (readingProgress db) as [|p rows IHr]; [reflexivity|].
  cbn [filter existsb].
  destruct (String.eqb (rp_userId p) u
            && negb (status_eqb (rp_status p) NOT_STARTED)); cbn [map existsb andb orb].
  - rewrite IHr, (String.eqb_sym bid). reflexivity.
  - exact IHr.
Qed.

End CategoryBreakdown.

Section CategoryBreakdownClaims.
Import DashboardRoute.

Variable category : Book -> string.

(** The category breakdown has one entry per key.  For a category that
    is not the name of a property objects inherit, the entry is the number
    of books of the catalog in that category for which the caller has a
    progress row that is not NOT_STARTED, and there is no entry when that
    number is 0.  For a category named like an inherited function
    ("constructor", "toString", ...) with such a book the entry is a text,
    not a number; the category "__proto__" never gets an entry. *)
Theorem dashboard_category_breakdown (db : Db.t) (s : SessionUser) (now : Z) :
  unauthenticated (Some s) = false ->
  exists d,
    GET category db (Some s) now = Success 200 d
    /\ NoDup (map fst (categoryBreakdown d))
    /\ (forall c,
          let n := length (filter
              (fun b => String.eqb (category b) c
                        && existsb (fun p => String.eqb (rp_userId p) (su_id s)
                                             && negb (status_eqb (rp_status p) NOT_STARTED)
                                             && String.eqb (rp_bookId p) (b_id b))
                                   (readingProgress db))
              (books db)) in
          (n = O -> ownProperty c (categoryBreakdown d) = None)
          /\ (n <> O -> c <> "__proto__" -> inheritedFunction c = false ->
              ownProperty c (categoryBreakdown d) = Some (Count (Z.of_nat n)))
          /\ (n <> O -> inheritedFunction c = true ->
              ownProperty c (categoryBreakdown d) = Some Text)
          /\ (c = "__proto__" -> ownProperty c (categoryBreakdown d) = None)).
Proof.
  intros Hauth. unfold GET. rewrite Hauth. eexists. split; [reflexivity|].
  cbn [categoryBreakdown]. unfold categoryCounts.
  split; [apply categoryCounts_NoDup; constructor|].
  intros c.
  match goal with |- (length ?l = O -> _) /\ _ => set (n := length l) end.
  rewrite ownProperty_fold. cbn [ownProperty].
  assert (Hn : length (filter (fun x => String.eqb x c)
                         (categoriesOfBooks category db (categoryStats db (su_id s))))
               = n).
  { subst n. unfold categoriesOfBooks.
    induction (books db) as [|b l IH]; [reflexivity|]. cbn [filter].
    rewrite categoryStats_existsb.
    destruct (existsb _ (readingProgress db)); cbn [map filter];
      rewrite ?andb_true_r, ?andb_false_r; [|exact IH].
    destruct (String.eqb (category b) c); cbn [length]; now rewrite IH. }
  rewrite Hn, nextValue_iter. clear Hn.
  split; [intros ->; reflexivity|]. split; [|split].
  - intros Hne Hp Hf. destruct n as [|n]; [contradiction|].
    apply String.eqb_neq in Hp. now rewrite Hp, Hf.
  - intros Hne Hf. destruct n as [|n]; [contradiction|].
    destruct (String.eqb c "__proto__") eqn:Ep; [|now rewrite Hf].
    apply String.eqb_eq in Ep. subst c. discriminate Hf.
  - intros ->. destruct n; reflexivity.
Qed.

End CategoryBreakdownClaims.

(** ** Dashboard statistics route: the monthly buckets *)

Section MonthlyShape.
Import Dashboard.

Lemma filter_filter_length {A : Type} (f g : A -> bool) (l : list A) :
  (length (filter f (filter g l)) <= length (filter f l))%nat.
Proof.
  induction l as [|x l IH]; simpl; [lia|].
  destruct (g x); simpl; destruct (f x); simpl; lia.
Qed.

(** The aggregator always returns six buckets, labelled with the months of
    the loop in order; in each the total is the completed plus the started
    count, and neither count exceeds the number of COMPLETED, respectively
    READING, entries given; on no entries all counts are 0. *)
Theorem monthly_buckets_shape (stats : list (Z * ReadingStatus)) (now : Z) :
  length (processMonthlyStats stats now) = 6%nat
  /\ map month (processMonthlyStats stats now)
     = map (fun ym => shortMonth (snd ym)) (bucketMonths now)
  /\ (forall bucket, In bucket (processMonthlyStats stats now) ->
        total bucket = completed bucket + started bucket
        /\ 0 <= completed bucket
           <= Z.of_nat (length (filter (fun e => status_eqb (snd e) COMPLETED) stats))
        /\ 0 <= started bucket
           <= Z.of_nat (length (filter (fun e => status_eqb (snd e) READING) stats)))
  /\ (stats = [] ->
      forall bucket, In bucket (processMonthlyStats stats now) -> total bucket = 0).
Proof.
  split; [apply processMonthlyStats_length|].
  split; [apply processMonthlyStats_months|]. split.
  - intros bucket Hb.
    destruct (processMonthlyStats_total stats now bucket Hb) as (Ht & Hc & Hs).
    split; [exact Ht|]. unfold processMonthlyStats in Hb. apply in_map_iff in Hb.
    destruct Hb as (i & <- & _). unfold monthBucket. cbn [completed started].
    set (window := fun stat : Z * ReadingStatus => _ && _).
    pose proof (filter_filter_length
                  (fun e : Z * ReadingStatus => status_eqb (snd e) COMPLETED)
                  window stats).
    pose proof (filter_filter_length
                  (fun e : Z * ReadingStatus => status_eqb (snd e) READING)
                  window stats).
    lia.
  - intros -> bucket Hb. now apply processMonthlyStats_empty in Hb.
Qed.

End MonthlyShape.

(** ** Dashboard page: the level bar *)

Section LevelBar.
Import DashboardPage.

(** The level bar is never above 100 and is exactly 100 from the points
    of the next level on; from the points of the level on it is not
    negative and lies within 2^-51 (relative) of
    [(points - (level - 1) * 1000) / 10] capped at 100; below the points
    of the level it is negative: there is no lower clamp. *)
Theorem level_progress_range (points level : Z) :
  let exact := (inject_Z (points - (level - 1) * 1000) / 10)%Q in
  (levelProgress points level <= 100)%Q
  /\ (level * 1000 <= points -> (levelProgress points level == 100)%Q)
  /\ ((level - 1) * 1000 <= points ->
      (0 <= levelProgress points level)%Q
      /\ (Qabs (levelProgress points level - Qmin exact 100) * Double.pow2 51
          <= exact)%Q)
  /\ (points < (level - 1) * 1000 -> (levelProgress points level < 0)%Q).
Proof.
  unfold levelProgress, getNextLevelPoints, getCurrentLevelPoints. cbv zeta.
  replace (level * 1000 - (level - 1) * 1000) with 1000 by lia.
  set (pp := points - (level - 1) * 1000).
  unfold Double.div. set (a := (inject_Z pp / inject_Z 1000)%Q).
  assert (Hval : (a * 100 == inject_Z pp / 10)%Q) by (unfold a; now field).
  assert (Hsign : 0 <= pp -> (0 <= a)%Q).
  { intros H. unfold a. apply Qle_shift_div_l; [reflexivity|].
    rewrite Qmult_0_l. unfold Qle; simpl; lia. }
  split; [apply Q.le_min_r|]. split; [|split].
  - intros H. destruct (percent_double a) as (_ & _ & _ & Hfull);
      [apply Hsign; lia|].
    apply Hfull. unfold a. apply Qle_shift_div_l; [reflexivity|].
    unfold Qle; simpl; lia.
  - intros H. destruct (percent_double a) as (H0 & _ & Herr & _);
      [apply Hsign; lia|].
    split; [exact H0|]. rewrite <- Hval. exact Herr.
  - intros H. apply percent_double_neg. unfold a.
    apply Qlt_shift_div_r; [reflexivity|]. rewrite Qmult_0_l.
    unfold Qlt; simpl; lia.
Qed.

(** 7 points into level 1: the bar is at 6305039478318695 / 2^53, printed
    0.7000000000000001, and not at 0.7. *)
Example level_progress_seven :
  (levelProgress 7 1 == 6305039478318695 # 9007199254740992)%Q
  /\ ~ (levelProgress 7 1 == 7 # 10)%Q.
Proof. split; [vm_compute; reflexivity | vm_compute; discriminate]. Qed.

End LevelBar.

(** ** Instances of the properties above on the sample data *)

Lemma readingBody_accepted :
  Progress.accepted db0 (Some annSession) readingBody annSession "b1" novel.
Proof. repeat split; try reflexivity. discriminate. Defined.

Lemma progress_post_unique_witness :
  Invariant.uniqueProgress (snd (Progress.POST db0 (Some annSession) readingBody sampleNow))
  /\ length (readingProgress
               (snd (Progress.POST db0 (Some annSession) readingBody sampleNow)))
     = 1%nat.
Proof.
  destruct (progress_post_unique db0 (Some annSession) readingBody sampleNow)
    as [Hu Hlen]; [constructor|].
  split; [exact Hu|]. exact (Hlen annSession "b1" novel readingBody_accepted).
Defined.

Lemma progress_post_row_witness :
  exists row,
    findProgress (snd (Progress.POST db0 (Some annSession) readingBody sampleNow))
                 "u1" "b1" = Some row
    /\ rp_currentPage row = 150 /\ rp_status row = READING
    /\ rp_startedAt row = Some sampleNow /\ rp_completedAt row = None.
Proof.
  destruct (progress_post_row db0 (Some annSession) readingBody sampleNow
              annSession "b1" novel readingBody_accepted)
    as (row & Hrow & Hpage & _ & _ & Hst & Hstart & Hdone).
  exists row. repeat (split; [assumption|]). exact Hdone.
Defined.

Lemma progress_post_capped_witness :
  Invariant.percentagesCapped
    (snd (Progress.POST db0 (Some annSession) readingBody sampleNow)).
Proof.
  apply (progress_post_capped db0 (Some annSession) readingBody sampleNow).
  constructor.
Defined.

Lemma progress_post_negative_page_witness :
  exists row,
    findProgress (snd (Progress.POST db0 (Some annSession) negativeBody sampleNow))
                 "u1" "b1" = Some row
    /\ rp_currentPage row = -30 /\ (rp_progressPercentage row < 0)%Q.
Proof.
  apply (progress_post_negative_page db0 (Some annSession) negativeBody sampleNow
           annSession "b1" novel (-30)).
  - repeat split; try reflexivity. discriminate.
  - reflexivity.
  - lia.
  - reflexivity.
Defined.

Lemma progress_get_rows_witness :
  statusOf (ProgressList.GET dbTwoToday (Some annSession) None (Some READING)) = 200
  /\ StronglySorted (descending rp_updatedAt)
       (ProgressList.rowsOf
          (ProgressList.GET dbTwoToday (Some annSession) None (Some READING))).
Proof.
  destruct (progress_get_rows dbTwoToday annSession None (Some READING) eq_refl)
    as (Hst & _ & _ & Hsorted).
  split; [exact Hst|exact Hsorted].
Defined.

Lemma progress_post_then_get_witness :
  exists row,
    rp_updatedAt row = sampleNow
    /\ ProgressList.rowsOf
         (ProgressList.GET (snd (Progress.POST db0 (Some annSession) readingBody sampleNow))
            (Some annSession) (Some "b1") None) = [row].
Proof.
  destruct (progress_post_then_get db0 (Some annSession) readingBody sampleNow
              annSession "b1" novel readingBody_accepted)
    as (row & _ & Hnow & Hrows); [constructor|].
  exists row. split; [exact Hnow|exact Hrows].
Defined.

Lemma leaderboard_stats_sane_witness :
  exists e,
    In e (Leaderboard.GET dbTwoToday "students" "week" 10 sampleNow)
    /\ 0 <= Leaderboard.completionRate (Leaderboard.stats e) <= 100.
Proof.
  set (board := Leaderboard.GET dbTwoToday "students" "week" 10 sampleNow).
  set (e := nth 2 board
              (Leaderboard.entryOf 0
                 {| Leaderboard.user := ann; Leaderboard.uw_readingProgress := [];
                    Leaderboard.uw_summaries := [] |} 0)).
  assert (Hin : In e board) by (right; right; left; reflexivity).
  exists e. split; [exact Hin|].
  destruct (leaderboard_stats_sane dbTwoToday "students" "week" 10 sampleNow e Hin)
    as (_ & _ & _ & Hrate & _).
  exact Hrate.
Defined.

Lemma dbOneRated_ratings : Invariant.ratingsInRange dbOneRated.
Proof.
  unfold Invariant.ratingsInRange. simpl.
  constructor; [intros r [= <-]; lia|].
  constructor; [intros r [=]|constructor].
Defined.

Lemma leaderboard_average_range_witness :
  exists e,
    In e (Leaderboard.GET dbOneRated "students" "all" 10 sampleNow)
    /\ (Leaderboard.averageSummaryRating (Leaderboard.stats e) <= 5)%Q.
Proof.
  set (board := Leaderboard.GET dbOneRated "students" "all" 10 sampleNow).
  set (e := nth 2 board
              (Leaderboard.entryOf 0
                 {| Leaderboard.user := ann; Leaderboard.uw_readingProgress := [];
                    Leaderboard.uw_summaries := [] |} 0)).
  assert (Hin : In e board) by (right; right; left; reflexivity).
  exists e. split; [exact Hin|].
  exact (proj2 (leaderboard_average_range dbOneRated "students" "all" 10 sampleNow e
                  dbOneRated_ratings Hin)).
Defined.

Lemma rating_needs_teacher_witness :
  let res := Summaries.PATCH db1 (Some annSession) "s1"
               {| Summaries.rating := JNum (inject_Z 5);
                  Summaries.feedback := None |} in
  snd res = db1 /\ statusOf (fst res) = 403.
Proof.
  intros res.
  destruct (rating_needs_teacher db1 (Some annSession) "s1"
              {| Summaries.rating := JNum (inject_Z 5); Summaries.feedback := None |})
    as (Hdb & [H|H] & _).
  - intros s [= <-] _. reflexivity.
  - discriminate H.
  - split; [exact Hdb|exact H].
Defined.

Lemma rating_then_get_witness :
  exists d,
    SummaryById.GET
      (snd (Summaries.PATCH db1 (Some tessSession) "s1"
              {| Summaries.rating := JNum (inject_Z 3);
                 Summaries.feedback := Some "Good analysis" |})) "s1"
    = Success 200 d
    /\ s_rating (SummaryById.summary d) = Some 3
    /\ map c_content (SummaryById.detailComments d)
       = ["Teacher Feedback: Good analysis"].
Proof.
  destruct (rating_then_get db1 tessSession "s1" 3 "Good analysis" annSummary 10
              eq_refl (or_introl eq_refl) ltac:(lia) ltac:(discriminate)
              eq_refl eq_refl)
    as (d & Hget & Hsum & Hcom).
  exists d. split; [exact Hget|]. split; [now rewrite Hsum|].
  rewrite Hcom. reflexivity.
Defined.

Lemma summary_post_one_per_book_witness :
  Invariant.oneSummaryPerBook
    (snd (Summaries.POST db1 (Some annSession) summaryBody "s2" sampleNow)).
Proof.
  apply (summary_post_one_per_book db1 (Some annSession) summaryBody "s2" sampleNow).
  repeat constructor. intros [].
Defined.

Lemma summary_post_twice_witness :
  let db' := snd (Summaries.POST db0 (Some annSession) summaryBody "s1" sampleNow) in
  let again := Summaries.POST db' (Some annSession) summaryBody "s2" (sampleNow + 1) in
  statusOf (fst again) = 409 /\ snd again = db' /\ pointsOf db' "u1" = Some 60.
Proof.
  apply (summary_post_twice db0 annSession summaryBody summaryBody "s1" "s2"
           sampleNow (sampleNow + 1) "A summary." "A summary." "b1" novel 10);
    try reflexivity; discriminate.
Defined.

Lemma summary_delete_rights_witness :
  statusOf (fst (SummaryById.DELETE db1 (Some annSession) "s1")) = 200
  /\ findSummary (snd (SummaryById.DELETE db1 (Some annSession) "s1")) "s1" = None
  /\ statusOf (fst (SummaryById.DELETE db1 (Some tessSession) "s1")) = 403.
Proof.
  destruct (summary_delete_rights db1 annSession "s1" annSummary eq_refl eq_refl)
    as (Hok & _ & _).
  destruct (summary_delete_rights db1 tessSession "s1" annSummary eq_refl eq_refl)
    as (_ & Hno & _).
  destruct (Hok (or_introl eq_refl)) as (H1 & H2 & _).
  destruct (Hno ltac:(discriminate) ltac:(discriminate)) as (H3 & _).
  split; [exact H1|]. split; [exact H2|exact H3].
Defined.

Lemma summary_create_delete_create_witness :
  let db' := snd (Summaries.POST db0 (Some annSession) summaryBody "s1" sampleNow) in
  let del := SummaryById.DELETE db' (Some annSession) "s1" in
  let again := Summaries.POST (snd del) (Some annSession) summaryBody "s2"
                 (sampleNow + 1) in
  pointsOf db0 "u1" = Some 10 /\ pointsOf (snd again) "u1" = Some 110
  /\ length (summaries (snd again)) = 1%nat.
Proof.
  intros db' del again. split; [reflexivity|].
  destruct (summary_create_delete_create db0 annSession summaryBody "s1" "s2"
              sampleNow (sampleNow + 1) "A summary." "b1" novel 10)
    as (_ & _ & Hp & Hlen); try reflexivity; try discriminate.
  split; [exact Hp|exact Hlen].
Defined.

Lemma summary_post_then_get_witness :
  exists summary d,
    SummaryById.GET (snd (Summaries.POST db0 (Some annSession) summaryBody "s1"
                            sampleNow)) "s1" = Success 200 d
    /\ SummaryById.summary d = summary /\ s_content summary = "A summary.".
Proof.
  destruct (summary_post_then_get db0 annSession summaryBody "s1" sampleNow
              "A summary." "b1" novel 10)
    as (summary & d & _ & Hget & Hsum & _ & Hc & _); try reflexivity; try discriminate.
  exists summary, d. split; [exact Hget|]. split; [exact Hsum|exact Hc].
Defined.

Lemma summaries_list_page_witness :
  exists rows pg,
    SummaryList.GET dbOneRated None (Some "u1") None 1 1 = Some (rows, pg)
    /\ (length rows <= 1)%nat /\ SummaryList.hasNext pg = true.
Proof.
  destruct (summaries_list_page dbOneRated None (Some "u1") None 1 1)
    as (rows & pg & Hget & Hlen & _ & Hcount & _ & Hnext & _); try lia.
  exists rows, pg. split; [exact Hget|]. split; [exact Hlen|].
  apply Hnext. rewrite Hcount. reflexivity.
Defined.

Lemma summaries_list_pages_tile_witness :
  flat_map (fun k => SummaryList.pageFrom
                       (sortDesc s_createdAt (summaries dbTwoSummaries)) 1
                       (Z.of_nat (S k)))
           (seq 0 2)
  = [bobSummary; annSummary].
Proof.
  destruct (summaries_list_pages_tile dbTwoSummaries None None None 1
              (fun _ => sortDesc s_createdAt (summaries dbTwoSummaries)))
    as [H _].
  - lia.
  - simpl. repeat constructor; simpl; intuition discriminate.
  - intros k. split; [apply sortDesc_Permutation | apply sortDesc_sorted].
  - exact H.
Defined.

Lemma streak_counts_consecutive_days_witness :
  let activities := [sampleNow - 3600000; sampleNow - msPerDay] in
  Dashboard.calculateReadingStreak activities sampleNow = 2
  /\ ~ (exists a, In a activities /\ dayOf a = dayOf sampleNow - 2).
Proof.
  intros activities. split; [reflexivity|].
  destruct (streak_counts_consecutive_days activities sampleNow) as (_ & _ & Hgap).
  - intros a [<-|[<-|[]]]; vm_compute; discriminate.
  - exact Hgap.
Defined.

Lemma dashboard_counts_witness :
  exists d,
    DashboardRoute.GET sampleCategory dbTwoToday (Some annSession) sampleNow
    = Success 200 d
    /\ DashboardRoute.totalBooksStarted (DashboardRoute.overview d)
       = DashboardRoute.totalBooksCompleted (DashboardRoute.overview d)
         + DashboardRoute.totalBooksReading (DashboardRoute.overview d)
         + DashboardRoute.totalBooksPaused (DashboardRoute.overview d).
Proof.
  destruct (dashboard_counts sampleCategory dbTwoToday annSession sampleNow eq_refl)
    as (d & Hget & Hsum & _).
  exists d. split; [exact Hget|exact Hsum].
Defined.

Lemma dbTwoToday_percentages :
  Forall (fun p => (0 <= rp_progressPercentage p)%Q
                   /\ (rp_progressPercentage p <= 100)%Q)
         (readingProgress dbTwoToday).
Proof. repeat constructor; unfold Qle; simpl; lia. Defined.

Lemma dashboard_average_progress_witness :
  exists d,
    DashboardRoute.GET sampleCategory dbTwoToday (Some annSession) sampleNow
    = Success 200 d
    /\ 0 <= DashboardRoute.overviewAverageProgress (DashboardRoute.overview d) <= 100.
Proof.
  exact (dashboard_average_progress sampleCategory dbTwoToday annSession sampleNow
           eq_refl dbTwoToday_percentages).
Defined.

Lemma dashboard_recent_witness :
  exists d,
    DashboardRoute.GET sampleCategory dbTwoToday (Some annSession) sampleNow
    = Success 200 d
    /\ (length (DashboardRoute.recentProgress d) <= 5)%nat.
Proof.
  destruct (dashboard_recent sampleCategory dbTwoToday annSession sampleNow eq_refl)
    as (d & rest & Hget & Hlen & _).
  exists d. split; [exact Hget|exact Hlen].
Defined.

Lemma dashboard_no_activity_witness :
  exists d,
    DashboardRoute.GET sampleCategory dbTwoToday (Some tessSession) sampleNow
    = Success 200 d
    /\ DashboardRoute.recentProgress d = []
    /\ length (DashboardRoute.monthlyStats d) = 6%nat.
Proof.
  destruct (dashboard_no_activity sampleCategory dbTwoToday tessSession sampleNow
              eq_refl)
    as (d & Hget & _ & Hrecent & _ & Hlen & _).
  - intros p [<-|[<-|[]]]; discriminate.
  - exists d. split; [exact Hget|]. split; [exact Hrecent|exact Hlen].
Defined.

Lemma dashboard_category_breakdown_witness :
  exists d,
    DashboardRoute.GET sampleCategory dbTwoToday (Some annSession) sampleNow
    = Success 200 d
    /\ DashboardRoute.ownProperty "Fiction" (DashboardRoute.categoryBreakdown d)
       = Some (DashboardRoute.Count 1)
    /\ DashboardRoute.ownProperty "Poetry" (DashboardRoute.categoryBreakdown d)
       = None.
Proof.
  destruct (dashboard_category_breakdown sampleCategory dbTwoToday annSession
              sampleNow eq_refl)
    as (d & Hget & _ & Hcount).
  exists d. split; [exact Hget|]. split.
  - destruct (Hcount "Fiction") as (_ & H & _).
    apply H; [discriminate | discriminate | reflexivity].
  - destruct (Hcount "Poetry") as (H & _). apply H. reflexivity.
Defined.
